(** * The Terraform inventory plugin: backends, drivers, stacks

    A shallow embedding of [plugins/inventory/terraform.py]: the Consul
    backend with its response cache, the resource drivers, the stack
    expansion and the merge of the per-stack host maps.

    Python values are JSON-shaped throughout (the configuration comes from
    YAML, the payloads from [json.loads]).  Numbers are integers; floating
    point numbers are outside the model.  A string is a sequence of
    characters of one byte each.  The library calls the plugin makes
    ([requests.get], [json.loads], [base64.b64decode], [re.compile] and
    the [repr] of a container) are taken from an environment record.

    Exceptions are results: a function that can raise returns [result], and
    one that also prints, displays, fetches or touches a cache runs in the
    monad [M] over the state of the run.  The state logs every call of
    [print] and of the display with the verbosity of the method called;
    [written] gives what a run at a given verbosity writes of them.

    Host definitions are values.  In the plugin the dictionaries that
    [expand_conf] annotates are the very objects the backend cache holds,
    so a later expansion of the same stack identifier annotates them once
    more.  It then writes the entries it wrote before: the URL of the cache
    entry fixes the identifier, and [ansible_host] is the only driver that
    returns hosts.  The host map of a run is therefore the same whether the
    cache hands out the objects or copies of what was fetched. *)

From Stdlib Require Import String Ascii List ZArith Bool Lia DecimalString.
Import ListNotations.
Open Scope string_scope.
Open Scope list_scope.

Infix "+++" := String.append (at level 60, right associativity).

Set Warnings "-register-all".

(** ** Python values *)

Inductive json : Type :=
| JNull
| JBool (b : bool)
| JNum (n : Z)
| JStr (s : string)
| JList (l : list json)
| JDict (d : list (string * json)).

(** A [dict] with string keys, in insertion order. *)
Definition dict := list (string * json).

(** [bool(v)]: what [if v], [not v] and [a or b] test. *)
Definition truthy (v : json) : bool :=
  match v with
  | JNull => false
  | JBool b => b
  | JNum n => negb (n =? 0)%Z
  | JStr s => negb (s =? "")
  | JList l => match l with [] => false | _ => true end
  | JDict d => match d with [] => false | _ => true end
  end.

(** [a or b] *)
Definition py_or (a b : json) : json := if truthy a then a else b.

Fixpoint dict_get (d : dict) (k : string) : option json :=
  match d with
  | [] => None
  | (k', v) :: r => if k' =? k then Some v else dict_get r k
  end.

(** [d.get(k, dflt)] *)
Definition dict_get_default (d : dict) (k : string) (dflt : json) : json :=
  match dict_get d k with Some v => v | None => dflt end.

(** [d[k] = v]: an existing key keeps its place, a new one goes last. *)
Fixpoint dict_set (d : dict) (k : string) (v : json) : dict :=
  match d with
  | [] => [(k, v)]
  | (k', v') :: r =>
      if k' =? k then (k', v) :: r else (k', v') :: dict_set r k v
  end.

(** [d.update(d2)] *)
Definition dict_update (d d2 : dict) : dict :=
  fold_left (fun acc kv => dict_set acc (fst kv) (snd kv)) d2 d.

(** ** Exceptions and results *)

Inductive exn : Type :=
| AnsibleError (msg : string)
| Exception (msg : string)
| KeyError (key : json)
| TypeError (what : string)
| AttributeError (what : string)
| ValueError (what : string)
| ReError (pattern : string).

Inductive result (A : Type) : Type :=
| Ok (a : A)
| Err (e : exn).
Arguments Ok {A} a.
Arguments Err {A} e.

Definition bindR {A B} (r : result A) (f : A -> result B) : result B :=
  match r with
  | Ok a => f a
  | Err e => Err e
  end.

Notation "'let!' x ':=' r 'in' k" := (bindR r (fun x => k))
  (at level 10, x name, r at level 100, k at level 200).

(** The elements of a comprehension, left to right; the first exception
    ends it. *)
Fixpoint mapR {A B} (f : A -> result B) (l : list A) : result (list B) :=
  match l with
  | [] => Ok []
  | x :: r =>
      let! y := f x in
      let! ys := mapR f r in
      Ok (y :: ys)
  end.

(** [d[k]] *)
Definition dict_getitem (d : dict) (k : string) : result json :=
  match dict_get d k with
  | Some v => Ok v
  | None => Err (KeyError (JStr k))
  end.

(** [v.get(k, dflt)] on a value that may not be a dict. *)
Definition py_get (v : json) (k : string) (dflt : json) : result json :=
  match v with
  | JDict d => Ok (dict_get_default d k dflt)
  | _ => Err (AttributeError "get")
  end.

(** [for x in v]: lists give their elements, strings their characters,
    dicts their keys. *)
Definition py_iter (v : json) : result (list json) :=
  match v with
  | JList l => Ok l
  | JStr s => Ok (map (fun c => JStr (String c "")) (list_ascii_of_string s))
  | JDict d => Ok (map (fun kv => JStr (fst kv)) d)
  | _ => Err (TypeError "object is not iterable")
  end.

(** [len(v)] *)
Definition py_len (v : json) : result nat :=
  match v with
  | JList l => Ok (length l)
  | JStr s => Ok (String.length s)
  | JDict d => Ok (length d)
  | _ => Err (TypeError "object has no len()")
  end.

(** [v == s] for a string constant [s]. *)
Definition eq_str (v : json) (s : string) : bool :=
  match v with
  | JStr t => t =? s
  | _ => false
  end.

(** [v in types] for a list of string constants. *)
Definition in_strs (v : json) (types : list string) : bool :=
  existsb (eq_str v) types.

(** *** Hashable values as dictionary keys *)

Definition hashable (v : json) : bool :=
  match v with
  | JList _ | JDict _ => false
  | _ => true
  end.

(** Key equality: [True == 1] and [False == 0] in Python. *)
Definition key_eqb (a b : json) : bool :=
  match a, b with
  | JNull, JNull => true
  | JStr s, JStr t => s =? t
  | JBool x, JBool y => Bool.eqb x y
  | JBool x, JNum n => ((if x then 1 else 0) =? n)%Z
  | JNum n, JBool y => (n =? (if y then 1 else 0))%Z
  | JNum n, JNum m => (n =? m)%Z
  | _, _ => false
  end.

(** A host map: hostname to host definition, in insertion order. *)
Definition hosts := list (json * json).

Fixpoint hosts_get (h : hosts) (k : json) : option json :=
  match h with
  | [] => None
  | (k', v) :: r => if key_eqb k' k then Some v else hosts_get r k
  end.

Definition hosts_mem (h : hosts) (k : json) : bool :=
  match hosts_get h k with
  | Some _ => true
  | None => false
  end.

(** [k in h]; an unhashable [k] is a [TypeError]. *)
Definition hosts_contains (h : hosts) (k : json) : result bool :=
  if hashable k then Ok (hosts_mem h k)
  else Err (TypeError "unhashable type").

(** [h[k] = v] *)
Fixpoint hosts_set (h : hosts) (k v : json) : hosts :=
  match h with
  | [] => [(k, v)]
  | (k', v') :: r =>
      if key_eqb k' k then (k', v) :: r else (k', v') :: hosts_set r k v
  end.

(** ** The environment: library calls *)

Record request : Type := {
  req_url : string;
  req_params : dict;
  req_headers : dict
}.

(** What [requests.get] does: it raises, or answers with a status code, a
    reason, the final URL and the body. *)
Inductive http_reply : Type :=
| RequestFailed (e : string)
| Response (status_code : Z) (reason url text : string).

Record Env : Type := {
  (** [requests.get]; the first argument lists the requests already made,
      latest first. *)
  http_get : list request -> request -> http_reply;
  (** [json.loads]; [None] when it raises. *)
  json_loads : string -> option json;
  (** [base64.b64decode]; [None] when it raises. *)
  b64decode : string -> option string;
  (** [re.compile(p).match] as a test; [None] when [re.compile] raises. *)
  re_compile : string -> option (string -> bool);
  (** [repr] of a list or a dict. *)
  py_repr : json -> string
}.

Definition str_of_Z (n : Z) : string := NilZero.string_of_int (Z.to_int n).
Definition str_of_nat (n : nat) : string := NilZero.string_of_uint (Nat.to_uint n).

(** [str(v)], as [%s] and f-strings apply it. *)
Definition py_str (env : Env) (v : json) : string :=
  match v with
  | JNull => "None"
  | JBool true => "True"
  | JBool false => "False"
  | JNum n => str_of_Z n
  | JStr s => s
  | _ => py_repr env v
  end.

(** ** Output and state *)

(** The messages of the module, by the call that writes them. *)
Inductive message : Type :=
| ParsingStack (index : json)
| DuplicatedHostFound (host_name : json)
| ReducedResources (before after : nat) (driver : string)
| NumberOfHosts (n : nat)
| DuplicateHostFoundFor (inventory_hostname : json)
| PrettyPrint (v : json)
| Separator
| DuplicateHostFound (host_name : json)
| MissingStackData
| FoundResources (backend key : string)
| NoResourcesFound (backend key : string)
| FoundStacks (n : nat) (backend : string) (prefix : json) (stacks : list string)
| FetchingUrl (url : string)
| UrlParams (params : dict)
| UrlHeaders (headers : dict)
| NotImplemented.

(** A call of [print], or of the display at the verbosity of the method
    called: 1 for [display.v], 2 for [display.vv], 3 for [display.vvv]. *)
Inductive event : Type :=
| Print (m : message)                      (* print / pprint *)
| Display (verbosity : nat) (m : message). (* display.v / vv / vvv *)

Record state : Type := {
  (** the [cache] attribute of every backend object, by backend name *)
  caches : list (string * dict);
  (** the requests sent, latest first *)
  requests : list request;
  (** the calls of [print] and of the display, latest first; what a run
      writes of them depends on its verbosity, see [written] *)
  log : list event
}.

Definition M (A : Type) : Type := state -> result A * state.

Definition ret {A} (a : A) : M A := fun s => (Ok a, s).
Definition raise {A} (e : exn) : M A := fun s => (Err e, s).
Definition lift {A} (r : result A) : M A := fun s => (r, s).

Definition bind {A B} (m : M A) (f : A -> M B) : M B :=
  fun s =>
    match m s with
    | (Ok a, s') => f a s'
    | (Err e, s') => (Err e, s')
    end.

Notation "'do' x <- m ; k" := (bind m (fun x => k))
  (at level 10, x name, m at level 100, k at level 200).
Notation "'run' m ; k" := (bind m (fun _ => k))
  (at level 10, m at level 100, k at level 200).

(** The state after [e] was written. *)
Definition logged (e : event) (s : state) : state :=
  {| caches := caches s; requests := requests s; log := e :: log s |}.

Definition emit (e : event) : M unit := fun s => (Ok tt, logged e s).

Definition print (m : message) : M unit := emit (Print m).
Definition display_v (m : message) : M unit := emit (Display 1 m).
Definition display_vv (m : message) : M unit := emit (Display 2 m).
Definition display_vvv (m : message) : M unit := emit (Display 3 m).



(** The cache of the backend called [name]. *)
Definition cache_of (s : state) (name : string) : dict :=
  match find (fun p => fst p =? name) (caches s) with
  | Some p => snd p
  | None => []
  end.

Fixpoint caches_set (cs : list (string * dict)) (name : string) (c : dict)
  : list (string * dict) :=
  match cs with
  | [] => [(name, c)]
  | (n, c') :: r =>
      if n =? name then (n, c) :: r else (n, c') :: caches_set r name c
  end.

Definition get_cache (name : string) : M dict :=
  fun s => (Ok (cache_of s name), s).

Definition set_cache (name : string) (c : dict) : M unit :=
  fun s => (Ok tt, {| caches := caches_set (caches s) name c;
                      requests := requests s; log := log s |}).

(** [requests.get(url, params=params, headers=headers)] *)
Definition send (env : Env) (r : request) : M http_reply :=
  fun s => (Ok (http_get env (requests s) r),
            {| caches := caches s; requests := r :: requests s; log := log s |}).

(** ** Resource drivers *)

Inductive driver_cls : Type :=
| DrvAnsibleHost
| DrvLibvirtDomain.

Module Driver.

(** A driver object: its class and the two attributes [__init__] sets. *)
Record t : Type := {
  cls : driver_cls;
  all_data : json;
  data : list json
}.

Definition name (c : driver_cls) : string :=
  match c with
  | DrvAnsibleHost => "nbering/ansible"
  | DrvLibvirtDomain => "dmarcvicard/libvirt"
  end.

Definition types (c : driver_cls) : list string :=
  match c with
  | DrvAnsibleHost => ["ansible_host"]
  | DrvLibvirtDomain => ["libvirt_domain"]
  end.

(** [[ i for i in instances if i.get('type') in types ]] *)
Fixpoint filter_loop (instances : list json) (types : list string)
  : result (list json) :=
  match instances with
  | [] => Ok []
  | i :: r =>
      let! ty := py_get i "type" JNull in
      let! rest := filter_loop r types in
      Ok (if in_strs ty types then i :: rest else rest)
  end.

Definition filter_provider_type (instances : json) (types : list string)
  : result (list json) :=
  let! l := py_iter instances in
  filter_loop l types.

Definition __init__ (c : driver_cls) (resources : json) : M t :=
  do res <- lift (filter_provider_type resources (types c)) ;
  do n <- lift (py_len resources) ;
  run display_vv (ReducedResources n (length res) (name c)) ;
  ret {| cls := c; all_data := resources; data := res |}.

(** [for inst in self.data: instances.extend(inst.get('instances', []))] *)
Fixpoint collect_instances (data : list json) (instances : list json)
  : result (list json) :=
  match data with
  | [] => Ok instances
  | inst :: r =>
      let! v := py_get inst "instances" (JList []) in
      let! l := py_iter v in
      collect_instances r (instances ++ l)
  end.

End Driver.

Module AnsibleHost.

(** The [for host_res in hosts] loop, on the host map built so far. *)
Fixpoint loop (hosts_ : list json) (ret_ : hosts) : M hosts :=
  match hosts_ with
  | [] => ret ret_
  | host_res :: r =>
      do attr <- lift (py_get host_res "attributes" JNull) ;
      if negb (truthy attr) then loop r ret_
      else
        do inventory_hostname <- lift (py_get attr "inventory_hostname" JNull) ;
        do dup <- lift (hosts_contains ret_ inventory_hostname) ;
        if dup : bool then
          run display_v (DuplicateHostFoundFor inventory_hostname) ;
          loop r ret_
        else loop r (hosts_set ret_ inventory_hostname attr)
  end.

Definition loop_over_hosts (hosts_ : list json) : M hosts :=
  loop hosts_ [].

End AnsibleHost.

Module LibvirtDomain.

(** Every instance that has attributes ends in the "work in progress"
    exception; nothing after the [raise] is reached. *)
Fixpoint loop (self : Driver.t) (hosts_ : list json) (ret_ : hosts) : M hosts :=
  match hosts_ with
  | [] => ret ret_
  | host_res :: r =>
      do attr <- lift (py_get host_res "attributes" JNull) ;
      if negb (truthy attr) then loop self r ret_
      else
        run print (PrettyPrint attr) ;
        run print Separator ;
        run print (PrettyPrint (Driver.all_data self)) ;
        raise (Exception "Work in progress, not implemented yet !")
  end.

Definition loop_over_hosts (self : Driver.t) (hosts_ : list json) : M hosts :=
  loop self hosts_ [].

End LibvirtDomain.

(** [self.loop_over_hosts(instances)], by the class of [self]. *)
Definition loop_over_hosts (self : Driver.t) (instances : list json) : M hosts :=
  match Driver.cls self with
  | DrvAnsibleHost => AnsibleHost.loop_over_hosts instances
  | DrvLibvirtDomain => LibvirtDomain.loop_over_hosts self instances
  end.

(** [Driver.get_hosts] *)
Definition Driver_get_hosts (self : Driver.t) : M hosts :=
  do instances <- lift (Driver.collect_instances (Driver.data self) []) ;
  run display_vv (NumberOfHosts (length instances)) ;
  loop_over_hosts self instances.

(** ** Backends *)

Fixpoint char_in (c : ascii) (chars : string) : bool :=
  match chars with
  | EmptyString => false
  | String c' r => Ascii.eqb c' c || char_in c r
  end.

(** [s.lstrip(chars)]: leading characters are dropped for as long as they
    occur in [chars], which is a set of characters and not a prefix. *)
Fixpoint lstrip_chars (chars s : string) : string :=
  match s with
  | EmptyString => EmptyString
  | String c r => if char_in c chars then lstrip_chars chars r else s
  end.

(** The characters [str.isspace] accepts among those with a code below
    256, the only ones a [string] holds here. *)
Definition py_whitespace : string :=
  string_of_list_ascii
    (map ascii_of_nat [9; 10; 11; 12; 13; 28; 29; 30; 31; 32; 133; 160]%nat).

(** [item.lstrip(arg)] *)
Definition str_lstrip (item arg : json) : result string :=
  match item with
  | JStr s =>
      match arg with
      | JNull => Ok (lstrip_chars py_whitespace s)
      | JStr chars => Ok (lstrip_chars chars s)
      | _ => Err (TypeError "lstrip arg must be None or str")
      end
  | _ => Err (AttributeError "lstrip")
  end.

(** [params or {}] *)
Definition or_empty (d : option dict) : dict :=
  match d with
  | Some d => d
  | None => []
  end.

Module TerraformBackend.

Definition default_config : dict :=
  [("type", JNull); ("prefix", JNull); ("driver", JNull)].

(** [get_config]; [default_config] is the class attribute [self] sees. *)
Definition get_config (default_config base : dict) : dict :=
  dict_update (dict_update [] default_config) base.

Definition get_stacks : M json :=
  run print NotImplemented ;
  ret (JList []).

Definition get_resources (state_prefix : json) : M json :=
  run print NotImplemented ;
  ret (JList []).

(** [[ item.lstrip(prefix) for item in lst ]] *)
Definition remove_prefix (lst : list json) (prefix : json)
  : result (list string) :=
  mapR (fun item => str_lstrip item prefix) lst.

End TerraformBackend.

Module TerraformConsul.

(** A backend object; its [cache] attribute lives in the state under
    [name]. *)
Record t : Type := {
  name : string;
  base : dict;
  config : dict
}.

Definition default_config : dict :=
  [("type", JNull);
   ("prefix", JStr "/terraform/state/");
   ("protocol", JStr "http");
   ("host", JStr "127.0.0.1");
   ("port", JStr "8600");
   ("version", JStr "1");
   ("token", JNull)].

Definition __init__ (name_ : string) (base_ : dict) : M t :=
  run set_cache name_ [] ;
  ret {| name := name_; base := base_;
         config := TerraformBackend.get_config default_config base_ |}.

Definition get_url (env : Env) (self : t) (key : json) : result string :=
  let! proto := dict_getitem (config self) "protocol" in
  let! host := dict_getitem (config self) "host" in
  let! port := dict_getitem (config self) "port" in
  let! version := dict_getitem (config self) "version" in
  Ok (py_str env proto +++ "://" +++ py_str env host +++ ":"
      +++ py_str env port +++ "/v" +++ py_str env version
      +++ "/kv" +++ py_str env key).

(** [json.loads(text)] *)
Definition loads (env : Env) (text : string) : result json :=
  match json_loads env text with
  | Some v => Ok v
  | None => Err (ValueError "JSONDecodeError")
  end.

Definition kv_get (env : Env) (url : string) (params headers : option dict)
  : M json :=
  let params := or_empty params in
  let headers := or_empty headers in
  run display_vv (FetchingUrl url) ;
  run (if truthy (JDict params) then display_vvv (UrlParams params) else ret tt) ;
  run (if truthy (JDict headers) then display_vvv (UrlHeaders headers) else ret tt) ;
  do response <- send env {| req_url := url; req_params := params;
                             req_headers := headers |} ;
  match response with
  | RequestFailed e =>
      raise (AnsibleError ("Could not fetch url " +++ url
                           +++ ", got error: " +++ e))
  | Response status_code reason rurl text =>
      if (status_code =? 200)%Z then lift (loads env text)
      else
        raise (AnsibleError
                 ("Bad HTTP response, got: " +++ str_of_Z status_code
                  +++ reason +++ ": " +++ str_of_Z status_code
                  +++ " on " +++ rurl +++ ": " +++ text))
  end.

(** [base64.b64decode(value)] on a truthy value. *)
Definition decode_value (env : Env) (value : json) : result string :=
  match value with
  | JStr s =>
      match b64decode env s with
      | Some b => Ok b
      | None => Err (ValueError "binascii.Error")
      end
  | _ => Err (TypeError "argument should be a bytes-like object or ASCII string")
  end.

(** The [for payload in payload_] loop of [get_resources], with the two
    lines that follow it. *)
Fixpoint resources_loop (env : Env) (self : t) (url key : string)
  (payload_ : list json) : M json :=
  match payload_ with
  | [] =>
      run display_vvv (NoResourcesFound (name self) key) ;
      ret JNull
  | payload :: r =>
      do key_name <- lift (py_get payload "Key" JNull) ;
      do value <- lift (py_get payload "Value" JNull) ;
      if negb (truthy value) then
        run print MissingStackData ;
        resources_loop env self url key r
      else
        do value <- lift (decode_value env value) ;
        do value <- lift (loads env value) ;
        do value <- lift (py_get value "resources" JNull) ;
        do cache <- get_cache (name self) ;
        run set_cache (name self) (dict_set cache url value) ;
        run display_vv (FoundResources (name self) key) ;
        ret value
  end.

Definition get_resources (env : Env) (self : t) (path : json) : M json :=
  do prefix <- lift (dict_getitem (config self) "prefix") ;
  let key := py_str env prefix +++ py_str env path in
  do url <- lift (get_url env self (JStr key)) ;
  do cache <- get_cache (name self) ;
  match dict_get cache url with
  | Some v => ret v
  | None =>
      do payload_ <- kv_get env url None None ;
      match payload_ with
      | JList l => resources_loop env self url key l
      | _ => raise (Exception "Wrong type")
      end
  end.

Definition get_stacks (env : Env) (self : t) (path : json) : M json :=
  do prefix <- lift (dict_getitem (config self) "prefix") ;
  let key := if truthy path then JStr (py_str env prefix +++ "path")
             else prefix in
  do url <- lift (get_url env self key) ;
  do cache <- get_cache (name self) ;
  match dict_get cache url with
  | Some v => ret v
  | None =>
      let params := [("recurse", JBool true); ("keys", JBool true)] in
      do payload <- kv_get env url (Some params) None ;
      match payload with
      | JList l =>
          do ret_ <- lift (TerraformBackend.remove_prefix l prefix) ;
          do cache <- get_cache (name self) ;
          run set_cache (name self) (dict_set cache url (JList (map JStr ret_))) ;
          run display_v (FoundStacks (length ret_) (name self) prefix ret_) ;
          ret (JList (map JStr ret_))
      | _ => raise (Exception "Wrong type")
      end
  end.

End TerraformConsul.

(** What [parse_backends] stores under a backend name: a Consul backend
    object, or the string ['LOCAL']. *)
Inductive backend_obj : Type :=
| BackendConsul (b : TerraformConsul.t)
| BackendLocal.

(** [backend.get_stacks()] *)
Definition backend_get_stacks (env : Env) (b : backend_obj) : M json :=
  match b with
  | BackendConsul c => TerraformConsul.get_stacks env c JNull
  | BackendLocal => raise (AttributeError "get_stacks")
  end.

(** [backend.get_resources(path)] *)
Definition backend_get_resources (env : Env) (b : backend_obj) (path : json)
  : M json :=
  match b with
  | BackendConsul c => TerraformConsul.get_resources env c path
  | BackendLocal => raise (AttributeError "get_resources")
  end.

(** [backend.config[k]] *)
Definition backend_config_getitem (b : backend_obj) (k : string) : result json :=
  match b with
  | BackendConsul c => dict_getitem (TerraformConsul.config c) k
  | BackendLocal => Err (AttributeError "config")
  end.

(** ** Stacks *)

Definition backends := list (string * backend_obj).

Fixpoint backends_get (bs : backends) (k : string) : option backend_obj :=
  match bs with
  | [] => None
  | (k', b) :: r => if k' =? k then Some b else backends_get r k
  end.

Fixpoint backends_set (bs : backends) (k : string) (b : backend_obj) : backends :=
  match bs with
  | [] => [(k, b)]
  | (k', b') :: r =>
      if k' =? k then (k', b) :: r else (k', b') :: backends_set r k b
  end.

(** [backends[backend_name]] *)
Definition backends_getitem (bs : backends) (backend_name : json)
  : result backend_obj :=
  match backend_name with
  | JStr n =>
      match backends_get bs n with
      | Some b => Ok b
      | None => Err (KeyError backend_name)
      end
  | JList _ | JDict _ => Err (TypeError "unhashable type")
  | _ => Err (KeyError backend_name)
  end.

Module TerraformStack.

Record t : Type := {
  config : dict;
  backend : backend_obj
}.

Definition default_config : dict :=
  [("name", JNull); ("driver", JNull); ("backend", JStr "local")].

Definition driver_map : list (string * driver_cls) :=
  [("libvirt_domain", DrvLibvirtDomain); ("ansible_host", DrvAnsibleHost)].

Definition get_config (config_ : dict) : dict :=
  dict_update (dict_update [] default_config) config_.

Definition __init__ (config_ : dict) (bs : backends) : result t :=
  let conf := get_config config_ in
  let backend_name := dict_get_default config_ "backend" JNull in
  let! b := backends_getitem bs backend_name in
  Ok {| config := conf; backend := b |}.

Definition get_stacks (env : Env) (self : t) : M json :=
  backend_get_stacks env (backend self).

(** [re.compile(name)] *)
Definition compile (env : Env) (name : json) : result (string -> bool) :=
  match name with
  | JStr p =>
      match re_compile env p with
      | Some r => Ok r
      | None => Err (ReError p)
      end
  | _ => Err (TypeError "first argument must be string or compiled pattern")
  end.

(** [list(filter(r.match, all_stacks))] *)
Fixpoint filter_match (r : string -> bool) (all_stacks : list json)
  : result (list json) :=
  match all_stacks with
  | [] => Ok []
  | x :: rest =>
      match x with
      | JStr s =>
          let! tl := filter_match r rest in
          Ok (if r s then x :: tl else tl)
      | _ => Err (TypeError "expected string or bytes-like object")
      end
  end.

Definition _expand_paths (env : Env) (self : t) : M (list json) :=
  do name <- lift (dict_getitem (config self) "name") ;
  do r <- lift (compile env name) ;
  do all_stacks <- backend_get_stacks env (backend self) ;
  do l <- lift (py_iter all_stacks) ;
  lift (filter_match r l).

(** [stack_type or backend_type or None] *)
Definition driver_name_of (stack_type backend_type : json) : json :=
  py_or (py_or stack_type backend_type) JNull.

(** [self.driver_map[driver_name]]; whatever the lookup raises becomes
    the "Could not find driver" exception. *)
Definition lookup_driver (env : Env) (driver_name : json) : result driver_cls :=
  let not_found :=
    Err (Exception ("Could not find driver '" +++ py_str env driver_name +++ "'")) in
  match driver_name with
  | JStr n =>
      match find (fun p => fst p =? n) driver_map with
      | Some p => Ok (snd p)
      | None => not_found
      end
  | _ => not_found
  end.

Definition inventory_conf (path driver_name : json) : dict :=
  [("stack", path); ("driver", driver_name)].

(** The "inject stack context vars" lines: [host_def['terraform']] is
    set, then [host_def['vars']] is updated in place. *)
Definition inject (path driver_name host_def : json) : result json :=
  match host_def with
  | JDict d =>
      let conf := inventory_conf path driver_name in
      let d1 := dict_set d "terraform" (JDict conf) in
      let! vars := dict_getitem d1 "vars" in
      match vars with
      | JDict v =>
          let v' := dict_update v
                      (map (fun kv => ("terraform_" +++ fst kv, snd kv)) conf) in
          Ok (JDict (dict_set d1 "vars" (JDict v')))
      | _ => Err (AttributeError "update")
      end
  | _ => Err (TypeError "object does not support item assignment")
  end.

(** The [for host_name, host_def in hosts.items()] loop. *)
Fixpoint hosts_loop (path driver_name : json) (items : hosts) (ret_ : hosts)
  : M hosts :=
  match items with
  | [] => ret ret_
  | (host_name, host_def) :: r =>
      if hosts_mem ret_ host_name then
        run print (DuplicateHostFound host_name) ;
        hosts_loop path driver_name r ret_
      else
        do host_def' <- lift (inject path driver_name host_def) ;
        hosts_loop path driver_name r (hosts_set ret_ host_name host_def')
  end.

(** The [for path in paths] loop. *)
Fixpoint paths_loop (env : Env) (self : t) (paths : list json) (ret_ : hosts)
  : M hosts :=
  match paths with
  | [] => ret ret_
  | path :: r =>
      do res <- backend_get_resources env (backend self) path ;
      do backend_type <- lift (backend_config_getitem (backend self) "driver") ;
      do stack_type <- lift (dict_getitem (config self) "driver") ;
      let driver_name := driver_name_of stack_type backend_type in
      do driver_cls <- lift (lookup_driver env driver_name) ;
      do driver <- Driver.__init__ driver_cls res ;
      do hosts_ <- Driver_get_hosts driver ;
      do ret' <- hosts_loop path driver_name hosts_ ret_ ;
      paths_loop env self r ret'
  end.

Definition expand_conf (env : Env) (self : t) : M hosts :=
  do paths <- _expand_paths env self ;
  paths_loop env self paths [].

End TerraformStack.

(** ** The plugin *)

Module TerraformPlugin.

Definition default_stack_conf : dict :=
  [("name", JNull); ("backend", JStr "local")].

Definition default_backend_conf : dict :=
  [("name", JNull); ("backend", JStr "local")].

(** [parse_backends]: the loop over [backends_conf.items()]. *)
Fixpoint parse_backends_loop (env : Env) (backends_conf : list (string * dict))
  (ret_ : backends) : M backends :=
  match backends_conf with
  | [] => ret ret_
  | (name, backend_def) :: r =>
      let new_def := dict_update default_backend_conf backend_def in
      let kind := dict_get_default backend_def "type" (JStr "local") in
      if eq_str kind "consul" then
        do b <- TerraformConsul.__init__ name new_def ;
        parse_backends_loop env r (backends_set ret_ name (BackendConsul b))
      else if eq_str kind "local" then
        parse_backends_loop env r (backends_set ret_ name BackendLocal)
      else
        raise (AnsibleError ("Unsupported backend type '" +++ py_str env kind
                             +++ " for backend " +++ name +++ "'"))
  end.

Definition parse_backends (env : Env) (backends_conf : list (string * dict))
  : M backends :=
  parse_backends_loop env backends_conf [].

(** [parse_stacks]: the loop over [enumerate(stacks_conf)]. *)
Fixpoint parse_stacks_loop (idx : nat) (stacks_conf : list dict) (bs : backends)
  : result (list TerraformStack.t) :=
  match stacks_conf with
  | [] => Ok []
  | stack_def :: r =>
      let new_def := dict_update default_stack_conf stack_def in
      let new_def := dict_set new_def "index" (JNum (Z.of_nat idx)) in
      let! stack := TerraformStack.__init__ new_def bs in
      let! rest := parse_stacks_loop (S idx) r bs in
      Ok (stack :: rest)
  end.

Definition parse_stacks (stacks_conf : list dict) (bs : backends)
  : result (list TerraformStack.t) :=
  parse_stacks_loop 0 stacks_conf bs.

Definition parse_config (env : Env) (stacks_conf : list dict)
  (backends_conf : list (string * dict)) : M (list TerraformStack.t) :=
  do bs <- parse_backends env backends_conf ;
  lift (parse_stacks stacks_conf bs).

(** The [for host_name, host_def in resources.items()] loop. *)
Fixpoint merge_loop (resources : hosts) (ret_ : hosts) : M hosts :=
  match resources with
  | [] => ret ret_
  | (host_name, host_def) :: r =>
      if hosts_mem ret_ host_name then
        run print (DuplicatedHostFound host_name) ;
        merge_loop r ret_
      else merge_loop r (hosts_set ret_ host_name host_def)
  end.

(** The [for stack in stacks] loop. *)
Fixpoint stacks_loop (env : Env) (stacks : list TerraformStack.t) (ret_ : hosts)
  : M hosts :=
  match stacks with
  | [] => ret ret_
  | stack :: r =>
      let name := dict_get_default (TerraformStack.config stack) "name" (JStr ".*") in
      run display_vvv (ParsingStack
                         (dict_get_default (TerraformStack.config stack) "index" JNull)) ;
      do resources <- TerraformStack.expand_conf env stack ;
      do ret' <- merge_loop resources ret_ ;
      stacks_loop env r ret'
  end.

Definition expand_stacks (env : Env) (stacks_conf : list dict)
  (backends_conf : list (string * dict)) : M hosts :=
  do stacks <- parse_config env stacks_conf backends_conf ;
  stacks_loop env stacks [].

Definition get_hosts (env : Env) (stacks_conf : list dict)
  (backends_conf : list (string * dict)) : M hosts :=
  expand_stacks env stacks_conf backends_conf.

End TerraformPlugin.

(** ** A fragment of [re]

    Patterns made of single characters, [.] and escaped punctuation, each
    optionally followed by one of [*], [+], [?].  On this fragment
    [re.compile(p).match(s)] succeeds exactly when some prefix of [s] is in
    the language of [p].  Any other pattern is outside the fragment
    ([None]). *)

Inductive atom : Type :=
| AChr (c : ascii)
| AAny.

Inductive quant : Type :=
| QOne
| QStar
| QPlus
| QOpt.

Inductive token : Type :=
| TAtom (a : atom)
| TQuant (q : quant).

Definition item := (atom * quant)%type.

Definition is_meta (c : ascii) : bool := char_in c ".^$*+?{}[]\|()".

Definition is_alnum (c : ascii) : bool :=
  let n := nat_of_ascii c in
  ((48 <=? n) && (n <=? 57) || (65 <=? n) && (n <=? 90)
   || (97 <=? n) && (n <=? 122))%nat.

Definition is_ascii (c : ascii) : bool := (nat_of_ascii c <? 128)%nat.

Fixpoint tokens (p : string) : option (list token) :=
  match p with
  | EmptyString => Some []
  | String c rest =>
      if Ascii.eqb c "\" then
        match rest with
        | String e rest' =>
            if is_ascii e && negb (is_alnum e)
            then option_map (cons (TAtom (AChr e))) (tokens rest')
            else None
        | EmptyString => None
        end
      else if Ascii.eqb c "." then option_map (cons (TAtom AAny)) (tokens rest)
      else if Ascii.eqb c "*" then option_map (cons (TQuant QStar)) (tokens rest)
      else if Ascii.eqb c "+" then option_map (cons (TQuant QPlus)) (tokens rest)
      else if Ascii.eqb c "?" then option_map (cons (TQuant QOpt)) (tokens rest)
      else if is_meta c || negb (is_ascii c) then None
      else option_map (cons (TAtom (AChr c))) (tokens rest)
  end.

Fixpoint items_of (ts : list token) : option (list item) :=
  match ts with
  | [] => Some []
  | TAtom a :: TQuant q :: rest => option_map (cons (a, q)) (items_of rest)
  | TAtom a :: rest => option_map (cons (a, QOne)) (items_of rest)
  | TQuant _ :: _ => None
  end.

(** [.] matches anything but a newline. *)
Definition atom_ok (a : atom) (c : ascii) : bool :=
  match a with
  | AChr x => Ascii.eqb x c
  | AAny => negb (Ascii.eqb c (ascii_of_nat 10))
  end.

(** One character accepted by [a], then [f] on what follows. *)
Definition step (a : atom) (f : string -> bool) (s : string) : bool :=
  match s with
  | String c s' => atom_ok a c && f s'
  | EmptyString => false
  end.

(** Any number of characters accepted by [a], then [k]. *)
Fixpoint star (a : atom) (k : string -> bool) (s : string) : bool :=
  k s ||
  match s with
  | String c s' => atom_ok a c && star a k s'
  | EmptyString => false
  end.

(** Whether the items match at the start of the string. *)
Fixpoint match_items (items : list item) : string -> bool :=
  match items with
  | [] => fun _ => true
  | (a, q) :: rest =>
      let k := match_items rest in
      match q with
      | QOne => step a k
      | QOpt => fun s => step a k s || k s
      | QStar => star a k
      | QPlus => step a (star a k)
      end
  end.

Definition re_fragment (p : string) : option (string -> bool) :=
  match tokens p with
  | Some ts => option_map match_items (items_of ts)
  | None => None
  end.

(** ** A concrete environment

    For worked runs: JSON text and base64 are produced by an encoder each,
    and [json.loads] and [base64.b64decode] invert the encoders on the
    documents the run knows about. *)

Definition join (sep : string) (l : list string) : string :=
  match l with
  | [] => ""
  | x :: r => fold_left (fun acc y => acc +++ sep +++ y) r x
  end.

(** Text of a value whose strings need no escaping: [q] is the quote
    character, [null], [true_] and [false_] the three constants. *)
Fixpoint render (q null true_ false_ : string) (v : json) : string :=
  match v with
  | JNull => null
  | JBool b => if b then true_ else false_
  | JNum n => str_of_Z n
  | JStr s => q +++ s +++ q
  | JList l => "[" +++ join ", " (map (render q null true_ false_) l) +++ "]"
  | JDict d =>
      "{" +++ join ", "
                (map (fun kv => q +++ fst kv +++ q +++ ": "
                                +++ render q null true_ false_ (snd kv)) d)
      +++ "}"
  end.

Definition dquote : string := String (ascii_of_nat 34) EmptyString.

(** [json.dumps] *)
Definition json_dumps (v : json) : string := render dquote "null" "true" "false" v.

(** [repr] *)
Definition repr (v : json) : string := render "'" "None" "True" "False" v.

Definition b64_alphabet : string :=
  "ABCDEFGHIJKLMNOPQRSTUVWXYZabcdefghijklmnopqrstuvwxyz0123456789+/".

Definition b64_char (n : nat) : ascii :=
  match String.get n b64_alphabet with
  | Some c => c
  | None => "="%char
  end.

(** [base64.b64encode] on a list of byte values. *)
Fixpoint b64encode_bytes (l : list nat) : string :=
  match l with
  | [] => ""
  | [a] =>
      String (b64_char (a / 4))
        (String (b64_char (a mod 4 * 16)) "==")
  | [a; b] =>
      String (b64_char (a / 4))
        (String (b64_char (a mod 4 * 16 + b / 16))
           (String (b64_char (b mod 16 * 4)) "="))
  | a :: b :: c :: r =>
      String (b64_char (a / 4))
        (String (b64_char (a mod 4 * 16 + b / 16))
           (String (b64_char (b mod 16 * 4 + c / 64))
              (String (b64_char (c mod 64)) (b64encode_bytes r))))
  end.

Definition b64encode (s : string) : string :=
  b64encode_bytes (map nat_of_ascii (list_ascii_of_string s)).

(** The environment in which [replies] lists what each URL answers (any
    other URL refuses the connection) and [docs] the documents that can be
    decoded. *)
Definition table_env (replies : list (string * http_reply)) (docs : list json)
  : Env :=
  {| http_get := fun _ r =>
       match find (fun p => fst p =? req_url r) replies with
       | Some p => snd p
       | None => RequestFailed "Connection refused"
       end;
     json_loads := fun text => find (fun v => json_dumps v =? text) docs;
     b64decode := fun s =>
       option_map json_dumps
         (find (fun v => b64encode (json_dumps v) =? s) docs);
     re_compile := re_fragment;
     py_repr := repr |}.

(** An answer [200 OK] whose body is the JSON text of [v]. *)
Definition ok_reply (url : string) (v : json) : http_reply :=
  Response 200 "OK" url (json_dumps v).

(** The Consul entry that stores the state document [doc] under [key]. *)
Definition kv_entry (key : string) (doc : json) : json :=
  JDict [("Key", JStr key); ("Value", JStr (b64encode (json_dumps doc)))].

(** A state document with one [ansible_host] resource, one instance per
    name in [names]. *)
Definition host_instance (name : string) : json :=
  JDict [("attributes",
          JDict [("inventory_hostname", JStr name);
                 ("vars", JDict []);
                 ("groups", JList [])])].

Definition state_doc (names : list string) : json :=
  JDict [("version", JNum 4);
         ("resources",
          JList [JDict [("type", JStr "ansible_host");
                        ("instances", JList (map host_instance names))]])].

Definition empty_state : state := {| caches := []; requests := []; log := [] |}.

(** ** Notions used in the statements *)

(** The instance is a mapping whose [attributes] entry is absent or is the
    empty mapping. *)
Definition attributes_absent_or_empty (inst : json) : Prop :=
  exists d, inst = JDict d /\
            (dict_get d "attributes" = None \/
             dict_get d "attributes" = Some (JDict [])).

(** *** A worked site

    One Consul backend on the default address with prefix [/infra/], three
    stored states and the answers of the server. *)

Definition site_base : string := "http://127.0.0.1:8600/v1/kv/infra/".

Definition site_backend_def : dict :=
  [("type", JStr "consul"); ("prefix", JStr "/infra/");
   ("driver", JStr "ansible_host")].

Definition site_consul : TerraformConsul.t :=
  {| TerraformConsul.name := "consul1";
     TerraformConsul.base :=
       dict_update TerraformPlugin.default_backend_conf site_backend_def;
     TerraformConsul.config :=
       TerraformBackend.get_config TerraformConsul.default_config
         (dict_update TerraformPlugin.default_backend_conf site_backend_def) |}.

Definition site_listing : json :=
  JList [JStr "/infra/prod-web"; JStr "/infra/prod-db"; JStr "/infra/staging-web"].

Definition doc_web : json := state_doc ["node1"; "node2"].
Definition doc_db : json := state_doc ["node1"; "node3"].

Definition payload_web : json := JList [kv_entry "infra/prod-web" doc_web].
Definition payload_db : json := JList [kv_entry "infra/prod-db" doc_db].

(** The entry of [staging-web] has lost its value. *)
Definition payload_staging : json :=
  JList [JDict [("Key", JStr "infra/staging-web")]].

Definition site_docs : list json :=
  [site_listing; doc_web; doc_db; payload_web; payload_db; payload_staging].

(** Every state answers. *)
Definition site_env : Env :=
  table_env
    [(site_base, ok_reply site_base site_listing);
     (site_base +++ "prod-web", ok_reply (site_base +++ "prod-web") payload_web);
     (site_base +++ "prod-db", ok_reply (site_base +++ "prod-db") payload_db);
     (site_base +++ "staging-web",
      ok_reply (site_base +++ "staging-web") payload_staging)]
    site_docs.

(** The same site when [prod-web] cannot be fetched: the server answers
    [500] for it. *)
Definition site_env_web_down : Env :=
  table_env
    [(site_base, ok_reply site_base site_listing);
     (site_base +++ "prod-web",
      Response 500 "Internal Server Error" (site_base +++ "prod-web") "");
     (site_base +++ "prod-db", ok_reply (site_base +++ "prod-db") payload_db)]
    site_docs.

Definition site_backends_conf : list (string * dict) :=
  [("consul1", site_backend_def)].

(** The stack object [parse_stacks] builds, at index 0, for the stack
    definition with name [pattern] and driver [driver] on the site's
    backend. *)
Definition site_stack_def (pattern : string) (driver : json) : dict :=
  [("name", JStr pattern); ("backend", JStr "consul1"); ("driver", driver)].

Definition site_stack (pattern : string) (driver : json) : TerraformStack.t :=
  {| TerraformStack.config :=
       TerraformStack.get_config
         (dict_set (dict_update TerraformPlugin.default_stack_conf
                      (site_stack_def pattern driver))
            "index" (JNum 0));
     TerraformStack.backend := BackendConsul site_consul |}.

(** A pattern without any special character. *)
Fixpoint plain (p : string) : bool :=
  match p with
  | EmptyString => true
  | String c r => negb (is_meta c) && is_ascii c && plain r
  end.

(** [f] accepts every extension by [ext] of a string it accepts. *)
Definition extends (ext : string) (f : string -> bool) : Prop :=
  forall s, f s = true -> f (s +++ ext) = true.

(** The host definition carries the stack and the driver: as the
    [terraform] entry of the record, and as the variables
    [terraform_stack] and [terraform_driver]. *)
Definition tagged (path driver_name def : json) : Prop :=
  exists d vars,
    def = JDict d /\
    dict_get d "terraform"
    = Some (JDict [("stack", path); ("driver", driver_name)]) /\
    dict_get d "vars" = Some (JDict vars) /\
    dict_get vars "terraform_stack" = Some path /\
    dict_get vars "terraform_driver" = Some driver_name.

(** In the run of the loop of [expand_conf] over [paths] from the state
    [s0], the host [h] with definition [def] comes from the resources
    fetched for [path]: the loop over the identifiers before [path] ends
    without the host, in the state in which the resources of [path] are
    then fetched; the driver registered as [driver_name] extracts [h] from
    them, and [def] is what the injection makes of its attributes. *)
Definition extracted_from (env : Env) (self : TerraformStack.t)
  (paths : list json) (s0 : state) (path driver_name h def : json) : Prop :=
  exists before after ret1 s1 res s2 cls drv s3 hosts_ s4 attr,
    paths = before ++ path :: after /\
    TerraformStack.paths_loop env self before [] s0 = (Ok ret1, s1) /\
    hosts_mem ret1 h = false /\
    backend_get_resources env (TerraformStack.backend self) path s1 = (Ok res, s2) /\
    TerraformStack.lookup_driver env driver_name = Ok cls /\
    Driver.__init__ cls res s2 = (Ok drv, s3) /\
    Driver_get_hosts drv s3 = (Ok hosts_, s4) /\
    In (h, attr) hosts_ /\
    TerraformStack.inject path driver_name attr = Ok def.

(** The driver name is a key of the driver registry. *)
Definition registered (driver_name : json) : bool :=
  match driver_name with
  | JStr n => existsb (fun p => fst p =? n) TerraformStack.driver_map
  | _ => false
  end.

(** The message a stack gets displayed when its turn comes. *)
Definition parsing (stack : TerraformStack.t) : event :=
  Display 3 (ParsingStack
               (dict_get_default (TerraformStack.config stack) "index" JNull)).

(** The hostnames of a result, if there is one. *)
Definition hostnames (r : result hosts) : option (list json) :=
  match r with
  | Ok h => Some (map fst h)
  | Err _ => None
  end.

(** No two entries of the host map have equal keys. *)
Fixpoint unique_keys (h : hosts) : bool :=
  match h with
  | [] => true
  | (k, _) :: r => negb (hosts_mem r k) && unique_keys r
  end.


(** The instances of the list that have attributes. *)
Fixpoint with_attributes (hosts_ : list json) : list json :=
  match hosts_ with
  | [] => []
  | host_res :: r =>
      match py_get host_res "attributes" JNull with
      | Ok attr => if truthy attr then host_res :: with_attributes r
                   else with_attributes r
      | Err _ => with_attributes r
      end
  end.





(** The event is the message of [expand_stacks] about a dropped host. *)
Definition duplicated_host_event (e : event) : bool :=
  match e with
  | Print (DuplicatedHostFound _) => true
  | _ => false
  end.

(** How many hosts the log says [expand_stacks] dropped. *)
Definition count_duplicated (l : list event) : nat :=
  length (filter duplicated_host_event l).

(** The computation writes no message about a host dropped by
    [expand_stacks]. *)
Definition silent {A} (m : M A) : Prop :=
  forall s r s', m s = (r, s') ->
                 count_duplicated (log s') = count_duplicated (log s).

(** ** Further functions of the module *)

(** [isinstance(v, list)] *)
Definition is_list (v : json) : bool :=
  match v with
  | JList _ => true
  | _ => false
  end.

(** [flatten], run with room for [frames] more calls on the stack of the
    interpreter: every call of [flatten] takes one frame, and a call that
    finds no room raises [RecursionError], which is [None] here.  The
    call on the first element is made before the one on the rest. *)
Fixpoint flatten (frames : nat) (list_of_lists : list json)
  : option (list json) :=
  match frames with
  | 0 => None
  | S frames' =>
      match list_of_lists with
      | [] => Some []
      | JList first :: rest =>
          match flatten frames' first with
          | Some a =>
              match flatten frames' rest with
              | Some b => Some (a ++ b)
              | None => None
              end
          | None => None
          end
      | x :: rest =>
          match flatten frames' rest with
          | Some b => Some (x :: b)
          | None => None
          end
      end
  end.

(** The values of a nested list that are not lists, from left to right:
    those of the value [x], then those of a list of values. *)
Fixpoint leaves_of (x : json) : list json :=
  match x with
  | JList l =>
      (fix leaves_rest (l : list json) : list json :=
         match l with
         | [] => []
         | y :: r => leaves_of y ++ leaves_rest r
         end) l
  | _ => [x]
  end.

Fixpoint leaves (l : list json) : list json :=
  match l with
  | [] => []
  | x :: r => leaves_of x ++ leaves r
  end.

(** How deep the calls of [flatten] nest on a list: one call for the list,
    and below it the deeper of the calls on its first element, when that
    is a list, and on its rest. *)
Fixpoint frames_of (x : json) : nat :=
  match x with
  | JList l =>
      (fix frames_rest (l : list json) : nat :=
         match l with
         | [] => 1
         | y :: r => S (Nat.max (frames_of y) (frames_rest r))
         end) l
  | _ => 0
  end.

Fixpoint frames_needed (l : list json) : nat :=
  match l with
  | [] => 1
  | x :: r => S (Nat.max (frames_of x) (frames_needed r))
  end.

(** [isinstance(v, str)] *)
Definition is_str (v : json) : bool :=
  match v with
  | JStr _ => true
  | _ => false
  end.

(** The string starts with a character of [chars]. *)
Definition starts_in (chars s : string) : bool :=
  match s with
  | String c _ => char_in c chars
  | EmptyString => false
  end.

(** Every character of the string occurs in [chars]. *)
Fixpoint all_in (chars s : string) : bool :=
  match s with
  | String c r => char_in c chars && all_in chars r
  | EmptyString => true
  end.

(** The payload entry is a mapping whose [Value] is absent or falsy. *)
Definition without_value (entry : json) : Prop :=
  exists d, entry = JDict d /\ truthy (dict_get_default d "Value" JNull) = false.

(** The payload entry is a mapping with a truthy [Value]. *)
Definition with_value (entry : json) : Prop :=
  exists d, entry = JDict d /\ truthy (dict_get_default d "Value" JNull) = true.

(** The backend a stack definition names: its [backend] entry, and
    ['local'] when it has none. *)
Definition stack_backend_name (stack_def : dict) : json :=
  dict_get_default (dict_update TerraformPlugin.default_stack_conf stack_def)
    "backend" JNull.

(** Every Consul backend of the map is stored under its own name and its
    cache is empty. *)
Definition fresh_backends (bs : backends) (s : state) : Prop :=
  forall n c, backends_get bs n = Some (BackendConsul c) ->
              TerraformConsul.name c = n /\ cache_of s n = [].

(** The definition [parse_stacks] hands to the stack object: the defaults,
    the stack definition and the position of the stack. *)
Definition new_stack_def (idx : nat) (stack_def : dict) : dict :=
  dict_set (dict_update TerraformPlugin.default_stack_conf stack_def)
    "index" (JNum (Z.of_nat idx)).

(** The configuration [parse_backends] gives the Consul backend object it
    builds from a backend definition. *)
Definition consul_config (backend_def : dict) : dict :=
  TerraformBackend.get_config TerraformConsul.default_config
    (dict_update TerraformPlugin.default_backend_conf backend_def).

(** A state whose cache for [consul1] is not empty. *)
Definition stale_state : state :=
  {| caches := [("consul1", [(site_base, JList [JStr "old"])])];
     requests := []; log := [] |}.

(** The instance has attributes, and [kv] is the hostname among them with
    the attributes themselves. *)
Definition instance_record (inst : json) (kv : json * json) : Prop :=
  py_get inst "attributes" JNull = Ok (snd kv) /\
  truthy (snd kv) = true /\
  py_get (snd kv) "inventory_hostname" JNull = Ok (fst kv) /\
  hashable (fst kv) = true.

(** The resource is a mapping whose [type] is one of [types]. *)
Definition has_type (types : list string) (i : json) : bool :=
  match py_get i "type" JNull with
  | Ok ty => in_strs ty types
  | Err _ => false
  end.

Definition is_dict (v : json) : bool :=
  match v with
  | JDict _ => true
  | _ => false
  end.

(** ** The inventory module

    [InventoryModule.parse] fills the inventory of the hosting runtime.
    The inventory is not part of the plugin: what is modelled is the
    sequence of calls the plugin makes on it, each taken to return. *)

Inductive inventory_call : Type :=
| AddGroup (group : json)
| AddHost (host : json)
| SetVariable (host : json) (var : string) (value : json)
| AddChild (group child : json)
| GetVars (host : json)
| SetCompositeVars (host : json)
| AddHostToComposedGroups (host : json)
| AddHostToKeyedGroups (host : json).

(** A computation that calls the inventory: the calls made, in order, and
    the result. *)
Definition W (A : Type) : Type := (list inventory_call * result A)%type.

Definition retW {A} (a : A) : W A := ([], Ok a).

Definition liftW {A} (r : result A) : W A := ([], r).

Definition call (c : inventory_call) : W unit := ([c], Ok tt).

Definition bindW {A B} (m : W A) (f : A -> W B) : W B :=
  match m with
  | (calls, Ok a) => let (calls', r) := f a in (calls ++ calls', r)
  | (calls, Err e) => (calls, Err e)
  end.

Notation "'doW' x <- m ; k" := (bindW m (fun x => k))
  (at level 10, x name, m at level 100, k at level 200).
Notation "'runW' m ; k" := (bindW m (fun _ => k))
  (at level 10, m at level 100, k at level 200).

(** [s.replace(old, new)] for one-character [old] and [new]. *)
Fixpoint replace_char (old new : ascii) (s : string) : string :=
  match s with
  | EmptyString => EmptyString
  | String c r =>
      String (if Ascii.eqb c old then new else c) (replace_char old new r)
  end.

(** [v.replace(old, new)] *)
Definition str_replace (v : json) (old new : ascii) : result string :=
  match v with
  | JStr s => Ok (replace_char old new s)
  | _ => Err (AttributeError "replace")
  end.

(** [v[k]] on a value that may not be a dict. *)
Definition py_getitem (v : json) (k : string) : result json :=
  match v with
  | JDict d => dict_getitem d k
  | JStr _ | JList _ => Err (TypeError "indices must be integers")
  | _ => Err (TypeError "object is not subscriptable")
  end.

(** [s.endswith(suffix)]: some tail of [s] is [suffix]. *)
Fixpoint endswith (s suffix : string) : bool :=
  (s =? suffix) ||
  match s with
  | String _ r => endswith r suffix
  | EmptyString => false
  end.

Module InventoryModule.

(** The options [parse] reads. *)
Record options : Type := {
  strict : json;
  inventory_group : json;
  inventory_sub_groups : json
}.

(** [verify_file]; [super_verify_file] is what the base class answers for
    the path. *)
Definition verify_file (super_verify_file : bool) (path : string) : bool :=
  let valid := false in
  if super_verify_file then
    let valid :=
      if endswith path "tfstate.yaml" || endswith path "tfstate.yml"
      then true else valid in
    let valid :=
      if endswith path "terraform.yaml" || endswith path "terraform.yml"
      then true else valid in
    valid
  else valid.

(** [for var, val in ....items(): set_variable(host_name, var, val)] *)
Fixpoint set_variables (host_name : json) (vars : dict) : W unit :=
  match vars with
  | [] => retW tt
  | (var, val) :: r =>
      runW call (SetVariable host_name var val) ;
      set_variables host_name r
  end.

(** The "add to plugin groups" lines. *)
Definition add_to_plugin_groups (opts : options) (host_name host_def : json)
  : W unit :=
  if truthy (inventory_group opts) then
    if truthy (inventory_sub_groups opts) then
      doW terraform <- liftW (py_getitem host_def "terraform") ;
      doW subgroup <- liftW (py_getitem terraform "stack") ;
      doW subgroup <- liftW (str_replace subgroup "/" "_") ;
      doW subgroup <- liftW (str_replace (JStr subgroup) "-" "_") ;
      runW call (AddGroup (JStr subgroup)) ;
      runW call (AddChild (JStr subgroup) host_name) ;
      call (AddChild (inventory_group opts) (JStr subgroup))
    else call (AddChild (inventory_group opts) host_name)
  else retW tt.

(** The "add to custom groups" loop. *)
Fixpoint add_to_custom_groups (host_name : json) (groups : list json) : W unit :=
  match groups with
  | [] => retW tt
  | group :: r =>
      if negb (truthy group) then add_to_custom_groups host_name r
      else
        runW call (AddGroup group) ;
        runW call (AddChild group host_name) ;
        add_to_custom_groups host_name r
  end.

(** The body of the loop over the hosts. *)
Definition parse_host (opts : options) (host_name host_def : json) : W unit :=
  doW host_name <-
    (if truthy (strict opts)
     then doW n <- liftW (str_replace host_name "_" "-") ; retW (JStr n)
     else retW host_name) ;
  runW call (AddHost host_name) ;
  doW vars <- liftW (py_get host_def "vars" (JDict [])) ;
  doW vars <- liftW (match vars with
                     | JDict d => Ok d
                     | _ => Err (AttributeError "items")
                     end) ;
  runW set_variables host_name vars ;
  runW add_to_plugin_groups opts host_name host_def ;
  doW groups <- liftW (py_getitem host_def "groups") ;
  doW groups <- liftW (py_iter groups) ;
  runW add_to_custom_groups host_name groups ;
  runW call (GetVars host_name) ;
  runW call (SetCompositeVars host_name) ;
  runW call (AddHostToComposedGroups host_name) ;
  call (AddHostToKeyedGroups host_name).

(** [for host_name, host_def in terraform_hosts.items()] *)
Fixpoint hosts_loop (opts : options) (terraform_hosts : hosts) : W unit :=
  match terraform_hosts with
  | [] => retW tt
  | (host_name, host_def) :: r =>
      runW parse_host opts host_name host_def ;
      hosts_loop opts r
  end.

(** What [parse] does with the hosts [get_hosts] returned. *)
Definition populate (opts : options) (terraform_hosts : hosts) : W unit :=
  runW (if truthy (inventory_group opts)
        then call (AddGroup (inventory_group opts)) else retW tt) ;
  hosts_loop opts terraform_hosts.

(** [parse], from the options on. *)
Definition parse (env : Env) (opts : options) (stacks_def : list dict)
  (backends_def : list (string * dict)) : state -> W unit * state :=
  fun s =>
    match TerraformPlugin.get_hosts env stacks_def backends_def s with
    | (Ok terraform_hosts, s') => (populate opts terraform_hosts, s')
    | (Err e, s') => (([], Err e), s')
    end.

End InventoryModule.

(** The hosts the calls add to the inventory, in order. *)
Fixpoint added_hosts (calls : list inventory_call) : list json :=
  match calls with
  | [] => []
  | AddHost h :: r => h :: added_hosts r
  | _ :: r => added_hosts r
  end.

(** The name under which [parse] adds the host [host_name]. *)
Definition inventory_name (opts : InventoryModule.options) (host_name : json)
  : json :=
  if truthy (InventoryModule.strict opts) then
    match host_name with
    | JStr n => JStr (replace_char "_" "-" n)
    | _ => host_name
    end
  else host_name.

(** The computation adds no host to the inventory. *)
Definition adds_no_host {A} (m : W A) : Prop := added_hosts (fst m) = [].

(** The four endings [verify_file] accepts. *)
Definition inventory_suffixes : list string :=
  ["tfstate.yaml"; "tfstate.yml"; "terraform.yaml"; "terraform.yml"].

(** The value is a string without underscore. *)
Definition strict_name (h : json) : Prop :=
  exists n, h = JStr n /\ char_in "_" n = false.

(** The name of the subgroup of a stack identifier. *)
Definition subgroup_name (stack : string) : string :=
  replace_char "-" "_" (replace_char "/" "_" stack).

(** The options of the worked runs: strict names, every host under the
    group [terraform] and the subgroup of its stack. *)
Definition site_options : InventoryModule.options :=
  {| InventoryModule.strict := JBool true;
     InventoryModule.inventory_group := JStr "terraform";
     InventoryModule.inventory_sub_groups := JBool true |}.

(** Two hosts as [get_hosts] returns them: the first in the groups [front]
    and (to be skipped) the empty name, the second with [groups] left
    unset. *)
Definition host_web : json :=
  JDict [("inventory_hostname", JStr "web_1");
         ("vars", JDict [("role", JStr "web");
                         ("terraform_stack", JStr "prod/web-eu");
                         ("terraform_driver", JStr "ansible_host")]);
         ("groups", JList [JStr "front"; JStr ""]);
         ("terraform", JDict [("stack", JStr "prod/web-eu");
                              ("driver", JStr "ansible_host")])].

Definition host_db : json :=
  JDict [("inventory_hostname", JStr "db_1");
         ("vars", JDict [("terraform_stack", JStr "prod/db");
                         ("terraform_driver", JStr "ansible_host")]);
         ("groups", JNull);
         ("terraform", JDict [("stack", JStr "prod/db");
                              ("driver", JStr "ansible_host")])].






(** * Properties *)

(** ** Dictionaries *)

Lemma dict_get_set_same (d : dict) (k : string) (v : json) :
  dict_get (dict_set d k v) k = Some v.
Proof.
  induction d as [|[k' v'] d IH]; simpl.
  - now rewrite String.eqb_refl.
  - destruct (k' =? k) eqn:E; simpl; rewrite E; auto.
Qed.

Lemma dict_get_set_other (d : dict) (k k' : string) (v : json) :
  k <> k' -> dict_get (dict_set d k v) k' = dict_get d k'.
Proof.
  intros Hne. induction d as [|[k0 v0] d IH]; simpl.
  - destruct (k =? k') eqn:E; auto.
    apply String.eqb_eq in E. contradiction.
  - destruct (k0 =? k) eqn:E; simpl.
    + apply String.eqb_eq in E. subst k0.
      destruct (String.eqb_spec k k'); [contradiction | reflexivity].
    + now rewrite IH.
Qed.

Lemma dict_get_update_absent (d2 d : dict) (k : string) :
  dict_get d2 k = None -> dict_get (dict_update d d2) k = dict_get d k.
Proof.
  unfold dict_update. revert d.
  induction d2 as [|[k2 v2] d2 IH]; intros d H; simpl in *; auto.
  destruct (k2 =? k) eqn:E; [discriminate|].
  rewrite IH by assumption. apply dict_get_set_other.
  now apply String.eqb_neq.
Qed.

Lemma dict_get_set_present (d : dict) (k k' : string) (v : json) :
  dict_get d k' <> None -> dict_get (dict_set d k v) k' <> None.
Proof.
  destruct (String.eqb_spec k k') as [->|Hne].
  - rewrite dict_get_set_same. discriminate.
  - now rewrite dict_get_set_other.
Qed.

Lemma dict_get_update_present (d2 d : dict) (k : string) :
  dict_get d k <> None -> dict_get (dict_update d d2) k <> None.
Proof.
  unfold dict_update. revert d.
  induction d2 as [|[k2 v2] d2 IH]; intros d H; simpl; auto.
  apply IH. now apply dict_get_set_present.
Qed.

Lemma dict_get_update_all (d2 d : dict) (k : string) (v : json) :
  (forall v', In (k, v') d2 -> v' = v) ->
  dict_get d2 k <> None ->
  dict_get (dict_update d d2) k = Some v.
Proof.
  unfold dict_update. revert d.
  induction d2 as [|[k2 v2] d2 IH]; intros d Hall Hsome; simpl in *.
  - contradiction.
  - destruct (dict_get d2 k) as [w|] eqn:Hr.
    + apply IH; [intros v' Hv'; apply Hall; now right | congruence].
    + fold (dict_update (dict_set d k2 v2) d2).
      rewrite (dict_get_update_absent _ _ _ Hr).
      destruct (String.eqb_spec k2 k) as [->|Hk]; [|contradiction].
      rewrite (Hall v2 (or_introl eq_refl)). apply dict_get_set_same.
Qed.

Lemma in_keys_dict_set (d : dict) (k k' : string) (v : json) :
  In k' (map fst (dict_set d k v)) -> k' = k \/ In k' (map fst d).
Proof.
  induction d as [|[k0 v0] d IH]; simpl.
  - intros [H | []]. now left.
  - destruct (k0 =? k); simpl; intros [H | H]; auto.
    destruct (IH H); auto.
Qed.

Lemma dict_set_nodup (d : dict) (k : string) (v : json) :
  NoDup (map fst d) -> NoDup (map fst (dict_set d k v)).
Proof.
  induction d as [|[k0 v0] d IH]; simpl; intros H.
  - constructor; [intros [] | constructor].
  - inversion H as [|x l Hnin Hd]; subst.
    destruct (String.eqb_spec k0 k) as [->|Hk]; simpl.
    + now constructor.
    + constructor; [|auto].
      intros Hin. apply in_keys_dict_set in Hin as [-> | Hin]; contradiction.
Qed.

Lemma dict_update_nodup (d2 d : dict) :
  NoDup (map fst d) -> NoDup (map fst (dict_update d d2)).
Proof.
  unfold dict_update. revert d.
  induction d2 as [|[k2 v2] d2 IH]; intros d H; simpl; auto.
  apply IH. now apply dict_set_nodup.
Qed.

Lemma nodup_get_in (d : dict) (k : string) (v : json) :
  NoDup (map fst d) -> In (k, v) d -> dict_get d k = Some v.
Proof.
  induction d as [|[k0 v0] d IH]; simpl; intros H Hin; [contradiction|].
  inversion H as [|x l Hnin Hd]; subst.
  destruct Hin as [[= -> ->] | Hin].
  - now rewrite String.eqb_refl.
  - destruct (String.eqb_spec k0 k) as [->|Hk]; [|auto].
    exfalso. apply Hnin. now apply (in_map fst) in Hin.
Qed.

(** On dictionaries with one binding for each key, [update] gives the
    argument's binding where there is one and keeps the others. *)
Lemma dict_get_update_nodup (d2 d : dict) (k : string) :
  NoDup (map fst d2) ->
  dict_get (dict_update d d2) k
  = match dict_get d2 k with Some v => Some v | None => dict_get d k end.
Proof.
  intros Hnd. destruct (dict_get d2 k) as [v|] eqn:E.
  - apply dict_get_update_all; [|congruence].
    intros v' Hin. apply (nodup_get_in _ _ _ Hnd) in Hin. congruence.
  - now apply dict_get_update_absent.
Qed.

(** ** C1: [remove_prefix] *)

(** C1 (the code departs from the claim).  On the key
    ["/terraform/state/test"], which is the default prefix followed by
    ["test"], [remove_prefix] returns the empty string, and on the prefix
    followed by ["staging"] it returns ["ging"]: [lstrip] removes every
    leading character that occurs in the prefix, not the prefix. *)
Theorem remove_prefix_strips_character_set :
  TerraformBackend.remove_prefix
    [JStr ("/terraform/state/" +++ "test");
     JStr ("/terraform/state/" +++ "staging");
     JStr ("/terraform/state/" +++ "prod-web")]
    (JStr "/terraform/state/")
  = Ok [""; "ging"; "prod-web"].
Proof. reflexivity. Qed.

(** ** Running monadic code *)

Lemma bind_ok {A B} (m : M A) (f : A -> M B) (s s' : state) (a : A) :
  m s = (Ok a, s') -> bind m f s = f a s'.
Proof. intros H. unfold bind. now rewrite H. Qed.

Lemma bind_err {A B} (m : M A) (f : A -> M B) (s s' : state) (e : exn) :
  m s = (Err e, s') -> bind m f s = (Err e, s').
Proof. intros H. unfold bind. now rewrite H. Qed.

Lemma bind_lift_ok {A B} (r : result A) (f : A -> M B) (s : state) (a : A) :
  r = Ok a -> bind (lift r) f s = f a s.
Proof. intros ->. reflexivity. Qed.

Lemma bind_lift_err {A B} (r : result A) (f : A -> M B) (s : state) (e : exn) :
  r = Err e -> bind (lift r) f s = (Err e, s).
Proof. intros ->. reflexivity. Qed.

Lemma bind_emit {B} (ev : event) (f : unit -> M B) (s : state) :
  bind (emit ev) f s = f tt (logged ev s).
Proof. reflexivity. Qed.

(** A successful [bind] splits into its two successful halves. *)
Lemma bind_inv_ok {A B} (m : M A) (f : A -> M B) (s s' : state) (b : B) :
  bind m f s = (Ok b, s') ->
  exists a s1, m s = (Ok a, s1) /\ f a s1 = (Ok b, s').
Proof.
  unfold bind. destruct (m s) as [[a|e] s1]; intros H.
  - now exists a, s1.
  - discriminate.
Qed.

Lemma bind_lift_inv_ok {A B} (r : result A) (f : A -> M B) (s s' : state) (b : B) :
  bind (lift r) f s = (Ok b, s') ->
  exists a, r = Ok a /\ f a s = (Ok b, s').
Proof.
  unfold bind, lift. destruct r as [a|e]; intros H.
  - now exists a.
  - discriminate.
Qed.

(** Take the next successful step of a run apart. *)
Ltac step_ok H :=
  match type of H with
  | bind (lift _) _ _ = (Ok _, _) =>
      let a := fresh "a" in let Ha := fresh "Ha" in
      apply bind_lift_inv_ok in H; destruct H as [a [Ha H]]
  | bind (emit _) _ _ = (Ok _, _) => rewrite bind_emit in H
  | bind (print _) _ _ = (Ok _, _) => unfold print in H; rewrite bind_emit in H
  | bind (display_v _) _ _ = (Ok _, _) => unfold display_v in H; rewrite bind_emit in H
  | bind (display_vv _) _ _ = (Ok _, _) => unfold display_vv in H; rewrite bind_emit in H
  | bind (display_vvv _) _ _ = (Ok _, _) => unfold display_vvv in H; rewrite bind_emit in H
  | bind _ _ _ = (Ok _, _) =>
      let a := fresh "a" in let s1 := fresh "s" in let Ha := fresh "Ha" in
      apply bind_inv_ok in H; destruct H as [a [s1 [Ha H]]]
  | ret _ _ = (Ok _, _) => unfold ret in H; inversion H; subst; clear H
  end.

(** ** C10: instances without attributes *)

Lemma AnsibleHost_loop_skips (hosts_ : list json) (ret_ : hosts) (s : state) :
  Forall attributes_absent_or_empty hosts_ ->
  AnsibleHost.loop hosts_ ret_ s = (Ok ret_, s).
Proof.
  induction 1 as [|inst r [d [-> Hd]] _ IH]; simpl; [reflexivity|].
  unfold py_get, dict_get_default.
  destruct Hd as [-> | ->]; simpl; exact IH.
Qed.

(** C10.  On a list of instances whose attributes are absent or empty the
    [ansible_host] driver raises nothing, writes nothing and returns the
    empty host map. *)
Theorem loop_over_hosts_skips_empty_attributes :
  forall (hosts_ : list json) (s : state),
    Forall attributes_absent_or_empty hosts_ ->
    AnsibleHost.loop_over_hosts hosts_ s = (Ok [], s).
Proof.
  intros hosts_ s H. unfold AnsibleHost.loop_over_hosts.
  now apply AnsibleHost_loop_skips.
Qed.

Lemma loop_over_hosts_skips_empty_attributes_witness :
  AnsibleHost.loop_over_hosts
    [JDict [("schema_version", JNum 0)];
     JDict [("attributes", JDict [])]] empty_state
  = (Ok [], empty_state).
Proof.
  apply loop_over_hosts_skips_empty_attributes.
  repeat constructor.
  - exists [("schema_version", JNum 0)]. split; [reflexivity|]. left. reflexivity.
  - exists [("attributes", JDict [])]. split; [reflexivity|]. right. reflexivity.
Defined.

(** ** C6: payload entries without a value *)



(** ** C5: expansion of the stack name *)

Lemma filter_match_strs (r : string -> bool) (ids : list string) :
  TerraformStack.filter_match r (map JStr ids) = Ok (map JStr (filter r ids)).
Proof.
  induction ids as [|x ids IH]; simpl; [reflexivity|].
  rewrite IH. simpl. now destruct (r x).
Qed.

Lemma step_extends (ext : string) (a : atom) (f : string -> bool) :
  extends ext f -> extends ext (step a f).
Proof.
  intros Hf [|c s]; simpl; [discriminate|].
  intros H. apply andb_true_iff in H as [Hc Hs].
  rewrite Hc. simpl. now apply Hf.
Qed.

Lemma star_extends (ext : string) (a : atom) (k : string -> bool) :
  extends ext k -> extends ext (star a k).
Proof.
  intros Hk s. induction s as [|c s IH]; simpl; intros H.
  - rewrite orb_false_r in H. apply Hk in H. simpl in H.
    destruct ext; simpl in *; rewrite H; reflexivity.
  - apply orb_true_iff in H as [H|H].
    + apply Hk in H. simpl in H. now rewrite H.
    + apply andb_true_iff in H as [Hc Hs].
      rewrite Hc, (IH Hs). simpl. apply orb_true_r.
Qed.

Lemma match_items_extends (ext : string) (items : list item) :
  extends ext (match_items items).
Proof.
  induction items as [|[a q] items IH]; simpl.
  - intros s _. reflexivity.
  - destruct q.
    + now apply step_extends.
    + now apply star_extends.
    + apply step_extends. now apply star_extends.
    + intros s H. apply orb_true_iff in H as [H|H].
      * apply (step_extends ext a _ IH) in H. now rewrite H.
      * apply IH in H. rewrite H. apply orb_true_r.
Qed.

Lemma re_fragment_extends (p : string) (r : string -> bool) (id ext : string) :
  re_fragment p = Some r -> r id = true -> r (id +++ ext) = true.
Proof.
  unfold re_fragment. destruct (tokens p) as [ts|]; [|discriminate].
  destruct (items_of ts) as [items|]; simpl; [|discriminate].
  intros [= <-]. apply match_items_extends.
Qed.

Lemma char_in_false_neq (c x : ascii) (chars : string) :
  char_in c chars = false -> char_in x chars = true -> Ascii.eqb c x = false.
Proof.
  intros Hc Hx. destruct (Ascii.eqb_spec c x) as [->|]; [|reflexivity].
  congruence.
Qed.

Lemma tokens_plain (p : string) :
  plain p = true ->
  tokens p = Some (map (fun c => TAtom (AChr c)) (list_ascii_of_string p)).
Proof.
  induction p as [|c p IH]; simpl; [reflexivity|].
  intros H. apply andb_true_iff in H as [H Hp].
  apply andb_true_iff in H as [Hm Ha].
  apply negb_true_iff in Hm.
  rewrite (char_in_false_neq c "\" _ Hm eq_refl).
  rewrite (char_in_false_neq c "." _ Hm eq_refl).
  rewrite (char_in_false_neq c "*" _ Hm eq_refl).
  rewrite (char_in_false_neq c "+" _ Hm eq_refl).
  rewrite (char_in_false_neq c "?" _ Hm eq_refl).
  fold (is_meta c). rewrite Hm, Ha. simpl. now rewrite (IH Hp).
Qed.

Lemma items_of_chars (l : list ascii) :
  items_of (map (fun c => TAtom (AChr c)) l)
  = Some (map (fun c => (AChr c, QOne)) l).
Proof.
  induction l as [|c l IH]; simpl; [reflexivity|].
  destruct l as [|c' l]; [reflexivity|].
  simpl in *. now rewrite IH.
Qed.

Lemma match_items_chars (p id : string) :
  match_items (map (fun c => (AChr c, QOne)) (list_ascii_of_string p)) id
  = String.prefix p id.
Proof.
  revert id. induction p as [|c p IH]; intros id; simpl.
  - now destruct id.
  - destruct id as [|x id]; simpl; [reflexivity|].
    rewrite IH. destruct (ascii_dec c x) as [->|Hne].
    + now rewrite Ascii.eqb_refl.
    + apply Ascii.eqb_neq in Hne. now rewrite Hne.
Qed.

Lemma re_fragment_plain (p : string) :
  plain p = true ->
  exists r, re_fragment p = Some r /\ forall id, r id = String.prefix p id.
Proof.
  intros H. unfold re_fragment. rewrite (tokens_plain p H), items_of_chars.
  simpl. eexists. split; [reflexivity|]. apply match_items_chars.
Qed.

(** C5.  The stack name is compiled as a regular expression and tested at
    the start of every identifier of the backend's listing; the identifiers
    that match are kept in the order of the listing.  On the fragment of
    [re] modelled here a match is a match of a prefix: it survives any
    extension of the identifier, and a pattern without special characters
    matches exactly the identifiers it is a prefix of.  So ["prod-"] keeps
    ["prod-web"] and ["prod-db"] of the three identifiers below, and ["web"]
    matches neither ["prod-web"] nor ["staging-web"]. *)
Theorem expand_paths_matches_at_start :
  (forall (env : Env) (self : TerraformStack.t) (p : string)
          (r : string -> bool) (ids : list string) (s s' : state),
      dict_get (TerraformStack.config self) "name" = Some (JStr p) ->
      re_compile env p = Some r ->
      backend_get_stacks env (TerraformStack.backend self) s
      = (Ok (JList (map JStr ids)), s') ->
      TerraformStack._expand_paths env self s
      = (Ok (map JStr (filter r ids)), s'))
  /\ (forall (p : string) (r : string -> bool) (id ext : string),
         re_fragment p = Some r -> r id = true -> r (id +++ ext) = true)
  /\ (forall p : string,
         plain p = true ->
         exists r, re_fragment p = Some r /\
                   forall id, r id = String.prefix p id)
  /\ (exists r, re_fragment "prod-" = Some r /\
                filter r ["prod-web"; "prod-db"; "staging-web"]
                = ["prod-web"; "prod-db"])
  /\ (exists r, re_fragment "web" = Some r /\
                r "prod-web" = false /\ r "staging-web" = false).
Proof.
  split; [|split; [|split; [|split]]].
  - intros env self p r ids s s' Hname Hre Hget.
    unfold TerraformStack._expand_paths, dict_getitem. rewrite Hname.
    rewrite (bind_lift_ok _ _ _ (JStr p)) by reflexivity.
    unfold TerraformStack.compile. rewrite Hre.
    rewrite (bind_lift_ok _ _ _ r) by reflexivity.
    rewrite (bind_ok _ _ _ _ _ Hget). simpl py_iter.
    rewrite (bind_lift_ok _ _ _ (map JStr ids)) by reflexivity.
    unfold lift. now rewrite filter_match_strs.
  - exact re_fragment_extends.
  - exact re_fragment_plain.
  - eexists. split; reflexivity.
  - eexists. split; [reflexivity|]. split; reflexivity.
Qed.

Lemma expand_paths_matches_at_start_witness :
  fst (TerraformStack._expand_paths site_env (site_stack "prod-" JNull) empty_state)
  = Ok [JStr "prod-web"; JStr "prod-db"].
Proof.
  destruct (backend_get_stacks site_env
              (TerraformStack.backend (site_stack "prod-" JNull)) empty_state)
    as [r s'] eqn:Hget.
  assert (Hr : r = Ok (JList (map JStr ["prod-web"; "prod-db"; "staging-web"])))
    by (vm_compute in Hget; now inversion Hget).
  subst r.
  rewrite (proj1 expand_paths_matches_at_start site_env (site_stack "prod-" JNull)
             "prod-" (match_items [(AChr "p"%char, QOne); (AChr "r"%char, QOne);
                                   (AChr "o"%char, QOne); (AChr "d"%char, QOne);
                                   (AChr "-"%char, QOne)])
             _ _ _ eq_refl eq_refl Hget).
  reflexivity.
Defined.

(** ** C7: the response cache *)

Lemma find_caches_set_same (cs : list (string * dict)) (name : string) (c : dict) :
  option_map snd (find (fun p => fst p =? name) (caches_set cs name c)) = Some c.
Proof.
  induction cs as [|[n c'] cs IH]; simpl.
  - now rewrite String.eqb_refl.
  - destruct (n =? name) eqn:E; simpl; rewrite E; auto.
Qed.

Lemma find_caches_set_other (cs : list (string * dict)) (name n : string) (c : dict) :
  name <> n ->
  option_map snd (find (fun p => fst p =? n) (caches_set cs name c))
  = option_map snd (find (fun p => fst p =? n) cs).
Proof.
  intros Hne. induction cs as [|[n0 c0] cs IH]; simpl.
  - destruct (String.eqb_spec name n); [contradiction | reflexivity].
  - destruct (String.eqb_spec n0 name) as [->|Hn]; simpl.
    + destruct (String.eqb_spec name n); [contradiction | reflexivity].
    + destruct (n0 =? n); [reflexivity | exact IH].
Qed.

Lemma cache_of_as_find (s : state) (name : string) :
  cache_of s name
  = match option_map snd (find (fun p => fst p =? name) (caches s)) with
    | Some c => c
    | None => []
    end.
Proof. unfold cache_of. now destruct (find _ _). Qed.

(** The state after the cache of [name] became [c]. *)
Lemma set_cache_run (name : string) (c : dict) (s : state) :
  exists s', set_cache name c s = (Ok tt, s') /\
             caches s' = caches_set (caches s) name c /\
             requests s' = requests s /\ log s' = log s.
Proof. eexists. split; [reflexivity|]. simpl. auto. Qed.

Lemma cache_of_set_same (s s' : state) (name : string) (c : dict) :
  caches s' = caches_set (caches s) name c -> cache_of s' name = c.
Proof.
  intros H. rewrite cache_of_as_find, H, find_caches_set_same. reflexivity.
Qed.

Lemma cache_of_set_other (s s' : state) (name n : string) (c : dict) :
  caches s' = caches_set (caches s) name c -> name <> n ->
  cache_of s' n = cache_of s n.
Proof.
  intros H Hne. rewrite !cache_of_as_find, H.
  now rewrite find_caches_set_other.
Qed.

Lemma cache_of_same_caches (s s' : state) (n : string) :
  caches s' = caches s -> cache_of s' n = cache_of s n.
Proof. unfold cache_of. now intros ->. Qed.

(** A fetch leaves every cache as it was and sends exactly one request. *)
Lemma kv_get_frame (env : Env) (url : string) (params headers : option dict)
  (s s' : state) (r : result json) :
  TerraformConsul.kv_get env url params headers s = (r, s') ->
  caches s' = caches s /\
  requests s' = {| req_url := url; req_params := or_empty params;
                   req_headers := or_empty headers |} :: requests s.
Proof.
  unfold TerraformConsul.kv_get, bind, display_vv, display_vvv, emit, send,
    ret, raise, lift.
  destruct (truthy (JDict (or_empty params)));
    destruct (truthy (JDict (or_empty headers))); simpl;
    destruct (http_get env _ _) as [e|code reason rurl text];
    try destruct (code =? 200)%Z; intros [= <- <-]; auto.
Qed.

(** What a write of [v] under the new key [url] does to lookups. *)
Lemma write_keeps (s s' : state) (name url : string) (v : json) :
  dict_get (cache_of s name) url = None ->
  caches s' = caches_set (caches s) name (dict_set (cache_of s name) url v) ->
  dict_get (cache_of s' name) url = Some v /\
  forall n u w, dict_get (cache_of s n) u = Some w ->
                dict_get (cache_of s' n) u = Some w.
Proof.
  intros Hmiss Hs'. split.
  - rewrite (cache_of_set_same _ _ _ _ Hs'). apply dict_get_set_same.
  - intros n u w Hw. destruct (String.eqb_spec name n) as [<-|Hn].
    + rewrite (cache_of_set_same _ _ _ _ Hs').
      destruct (String.eqb_spec url u) as [<-|Hu]; [congruence|].
      now rewrite dict_get_set_other.
    + now rewrite (cache_of_set_other _ _ _ _ _ Hs' Hn).
Qed.

(** The loop of [get_resources] either stores the value it returns under
    [url], or stores nothing and returns [None] or raises. *)
Lemma resources_loop_cache (env : Env) (self : TerraformConsul.t)
  (url key : string) (l : list json) (s s' : state) (r : result json) :
  TerraformConsul.resources_loop env self url key l s = (r, s') ->
  (caches s' = caches s /\ requests s' = requests s /\
   (r = Ok JNull \/ exists e, r = Err e))
  \/ (exists v, r = Ok v /\ requests s' = requests s /\
                caches s' = caches_set (caches s) (TerraformConsul.name self)
                              (dict_set (cache_of s (TerraformConsul.name self))
                                 url v)).
Proof.
  revert s. induction l as [|payload l IH]; intros s; simpl.
  - intros [= <- <-]. left. simpl. auto.
  - unfold bind at 1. unfold lift at 1.
    destruct (py_get payload "Key" JNull) as [kn|e];
      [|intros [= <- <-]; left; eauto].
    unfold bind at 1. unfold lift at 1.
    destruct (py_get payload "Value" JNull) as [value|e];
      [|intros [= <- <-]; left; eauto].
    destruct (truthy value); simpl.
    + unfold bind at 1. unfold lift at 1.
      destruct (TerraformConsul.decode_value env value) as [b|e];
        [|intros [= <- <-]; left; eauto].
      unfold bind at 1. unfold lift at 1.
      destruct (TerraformConsul.loads env b) as [doc|e];
        [|intros [= <- <-]; left; eauto].
      unfold bind at 1. unfold lift at 1.
      destruct (py_get doc "resources" JNull) as [v|e];
        [|intros [= <- <-]; left; eauto].
      intros [= <- <-]. right. exists v. simpl. auto.
    + intros H. apply IH in H. simpl in H. exact H.
Qed.

Lemma get_resources_cache (env : Env) (self : TerraformConsul.t) (path : json)
  (prefix : json) (url : string) (s s' : state) (r : result json) :
  dict_getitem (TerraformConsul.config self) "prefix" = Ok prefix ->
  TerraformConsul.get_url env self (JStr (py_str env prefix +++ py_str env path))
  = Ok url ->
  TerraformConsul.get_resources env self path s = (r, s') ->
  (forall v, dict_get (cache_of s (TerraformConsul.name self)) url = Some v ->
             r = Ok v /\ s' = s) /\
  (forall v, r = Ok v ->
             dict_get (cache_of s' (TerraformConsul.name self)) url = Some v \/
             (v = JNull /\
              dict_get (cache_of s' (TerraformConsul.name self)) url = None /\
              caches s' = caches s)) /\
  (forall n u w, dict_get (cache_of s n) u = Some w ->
                 dict_get (cache_of s' n) u = Some w).
Proof.
  intros Hp Hu. unfold TerraformConsul.get_resources.
  rewrite (bind_lift_ok _ _ _ _ Hp), (bind_lift_ok _ _ _ _ Hu).
  unfold bind at 1. unfold get_cache at 1.
  destruct (dict_get (cache_of s (TerraformConsul.name self)) url) as [v0|] eqn:Hc.
  - unfold ret. intros [= <- <-]. split; [|split].
    + intros v [= <-]. auto.
    + intros v [= <-]. now left.
    + auto.
  - unfold bind at 1.
    destruct (TerraformConsul.kv_get env url None None s) as [rp s1] eqn:Hkv.
    destruct (kv_get_frame _ _ _ _ _ _ _ Hkv) as [Hcs _].
    assert (Hkeep : forall s2, caches s2 = caches s1 ->
              forall n u w, dict_get (cache_of s n) u = Some w ->
                            dict_get (cache_of s2 n) u = Some w).
    { intros s2 H2 n u w Hw.
      rewrite (cache_of_same_caches s s2) by congruence. exact Hw. }
    assert (Hmiss : forall s2, caches s2 = caches s1 ->
              dict_get (cache_of s2 (TerraformConsul.name self)) url = None).
    { intros s2 H2. rewrite (cache_of_same_caches s s2) by congruence. exact Hc. }
    destruct rp as [payload_|e].
    + destruct payload_ as [| | | |l|];
        try (intros [= <- <-]; repeat split; auto; discriminate).
      intros Hloop. apply resources_loop_cache in Hloop.
      destruct Hloop as [[Hs' [_ Hr]] | [v [-> [_ Hs']]]].
      * split; [discriminate|]. split; [|auto].
        intros v ->. right. destruct Hr as [[= ->] | [e He]]; [|discriminate].
        repeat split; auto; congruence.
      * destruct (write_keeps s1 s' _ url v (Hmiss s1 eq_refl) Hs') as [Hst Hk].
        split; [discriminate|]. split.
        -- intros v' [= <-]. now left.
        -- intros n u w Hw. apply Hk. now apply (Hkeep s1).
    + intros [= <- <-]. repeat split; auto; discriminate.
Qed.

Lemma get_stacks_cache (env : Env) (self : TerraformConsul.t)
  (prefix : json) (url : string) (s s' : state) (r : result json) :
  dict_getitem (TerraformConsul.config self) "prefix" = Ok prefix ->
  TerraformConsul.get_url env self prefix = Ok url ->
  TerraformConsul.get_stacks env self JNull s = (r, s') ->
  (forall v, dict_get (cache_of s (TerraformConsul.name self)) url = Some v ->
             r = Ok v /\ s' = s) /\
  (forall v, r = Ok v ->
             dict_get (cache_of s' (TerraformConsul.name self)) url = Some v) /\
  (forall n u w, dict_get (cache_of s n) u = Some w ->
                 dict_get (cache_of s' n) u = Some w).
Proof.
  intros Hp Hu. unfold TerraformConsul.get_stacks.
  rewrite (bind_lift_ok _ _ _ _ Hp). simpl truthy. cbv iota.
  rewrite (bind_lift_ok _ _ _ _ Hu).
  unfold bind at 1. unfold get_cache at 1.
  destruct (dict_get (cache_of s (TerraformConsul.name self)) url) as [v0|] eqn:Hc.
  - unfold ret. intros [= <- <-]. split; [|split].
    + intros v [= <-]. auto.
    + intros v [= <-]. assumption.
    + auto.
  - unfold bind at 1.
    destruct (TerraformConsul.kv_get env url _ None s) as [rp s1] eqn:Hkv.
    destruct (kv_get_frame _ _ _ _ _ _ _ Hkv) as [Hcs _].
    assert (Hkeep : forall n u w, dict_get (cache_of s n) u = Some w ->
                                  dict_get (cache_of s1 n) u = Some w).
    { intros n u w Hw. now rewrite (cache_of_same_caches s s1). }
    assert (Hmiss : dict_get (cache_of s1 (TerraformConsul.name self)) url = None).
    { now rewrite (cache_of_same_caches s s1). }
    destruct rp as [payload|e];
      [|intros [= <- <-]; repeat split; auto; discriminate].
    destruct payload as [| | | |l|];
      try (intros [= <- <-]; repeat split; auto; discriminate).
    unfold bind at 1. unfold lift at 1.
    destruct (TerraformBackend.remove_prefix l prefix) as [ret_|e];
      [|intros [= <- <-]; repeat split; auto; discriminate].
    intros [= <- <-].
    match goal with
    | |- context [cache_of ?st _] =>
        match st with
        | s => fail 1
        | s1 => fail 1
        | _ => set (s2 := st)
        end
    end.
    assert (Hs2 : caches s2
                  = caches_set (caches s1) (TerraformConsul.name self)
                      (dict_set (cache_of s1 (TerraformConsul.name self)) url
                         (JList (map JStr ret_)))) by reflexivity.
    destruct (write_keeps s1 s2 _ url _ Hmiss Hs2) as [Hst Hk].
    split; [discriminate|]. split.
    + intros v [= <-]. exact Hst.
    + intros n u w Hw. apply Hk, Hkeep, Hw.
Qed.




(** ** The injection of the stack context *)

Lemma inject_tagged (path driver_name host_def def : json) :
  TerraformStack.inject path driver_name host_def = Ok def ->
  tagged path driver_name def.
Proof.
  unfold TerraformStack.inject. destruct host_def as [| | | | |d]; try discriminate.
  unfold dict_getitem.
  destruct (dict_get (dict_set d "terraform" _) "vars") as [vars|] eqn:Hv;
    [|discriminate].
  simpl. destruct vars as [| | | | |v]; try discriminate.
  intros [= <-]. eexists. eexists. split; [reflexivity|].
  split; [|split; [|split]].
  - rewrite dict_get_set_other by discriminate. apply dict_get_set_same.
  - apply dict_get_set_same.
  - unfold dict_update. simpl.
    rewrite dict_get_set_other by discriminate. apply dict_get_set_same.
  - unfold dict_update. simpl. apply dict_get_set_same.
Qed.

Lemma hosts_set_absent (h : hosts) (k v : json) :
  hosts_mem h k = false -> hosts_set h k v = h ++ [(k, v)].
Proof.
  unfold hosts_mem. induction h as [|[k' v'] h IH]; simpl; [reflexivity|].
  destruct (key_eqb k' k); [discriminate|].
  intros H. now rewrite IH.
Qed.

(** ** C2 and C3: what an exception does to the run *)

Lemma bind_assoc {A B C} (m : M A) (f : A -> M B) (g : B -> M C) (s : state) :
  bind (bind m f) g s = bind m (fun a => bind (f a) g) s.
Proof. unfold bind. destruct (m s) as [[a|e] s1]; reflexivity. Qed.

Lemma bind_ext {A B} (m : M A) (f g : A -> M B) (s : state) :
  (forall a s1, f a s1 = g a s1) -> bind m f s = bind m g s.
Proof. intros H. unfold bind. destruct (m s) as [[a|e] s1]; auto. Qed.

Lemma paths_loop_app (env : Env) (self : TerraformStack.t)
  (pre post : list json) (ret_ : hosts) (s : state) :
  TerraformStack.paths_loop env self (pre ++ post) ret_ s
  = bind (TerraformStack.paths_loop env self pre ret_)
      (fun ret' => TerraformStack.paths_loop env self post ret') s.
Proof.
  revert ret_ s. induction pre as [|path pre IH]; intros ret_ s; simpl.
  - reflexivity.
  - repeat (rewrite bind_assoc; apply bind_ext; intros).
    apply IH.
Qed.

Lemma stacks_loop_app (env : Env) (pre post : list TerraformStack.t)
  (ret_ : hosts) (s : state) :
  TerraformPlugin.stacks_loop env (pre ++ post) ret_ s
  = bind (TerraformPlugin.stacks_loop env pre ret_)
      (fun ret' => TerraformPlugin.stacks_loop env post ret') s.
Proof.
  revert ret_ s. induction pre as [|stack pre IH]; intros ret_ s; simpl.
  - reflexivity.
  - repeat (rewrite bind_assoc; apply bind_ext; intros).
    apply IH.
Qed.

(** An exception in the expansion of one stack ends the loop over the
    stacks. *)
Lemma stacks_loop_raises (env : Env) (pre post : list TerraformStack.t)
  (stack : TerraformStack.t) (ret_ ret1 : hosts) (s s1 s2 : state) (e : exn) :
  TerraformPlugin.stacks_loop env pre ret_ s = (Ok ret1, s1) ->
  TerraformStack.expand_conf env stack (logged (parsing stack) s1) = (Err e, s2) ->
  TerraformPlugin.stacks_loop env (pre ++ stack :: post) ret_ s = (Err e, s2).
Proof.
  intros Hpre Hex. rewrite stacks_loop_app, (bind_ok _ _ _ _ _ Hpre). simpl.
  unfold display_vvv. rewrite bind_emit. fold (parsing stack).
  now rewrite (bind_err _ _ _ _ _ Hex).
Qed.

Lemma get_hosts_raises (env : Env) (stacks_conf : list dict)
  (backends_conf : list (string * dict)) (pre post : list TerraformStack.t)
  (stack : TerraformStack.t) (ret1 : hosts) (s s0 s1 s2 : state) (e : exn) :
  TerraformPlugin.parse_config env stacks_conf backends_conf s
  = (Ok (pre ++ stack :: post), s0) ->
  TerraformPlugin.stacks_loop env pre [] s0 = (Ok ret1, s1) ->
  TerraformStack.expand_conf env stack (logged (parsing stack) s1) = (Err e, s2) ->
  TerraformPlugin.get_hosts env stacks_conf backends_conf s = (Err e, s2).
Proof.
  intros Hparse Hpre Hex.
  unfold TerraformPlugin.get_hosts, TerraformPlugin.expand_stacks.
  rewrite (bind_ok _ _ _ _ _ Hparse).
  exact (stacks_loop_raises _ _ _ _ _ _ _ _ _ _ Hpre Hex).
Qed.

(** C2 (as amended).  When the fetch of the resources of one concrete stack
    raises, whatever the exception, the expansion of its stack raises it,
    the loop over the stacks ends there and the run returns the exception
    instead of a host map: the stacks still to come are not processed and
    the hosts found so far are not returned. *)
Theorem fetch_failure_aborts_run :
  forall (env : Env) (stacks_conf : list dict)
         (backends_conf : list (string * dict))
         (pre post : list TerraformStack.t) (stack : TerraformStack.t)
         (before after : list json) (path : json)
         (ret1 ret2 : hosts) (s s0 s1 s2 s3 s4 : state) (e : exn),
    TerraformPlugin.parse_config env stacks_conf backends_conf s
    = (Ok (pre ++ stack :: post), s0) ->
    TerraformPlugin.stacks_loop env pre [] s0 = (Ok ret1, s1) ->
    TerraformStack._expand_paths env stack (logged (parsing stack) s1)
    = (Ok (before ++ path :: after), s2) ->
    TerraformStack.paths_loop env stack before [] s2 = (Ok ret2, s3) ->
    backend_get_resources env (TerraformStack.backend stack) path s3 = (Err e, s4) ->
    TerraformPlugin.get_hosts env stacks_conf backends_conf s = (Err e, s4).
Proof.
  intros env stacks_conf backends_conf pre post stack before after path
    ret1 ret2 s s0 s1 s2 s3 s4 e Hparse Hpre Hpaths Hbefore Hfetch.
  apply (get_hosts_raises _ _ _ _ _ _ _ _ _ _ _ _ Hparse Hpre).
  unfold TerraformStack.expand_conf. rewrite (bind_ok _ _ _ _ _ Hpaths).
  rewrite paths_loop_app, (bind_ok _ _ _ _ _ Hbefore). simpl.
  now rewrite (bind_err _ _ _ _ _ Hfetch).
Qed.

Lemma lookup_driver_unregistered (env : Env) (driver_name : json) :
  registered driver_name = false ->
  TerraformStack.lookup_driver env driver_name
  = Err (Exception ("Could not find driver '" +++ py_str env driver_name +++ "'")).
Proof.
  unfold registered, TerraformStack.lookup_driver.
  destruct driver_name as [| | |n| |]; try reflexivity.
  intros H. destruct (find _ _) as [p|] eqn:Hf; [|reflexivity].
  apply find_some in Hf as [Hin Heq].
  assert (existsb (fun p => fst p =? n) TerraformStack.driver_map = true)
    by (apply existsb_exists; eauto).
  congruence.
Qed.

(** C3 (as amended).  When the configuration of the backend of a stack has
    a driver entry, the effective driver name of the stack (its own driver
    entry, else the backend's) is not a key of the driver registry, and
    the stack expands to at least one concrete identifier, the expansion
    raises the exception "Could not find driver" once the resources of the
    first identifier are fetched; the exception ends the loop over the
    stacks and the run returns it instead of a host map.  (Without a
    driver entry in the backend's configuration the lookup
    [backend.config['driver']] raises first.) *)
Theorem unknown_driver_aborts_run :
  forall (env : Env) (stacks_conf : list dict)
         (backends_conf : list (string * dict))
         (pre post : list TerraformStack.t) (stack : TerraformStack.t)
         (path : json) (rest : list json) (res stack_type backend_type : json)
         (ret1 : hosts) (s s0 s1 s2 s3 : state),
    TerraformPlugin.parse_config env stacks_conf backends_conf s
    = (Ok (pre ++ stack :: post), s0) ->
    TerraformPlugin.stacks_loop env pre [] s0 = (Ok ret1, s1) ->
    TerraformStack._expand_paths env stack (logged (parsing stack) s1)
    = (Ok (path :: rest), s2) ->
    backend_get_resources env (TerraformStack.backend stack) path s2 = (Ok res, s3) ->
    backend_config_getitem (TerraformStack.backend stack) "driver" = Ok backend_type ->
    dict_getitem (TerraformStack.config stack) "driver" = Ok stack_type ->
    registered (TerraformStack.driver_name_of stack_type backend_type) = false ->
    TerraformPlugin.get_hosts env stacks_conf backends_conf s
    = (Err (Exception
              ("Could not find driver '"
               +++ py_str env (TerraformStack.driver_name_of stack_type backend_type)
               +++ "'")), s3).
Proof.
  intros env stacks_conf backends_conf pre post stack path rest res
    stack_type backend_type ret1 s s0 s1 s2 s3
    Hparse Hpre Hpaths Hfetch Hbt Hst Hreg.
  apply (get_hosts_raises _ _ _ _ _ _ _ _ _ _ _ _ Hparse Hpre).
  unfold TerraformStack.expand_conf. rewrite (bind_ok _ _ _ _ _ Hpaths). simpl.
  rewrite (bind_ok _ _ _ _ _ Hfetch).
  rewrite (bind_lift_ok _ _ _ _ Hbt), (bind_lift_ok _ _ _ _ Hst).
  now rewrite (bind_lift_err _ _ _ _ (lookup_driver_unregistered env _ Hreg)).
Qed.

Lemma fetch_failure_aborts_run_witness :
  exists s',
    TerraformPlugin.get_hosts site_env_web_down [site_stack_def "prod-" JNull]
      site_backends_conf empty_state
    = (Err (AnsibleError
              ("Bad HTTP response, got: 500Internal Server Error: 500 on "
               +++ site_base +++ "prod-web: ")), s').
Proof.
  eexists.
  eapply (fetch_failure_aborts_run site_env_web_down _ _ [] []
            (site_stack "prod-" JNull) [] [JStr "prod-db"] (JStr "prod-web")).
  - lazy. reflexivity.
  - lazy. reflexivity.
  - lazy. reflexivity.
  - lazy. reflexivity.
  - lazy. reflexivity.
Defined.

(** C2 as stated fails: [prod-web] answers [500], [prod-db] is fine; the
    run over both raises, although the run over [prod-db] alone returns
    its two hosts. *)
Lemma failed_fetch_loses_other_stacks :
  fst (TerraformPlugin.get_hosts site_env_web_down
         [site_stack_def "prod-web" JNull; site_stack_def "prod-db" JNull]
         site_backends_conf empty_state)
  = Err (AnsibleError
           ("Bad HTTP response, got: 500Internal Server Error: 500 on "
            +++ site_base +++ "prod-web: "))
  /\ hostnames (fst (TerraformPlugin.get_hosts site_env_web_down
                       [site_stack_def "prod-db" JNull]
                       site_backends_conf empty_state))
     = Some [JStr "node1"; JStr "node3"].
Proof. vm_compute. split; reflexivity. Qed.

Lemma unknown_driver_aborts_run_witness :
  exists s',
    TerraformPlugin.get_hosts site_env
      [site_stack_def "prod-db" JNull; site_stack_def "prod-web" (JStr "docker")]
      site_backends_conf empty_state
    = (Err (Exception "Could not find driver 'docker'"), s').
Proof.
  eexists.
  eapply (unknown_driver_aborts_run site_env _ _
            [site_stack "prod-db" JNull] []
            {| TerraformStack.config :=
                 TerraformStack.get_config
                   (dict_set (dict_update TerraformPlugin.default_stack_conf
                                (site_stack_def "prod-web" (JStr "docker")))
                      "index" (JNum 1));
               TerraformStack.backend := BackendConsul site_consul |}
            (JStr "prod-web") [] _ (JStr "docker") (JStr "ansible_host")).
  - lazy. reflexivity.
  - lazy. reflexivity.
  - lazy. reflexivity.
  - lazy. reflexivity.
  - lazy. reflexivity.
  - lazy. reflexivity.
  - lazy. reflexivity.
Defined.

(** C3 as stated fails: the first stack names the driver [docker], which
    is not registered, the second has a valid driver; the run over both
    raises, although the run over the second alone returns its two
    hosts. *)
Lemma unknown_driver_loses_other_stacks :
  fst (TerraformPlugin.get_hosts site_env
         [site_stack_def "prod-web" (JStr "docker"); site_stack_def "prod-db" JNull]
         site_backends_conf empty_state)
  = Err (Exception "Could not find driver 'docker'")
  /\ hostnames (fst (TerraformPlugin.get_hosts site_env
                       [site_stack_def "prod-db" JNull]
                       site_backends_conf empty_state))
     = Some [JStr "node1"; JStr "node3"].
Proof. vm_compute. split; reflexivity. Qed.

(** ** C9: the effective driver name *)

Lemma default_stack_conf_nodup :
  NoDup (map fst TerraformPlugin.default_stack_conf).
Proof.
  repeat constructor; simpl; intuition discriminate.
Qed.

(** The [driver] entry of the configuration of a stack object is the one
    of the stack definition it was built from, and [None] when the
    definition has none. *)
Lemma stack_config_driver (idx : nat) (stack_def : dict) :
  NoDup (map fst stack_def) ->
  dict_getitem (TerraformStack.get_config (new_stack_def idx stack_def)) "driver"
  = Ok (dict_get_default stack_def "driver" JNull).
Proof.
  intros Hnd. unfold dict_getitem, TerraformStack.get_config.
  rewrite dict_get_update_nodup.
  2:{ unfold new_stack_def. apply dict_set_nodup, dict_update_nodup,
        default_stack_conf_nodup. }
  unfold new_stack_def.
  rewrite dict_get_set_other by discriminate.
  rewrite dict_get_update_nodup by assumption.
  unfold dict_get_default.
  destruct (dict_get stack_def "driver"); reflexivity.
Qed.

Lemma driver_name_of_cases (stack_type backend_type : json) :
  TerraformStack.driver_name_of stack_type backend_type
  = if truthy stack_type then stack_type
    else if truthy backend_type then backend_type else JNull.
Proof.
  unfold TerraformStack.driver_name_of, py_or.
  destruct (truthy stack_type) eqn:Hs; [now rewrite Hs|].
  destruct (truthy backend_type) eqn:Hb; reflexivity.
Qed.

(** C9 (as amended).  For a stack object built by [parse_stacks] from a
    stack definition (a dictionary: one entry for each key), on a backend
    whose configuration has a [driver] entry: the driver of the stack is
    the [driver] entry of its definition, [None] when the definition has
    none; the effective driver is that entry when it is truthy, else the
    backend's entry when that one is truthy, else [None]; and for every
    concrete identifier the loop of [expand_conf] looks up, and writes on
    the hosts, exactly this effective driver. *)
Theorem falsy_stack_driver_is_not_set :
  forall (env : Env) (stack_def : dict) (idx : nat) (bs : backends)
         (stack : TerraformStack.t) (backend_driver : json)
         (path : json) (rest : list json) (ret_ : hosts) (s : state),
    NoDup (map fst stack_def) ->
    TerraformStack.__init__ (new_stack_def idx stack_def) bs = Ok stack ->
    backend_config_getitem (TerraformStack.backend stack) "driver"
    = Ok backend_driver ->
    let entry := dict_get_default stack_def "driver" JNull in
    let effective :=
      if truthy entry then entry
      else if truthy backend_driver then backend_driver else JNull in
    dict_getitem (TerraformStack.config stack) "driver" = Ok entry /\
    TerraformStack.paths_loop env stack (path :: rest) ret_ s
    = (do res <- backend_get_resources env (TerraformStack.backend stack) path ;
       do driver_cls <- lift (TerraformStack.lookup_driver env effective) ;
       do driver <- Driver.__init__ driver_cls res ;
       do hosts_ <- Driver_get_hosts driver ;
       do ret' <- TerraformStack.hosts_loop path effective hosts_ ret_ ;
       TerraformStack.paths_loop env stack rest ret') s.
Proof.
  intros env stack_def idx bs stack backend_driver path rest ret_ s
    Hnd Hinit Hbd entry effective.
  assert (Hcfg : dict_getitem (TerraformStack.config stack) "driver" = Ok entry).
  { unfold TerraformStack.__init__ in Hinit.
    destruct (backends_getitem bs _) as [b|e]; simpl in Hinit; [|discriminate].
    injection Hinit as <-. simpl. now apply stack_config_driver. }
  split; [exact Hcfg|].
  cbn [TerraformStack.paths_loop].
  apply bind_ext. intros res s1.
  rewrite (bind_lift_ok _ _ _ _ Hbd), (bind_lift_ok _ _ _ _ Hcfg).
  rewrite driver_name_of_cases. reflexivity.
Qed.

Lemma falsy_stack_driver_is_not_set_witness :
  dict_getitem (TerraformStack.config (site_stack "prod-" (JStr ""))) "driver"
  = Ok (JStr "") /\
  TerraformStack.paths_loop site_env (site_stack "prod-" (JStr ""))
    [JStr "prod-web"] [] empty_state
  = (do res <- backend_get_resources site_env (BackendConsul site_consul)
                 (JStr "prod-web") ;
     do driver_cls <- lift (TerraformStack.lookup_driver site_env
                              (JStr "ansible_host")) ;
     do driver <- Driver.__init__ driver_cls res ;
     do hosts_ <- Driver_get_hosts driver ;
     do ret' <- TerraformStack.hosts_loop (JStr "prod-web") (JStr "ansible_host")
                  hosts_ [] ;
     TerraformStack.paths_loop site_env (site_stack "prod-" (JStr "")) [] ret')
    empty_state.
Proof.
  refine (falsy_stack_driver_is_not_set site_env (site_stack_def "prod-" (JStr ""))
            0 [("consul1", BackendConsul site_consul)]
            (site_stack "prod-" (JStr "")) (JStr "ansible_host")
            (JStr "prod-web") [] [] empty_state _ _ _).
  - repeat constructor; simpl; intuition discriminate.
  - reflexivity.
  - reflexivity.
Defined.

(** The claim as stated fails where the backend's driver entry is falsy
    without being [None]: a stack without driver on a backend configured
    with the driver [''] does not get [''] as its driver but [None], as
    the message of the failed registry lookup shows. *)
Lemma falsy_backend_driver_is_not_used :
  let stack_def := [("name", JStr "prod-"); ("backend", JStr "consul1")] in
  let backend_def :=
    [("type", JStr "consul"); ("prefix", JStr "/infra/"); ("driver", JStr "")] in
  exists stack s0 s',
    TerraformPlugin.parse_config site_env [stack_def] [("consul1", backend_def)]
      empty_state = (Ok [stack], s0) /\
    dict_getitem (TerraformStack.config stack) "driver" = Ok JNull /\
    backend_config_getitem (TerraformStack.backend stack) "driver" = Ok (JStr "") /\
    TerraformStack.expand_conf site_env stack s0
    = (Err (Exception "Could not find driver 'None'"), s') /\
    TerraformStack.lookup_driver site_env (JStr "")
    = Err (Exception "Could not find driver ''").
Proof.
  do 3 eexists. repeat split; vm_compute; reflexivity.
Qed.

(** ** C4: the first record of a hostname wins *)

Lemma key_eqb_sym (a b : json) : key_eqb a b = key_eqb b a.
Proof.
  destruct a, b; simpl; auto using String.eqb_sym, Z.eqb_sym.
  now destruct b, b0.
Qed.



Lemma hosts_get_app (a b : hosts) (k : json) :
  hosts_get (a ++ b) k
  = match hosts_get a k with
    | Some v => Some v
    | None => hosts_get b k
    end.
Proof.
  induction a as [|[k0 v0] a IH]; simpl; [reflexivity|].
  now destruct (key_eqb k0 k).
Qed.

Lemma hosts_mem_app (a b : hosts) (k : json) :
  hosts_mem (a ++ b) k = hosts_mem a k || hosts_mem b k.
Proof.
  unfold hosts_mem. rewrite hosts_get_app.
  now destruct (hosts_get a k).
Qed.









(** *** The other loops never write the message of [expand_stacks] *)

Lemma silent_ret {A} (a : A) : silent (ret a).
Proof. intros s r s' [= <- <-]. reflexivity. Qed.

Lemma silent_raise {A} (e : exn) : silent (@raise A e).
Proof. intros s r s' [= <- <-]. reflexivity. Qed.

Lemma silent_lift {A} (x : result A) : silent (lift x).
Proof. intros s r s' [= <- <-]. reflexivity. Qed.

Lemma silent_bind {A B} (m : M A) (f : A -> M B) :
  silent m -> (forall a, silent (f a)) -> silent (bind m f).
Proof.
  intros Hm Hf s r s'. unfold bind.
  destruct (m s) as [[a|e] s1] eqn:E; intros H.
  - rewrite (Hf a _ _ _ H). exact (Hm _ _ _ E).
  - injection H as <- <-. exact (Hm _ _ _ E).
Qed.

Lemma silent_emit (e : event) : duplicated_host_event e = false -> silent (emit e).
Proof.
  intros He s r s' [= <- <-]. unfold count_duplicated. simpl. now rewrite He.
Qed.

Lemma silent_get_cache (name : string) : silent (get_cache name).
Proof. intros s r s' [= <- <-]. reflexivity. Qed.

Lemma silent_set_cache (name : string) (c : dict) : silent (set_cache name c).
Proof. intros s r s' [= <- <-]. reflexivity. Qed.

Lemma silent_send (env : Env) (r : request) : silent (send env r).
Proof. intros s x s' [= <- <-]. reflexivity. Qed.

Create HintDb silent.
#[export] Hint Resolve silent_ret silent_raise silent_lift silent_get_cache
  silent_set_cache silent_send : silent.

(** Go through a computation bind by bind and branch by branch. *)
Ltac silence :=
  repeat first
    [ progress auto with silent
    | apply silent_emit; reflexivity
    | apply silent_bind; [|intros]
    | match goal with
      | |- silent (if ?b then _ else _) => destruct b
      | |- silent (match ?x with _ => _ end) => destruct x
      end ].

Lemma silent_kv_get (env : Env) (url : string) (params headers : option dict) :
  silent (TerraformConsul.kv_get env url params headers).
Proof.
  unfold TerraformConsul.kv_get, display_vv, display_vvv. silence.
Qed.
#[export] Hint Resolve silent_kv_get : silent.

Lemma silent_resources_loop (env : Env) (self : TerraformConsul.t)
  (url key : string) (l : list json) :
  silent (TerraformConsul.resources_loop env self url key l).
Proof.
  induction l as [|payload l IH]; simpl;
    unfold display_vv, display_vvv, print; silence.
Qed.
#[export] Hint Resolve silent_resources_loop : silent.

Lemma silent_backend_get_resources (env : Env) (b : backend_obj) (path : json) :
  silent (backend_get_resources env b path).
Proof.
  destruct b; simpl; [unfold TerraformConsul.get_resources|]; silence.
Qed.

Lemma silent_backend_get_stacks (env : Env) (b : backend_obj) :
  silent (backend_get_stacks env b).
Proof.
  destruct b; simpl; [unfold TerraformConsul.get_stacks, display_v|]; silence.
Qed.
#[export] Hint Resolve silent_backend_get_resources silent_backend_get_stacks
  : silent.

Lemma silent_AnsibleHost_loop (hosts_ : list json) (ret_ : hosts) :
  silent (AnsibleHost.loop hosts_ ret_).
Proof.
  revert ret_. induction hosts_ as [|host_res r IH]; intros ret_; simpl;
    unfold display_v; silence.
Qed.

Lemma silent_LibvirtDomain_loop (self : Driver.t) (hosts_ : list json)
  (ret_ : hosts) :
  silent (LibvirtDomain.loop self hosts_ ret_).
Proof.
  revert ret_. induction hosts_ as [|host_res r IH]; intros ret_; simpl;
    unfold print; silence.
Qed.
#[export] Hint Resolve silent_AnsibleHost_loop silent_LibvirtDomain_loop : silent.

Lemma silent_Driver_get_hosts (self : Driver.t) : silent (Driver_get_hosts self).
Proof.
  unfold Driver_get_hosts, loop_over_hosts, AnsibleHost.loop_over_hosts,
    LibvirtDomain.loop_over_hosts, display_vv.
  silence.
Qed.

Lemma silent_Driver_init (c : driver_cls) (resources : json) :
  silent (Driver.__init__ c resources).
Proof. unfold Driver.__init__, display_vv. silence. Qed.
#[export] Hint Resolve silent_Driver_get_hosts silent_Driver_init : silent.

Lemma silent_hosts_loop (path driver_name : json) (items ret_ : hosts) :
  silent (TerraformStack.hosts_loop path driver_name items ret_).
Proof.
  revert ret_. induction items as [|[k v] r IH]; intros ret_; simpl;
    unfold print; silence.
Qed.
#[export] Hint Resolve silent_hosts_loop : silent.

Lemma silent_paths_loop (env : Env) (self : TerraformStack.t)
  (paths : list json) (ret_ : hosts) :
  silent (TerraformStack.paths_loop env self paths ret_).
Proof.
  revert ret_. induction paths as [|path r IH]; intros ret_; simpl; silence.
Qed.
#[export] Hint Resolve silent_paths_loop : silent.





(** *** What a run writes of the messages *)







(** ** C8: stack and driver on every host *)

Lemma hosts_loop_origin (path driver_name : json) (items ret_ ret' : hosts)
  (s s' : state) :
  TerraformStack.hosts_loop path driver_name items ret_ s = (Ok ret', s') ->
  forall h def, In (h, def) ret' ->
    In (h, def) ret_ \/
    (hosts_mem ret_ h = false /\
     exists attr, In (h, attr) items /\
                  TerraformStack.inject path driver_name attr = Ok def).
Proof.
  revert ret_ s. induction items as [|[host_name host_def] items IH];
    intros ret_ s; simpl.
  - intros [= <- <-] h def Hin. now left.
  - destruct (hosts_mem ret_ host_name) eqn:Hmem.
    + intros H. step_ok H. intros h def Hin.
      destruct (IH _ _ H h def Hin) as [Hl | [Hm [attr [Hi Hj]]]]; [now left|].
      right. split; [exact Hm|]. exists attr. auto.
    + intros H. step_ok H. intros h def Hin.
      rewrite hosts_set_absent in H by assumption.
      destruct (IH _ _ H h def Hin) as [Hl | [Hm [attr [Hi Hj]]]].
      * apply in_app_or in Hl as [Hl | [[= <- <-] | []]]; [now left|].
        right. split; [exact Hmem|]. exists host_def. auto.
      * right. rewrite hosts_mem_app in Hm.
        apply orb_false_iff in Hm as [Hm _].
        split; [exact Hm|]. exists attr. auto.
Qed.

Lemma paths_loop_origin (env : Env) (self : TerraformStack.t)
  (paths before : list json) (ret1 ret' : hosts) (s0 s1 s' : state) :
  TerraformStack.paths_loop env self before [] s0 = (Ok ret1, s1) ->
  TerraformStack.paths_loop env self paths ret1 s1 = (Ok ret', s') ->
  forall h def, In (h, def) ret' ->
    In (h, def) ret1 \/
    exists path stack_type backend_type,
      dict_getitem (TerraformStack.config self) "driver" = Ok stack_type /\
      backend_config_getitem (TerraformStack.backend self) "driver"
      = Ok backend_type /\
      extracted_from env self (before ++ paths) s0 path
        (TerraformStack.driver_name_of stack_type backend_type) h def.
Proof.
  revert before ret1 s1. induction paths as [|path paths IH];
    intros before ret1 s1 Hbefore; simpl.
  - intros [= <- <-] h def Hin. now left.
  - intros H. step_ok H. rename a into res, Ha into Hres, s into s2.
    step_ok H. rename a into backend_type, Ha into Hbt.
    step_ok H. rename a into stack_type, Ha into Hst.
    step_ok H. rename a into cls, Ha into Hcls.
    step_ok H. rename a into drv, Ha into Hdrv, s into s3.
    step_ok H. rename a into hosts_, Ha into Hhosts, s into s4.
    step_ok H. rename a into ret2, Ha into Hloop, s into s5.
    intros h def Hin.
    assert (Hnext : TerraformStack.paths_loop env self (before ++ [path]) [] s0
                    = (Ok ret2, s5)).
    { rewrite paths_loop_app, (bind_ok _ _ _ _ _ Hbefore). simpl.
      rewrite (bind_ok _ _ _ _ _ Hres).
      rewrite (bind_lift_ok _ _ _ _ Hbt), (bind_lift_ok _ _ _ _ Hst).
      rewrite (bind_lift_ok _ _ _ _ Hcls).
      rewrite (bind_ok _ _ _ _ _ Hdrv), (bind_ok _ _ _ _ _ Hhosts).
      now rewrite (bind_ok _ _ _ _ _ Hloop). }
    destruct (IH _ _ _ Hnext H h def Hin) as [Hl | [p [st [bt [Hst' [Hbt' Hex]]]]]].
    + destruct (hosts_loop_origin _ _ _ _ _ _ _ Hloop h def Hl)
        as [Hl' | [Hm [attr [Hi Hj]]]]; [now left|].
      right. exists path, stack_type, backend_type.
      split; [exact Hst|]. split; [exact Hbt|].
      exists before, paths, ret1, s1, res, s2, cls, drv, s3, hosts_, s4, attr.
      auto 12.
    + right. exists p, st, bt. split; [exact Hst'|]. split; [exact Hbt'|].
      now rewrite <- app_assoc in Hex.
Qed.

(** C8.  Every host of a stack's expansion comes from one of the concrete
    stack identifiers the name expanded to, in this run: the loop over the
    identifiers before it ends without the host, the resources of the
    identifier are then fetched, the effective driver extracts the host
    from them, and the definition of the host is what the injection makes
    of the extracted attributes; it carries this identifier and the driver
    name as its [terraform] entry and as the variables [terraform_stack]
    and [terraform_driver]. *)
Theorem expanded_hosts_carry_stack_and_driver :
  forall (env : Env) (self : TerraformStack.t) (s s' : state) (ret_ : hosts),
    TerraformStack.expand_conf env self s = (Ok ret_, s') ->
    forall h def, In (h, def) ret_ ->
      exists paths s0 path stack_type backend_type,
        TerraformStack._expand_paths env self s = (Ok paths, s0) /\
        In path paths /\
        dict_getitem (TerraformStack.config self) "driver" = Ok stack_type /\
        backend_config_getitem (TerraformStack.backend self) "driver"
        = Ok backend_type /\
        extracted_from env self paths s0 path
          (TerraformStack.driver_name_of stack_type backend_type) h def /\
        tagged path (TerraformStack.driver_name_of stack_type backend_type) def.
Proof.
  intros env self s s' ret_ H h def Hin.
  unfold TerraformStack.expand_conf in H. step_ok H.
  rename a into paths, s0 into s1, Ha into Hpaths.
  destruct (paths_loop_origin env self paths [] [] ret_ s1 s1 s' eq_refl H h def Hin)
    as [[] | [path [st [bt [Hst [Hbt Hex]]]]]].
  simpl in Hex.
  exists paths, s1, path, st, bt. split; [exact Hpaths|].
  pose proof Hex as Hex'.
  destruct Hex' as (before & after & ret1 & s2 & res & s3 & cls & drv & s4
                    & hosts_ & s5 & attr & Heq & _ & _ & _ & _ & _ & _ & _ & Hinj).
  split; [rewrite Heq; apply in_or_app; right; now left|].
  split; [exact Hst|]. split; [exact Hbt|]. split; [exact Hex|].
  eapply inject_tagged. exact Hinj.
Qed.

Lemma expanded_hosts_carry_stack_and_driver_witness :
  exists ret_ s',
    TerraformStack.expand_conf site_env (site_stack "prod-" JNull) empty_state
    = (Ok ret_, s') /\
    map fst ret_ = [JStr "node1"; JStr "node2"; JStr "node3"] /\
    (forall h def, In (h, def) ret_ ->
       exists path, In path [JStr "prod-web"; JStr "prod-db"] /\
                    tagged path (JStr "ansible_host") def) /\
    (exists def, hosts_get ret_ (JStr "node1") = Some def /\
                 tagged (JStr "prod-web") (JStr "ansible_host") def) /\
    (exists def, hosts_get ret_ (JStr "node3") = Some def /\
                 tagged (JStr "prod-db") (JStr "ansible_host") def).
Proof.
  destruct (TerraformStack.expand_conf site_env (site_stack "prod-" JNull)
              empty_state) as [r s'] eqn:Hrun.
  destruct r as [ret_|e]; [|vm_compute in Hrun; discriminate].
  exists ret_, s'. split; [reflexivity|].
  assert (Hall : forall h def, In (h, def) ret_ ->
            exists path, In path [JStr "prod-web"; JStr "prod-db"] /\
                         tagged path (JStr "ansible_host") def).
  { intros h def Hin.
    destruct (expanded_hosts_carry_stack_and_driver _ _ _ _ _ Hrun h def Hin)
      as (paths & s0 & path & st & bt & Hp & Hi & Hst & Hbt & _ & Htag).
    vm_compute in Hp. vm_compute in Hst. vm_compute in Hbt.
    inversion Hp. inversion Hst. inversion Hbt. subst.
    exists path. split; assumption. }
  vm_compute in Hrun. injection Hrun as <- <-.
  split; [reflexivity|]. split; [exact Hall|].
  split; eexists; (split; [reflexivity|]);
    eexists; eexists; repeat split; reflexivity.
Defined.

(** * Further properties *)

(** ** [flatten] *)

(** Induction on a value with the hypothesis for every element of a list
    and every entry of a dictionary. *)
Lemma json_nested_ind (P : json -> Prop)
  (Hnull : P JNull) (Hbool : forall b, P (JBool b)) (Hnum : forall n, P (JNum n))
  (Hstr : forall s, P (JStr s))
  (Hlist : forall l, Forall P l -> P (JList l))
  (Hdict : forall d, Forall (fun kv => P (snd kv)) d -> P (JDict d)) :
  forall v, P v.
Proof.
  fix IH 1. intros [|b|n|s|l|d].
  - exact Hnull.
  - apply Hbool.
  - apply Hnum.
  - apply Hstr.
  - apply Hlist.
    exact ((fix go (l : list json) : Forall P l :=
              match l with
              | [] => Forall_nil P
              | x :: r => Forall_cons x (IH x) (go r)
              end) l).
  - apply Hdict.
    exact ((fix go (d : list (string * json))
              : Forall (fun kv => P (snd kv)) d :=
              match d with
              | [] => Forall_nil _
              | kv :: r => Forall_cons kv (IH (snd kv)) (go r)
              end) d).
Qed.

Lemma leaves_of_list (l : list json) : leaves_of (JList l) = leaves l.
Proof.
  induction l as [|x r IH]; simpl; [reflexivity|].
  simpl in IH. now rewrite IH.
Qed.

Lemma frames_of_list (l : list json) : frames_of (JList l) = frames_needed l.
Proof.
  induction l as [|x r IH]; simpl; [reflexivity|].
  simpl in IH. now rewrite IH.
Qed.

Lemma frames_of_not_list (x : json) : is_list x = false -> frames_of x = 0.
Proof. now destruct x. Qed.

Lemma leaves_of_not_list (x : json) : is_list x = false -> leaves_of x = [x].
Proof. now destruct x. Qed.

Lemma frames_needed_pos (l : list json) : 1 <= frames_needed l.
Proof. destruct l; simpl; lia. Qed.

Lemma leaves_of_flat (x : json) :
  Forall (fun y => is_list y = false) (leaves_of x).
Proof.
  induction x as [|b|n|s|l IH|d _] using json_nested_ind;
    try (repeat constructor).
  rewrite leaves_of_list. induction IH as [|x r Hx _ IHr]; simpl.
  - constructor.
  - apply Forall_app. split; assumption.
Qed.

Lemma leaves_flat (l : list json) :
  Forall (fun y => is_list y = false) (leaves l).
Proof.
  induction l as [|x r IH]; simpl; [constructor|].
  apply Forall_app. split; [apply leaves_of_flat | exact IH].
Qed.

(** [flatten] returns the leaves when the stack has room for the calls it
    nests, and raises otherwise. *)
Lemma flatten_frames (frames : nat) (l : list json) :
  flatten frames l
  = if (frames_needed l <=? frames)%nat then Some (leaves l) else None.
Proof.
  revert l. induction frames as [|f IH]; intros l.
  - pose proof (frames_needed_pos l).
    destruct (Nat.leb_spec (frames_needed l) 0); [lia | reflexivity].
  - destruct l as [|x r]; [reflexivity|].
    assert (Hrest : flatten f r
                    = if (frames_needed r <=? f)%nat then Some (leaves r) else None)
      by apply IH.
    cbn [frames_needed leaves].
    destruct x as [| | | |first|];
      try (cbn [flatten frames_of leaves_of]; rewrite Hrest, Nat.max_0_l;
           change (S (frames_needed r) <=? S f)%nat with (frames_needed r <=? f)%nat;
           now destruct (frames_needed r <=? f)%nat).
    cbn [flatten]. rewrite (IH first), Hrest, frames_of_list, leaves_of_list.
    change (S (Nat.max (frames_needed first) (frames_needed r)) <=? S f)%nat
      with (Nat.max (frames_needed first) (frames_needed r) <=? f)%nat.
    destruct (Nat.leb_spec (frames_needed first) f);
      destruct (Nat.leb_spec (frames_needed r) f);
      destruct (Nat.leb_spec (Nat.max (frames_needed first) (frames_needed r)) f);
      try reflexivity; lia.
Qed.

Lemma leaves_of_flat_list (l : list json) :
  Forall (fun y => is_list y = false) l ->
  leaves l = l /\ frames_needed l = S (length l).
Proof.
  induction 1 as [|x r Hx _ [IHl IHf]]; simpl; [split; reflexivity|].
  rewrite IHl, IHf, (leaves_of_not_list _ Hx), (frames_of_not_list _ Hx).
  split; [reflexivity | now rewrite Nat.max_0_l].
Qed.

(** X1.  With room for the calls it nests, [flatten] returns the values of
    its argument that are not lists, at any depth and from left to right,
    and none of them is a list; with less room it raises
    [RecursionError].  The calls nest one deeper than the argument is
    long, or than its nested lists need. *)
Theorem flatten_returns_leaves :
  forall (frames : nat) (l : list json),
    flatten frames l
    = (if (frames_needed l <=? frames)%nat then Some (leaves l) else None) /\
    Forall (fun y => is_list y = false) (leaves l) /\
    length l < frames_needed l.
Proof.
  intros frames l. split; [apply flatten_frames|]. split; [apply leaves_flat|].
  induction l as [|x r IH]; simpl; lia.
Qed.

(** X2.  Flattening the result of [flatten] a second time returns it
    unchanged when the stack has room for one call more than the result
    is long, and raises [RecursionError] otherwise, also where the first
    call had room enough. *)
Theorem flatten_twice :
  forall (frames frames' : nat) (l flat : list json),
    flatten frames l = Some flat ->
    flatten frames' flat
    = if (length flat <? frames')%nat then Some flat else None.
Proof.
  intros frames frames' l flat H. rewrite flatten_frames in H.
  destruct (frames_needed l <=? frames)%nat; [|discriminate].
  injection H as <-.
  destruct (leaves_of_flat_list _ (leaves_flat l)) as [Hl Hf].
  rewrite flatten_frames, Hl, Hf. reflexivity.
Qed.

Lemma flatten_twice_witness :
  flatten 6 [JList [JNum 1; JNum 2]; JList [JNum 3; JNum 4]]
  = Some [JNum 1; JNum 2; JNum 3; JNum 4] /\
  flatten 4 [JNum 1; JNum 2; JNum 3; JNum 4] = None /\
  flatten 5 [JNum 1; JNum 2; JNum 3; JNum 4]
  = Some [JNum 1; JNum 2; JNum 3; JNum 4].
Proof.
  split; [reflexivity|]. split.
  - exact (flatten_twice 6 4 [JList [JNum 1; JNum 2]; JList [JNum 3; JNum 4]]
             [JNum 1; JNum 2; JNum 3; JNum 4] eq_refl).
  - exact (flatten_twice 6 5 [JList [JNum 1; JNum 2]; JList [JNum 3; JNum 4]]
             [JNum 1; JNum 2; JNum 3; JNum 4] eq_refl).
Defined.

(** ** [remove_prefix] *)

Lemma lstrip_chars_spec (chars s : string) :
  exists p, s = p +++ lstrip_chars chars s /\
            all_in chars p = true /\
            starts_in chars (lstrip_chars chars s) = false.
Proof.
  induction s as [|c r (p & Hs & Hp & Hr)]; simpl.
  - exists "". auto.
  - destruct (char_in c chars) eqn:E.
    + exists (String c p). simpl. rewrite E, Hp, <- Hs. auto.
    + exists "". simpl. rewrite E. auto.
Qed.

Lemma lstrip_chars_length (chars s : string) :
  String.length (lstrip_chars chars s) <= String.length s.
Proof.
  induction s as [|c r IH]; simpl; [lia|].
  destruct (char_in c chars); simpl; lia.
Qed.

Lemma lstrip_chars_fixed (chars s : string) :
  lstrip_chars chars s = s <-> starts_in chars s = false.
Proof.
  destruct s as [|c r]; simpl; [tauto|].
  destruct (char_in c chars) eqn:E; split; intros H; try congruence.
  pose proof (lstrip_chars_length chars r) as Hl.
  rewrite H in Hl. simpl in Hl. lia.
Qed.

Lemma lstrip_chars_skips (chars p s : string) :
  all_in chars p = true -> lstrip_chars chars (p +++ s) = lstrip_chars chars s.
Proof.
  induction p as [|c p IH]; simpl; [reflexivity|].
  intros H. apply andb_true_iff in H as [Hc Hp]. now rewrite Hc, IH.
Qed.

Lemma all_in_self (s : string) : all_in s s = true.
Proof.
  assert (H : forall chars t, (forall c, char_in c t = true -> char_in c chars = true) ->
                              all_in chars t = true).
  { intros chars t. induction t as [|c t IH]; simpl; [reflexivity|].
    intros Hsub. rewrite (Hsub c), IH; auto.
    - intros c' Hc'. apply Hsub. now rewrite Hc', orb_true_r.
    - now rewrite Ascii.eqb_refl. }
  now apply H.
Qed.

Lemma remove_prefix_strs (chars : string) (keys : list string) :
  TerraformBackend.remove_prefix (map JStr keys) (JStr chars)
  = Ok (map (lstrip_chars chars) keys).
Proof.
  unfold TerraformBackend.remove_prefix.
  induction keys as [|k keys IH]; simpl; [reflexivity|].
  now rewrite IH.
Qed.

(** X3.  With a string prefix and string keys [remove_prefix] returns one
    identifier per key, in the order of the keys; each is what is left of
    its key after a run of characters of the prefix, and does not start
    with a character of the prefix. *)
Theorem remove_prefix_strips_leading_characters :
  forall (prefix : string) (keys : list string),
  exists ids,
    TerraformBackend.remove_prefix (map JStr keys) (JStr prefix) = Ok ids /\
    Forall2 (fun key id =>
               exists p, key = p +++ id /\ all_in prefix p = true /\
                         starts_in prefix id = false)
      keys ids.
Proof.
  intros prefix keys. exists (map (lstrip_chars prefix) keys).
  split; [apply remove_prefix_strs|].
  induction keys as [|k keys IH]; simpl; constructor; auto.
  apply lstrip_chars_spec.
Qed.

(** X4.  [remove_prefix] gives back the suffixes of keys of the form prefix +
    suffix exactly when no suffix starts with a character that occurs in
    the prefix. *)
Theorem remove_prefix_exact_iff :
  forall (prefix : string) (suffixes : list string),
    TerraformBackend.remove_prefix
      (map (fun x => JStr (prefix +++ x)) suffixes) (JStr prefix)
    = Ok suffixes
    <-> Forall (fun x => starts_in prefix x = false) suffixes.
Proof.
  intros prefix suffixes.
  replace (map (fun x => JStr (prefix +++ x)) suffixes)
    with (map JStr (map (fun x => prefix +++ x) suffixes))
    by (rewrite map_map; reflexivity).
  rewrite remove_prefix_strs, map_map.
  split.
  - intros [= H]. induction suffixes as [|x r IH]; [constructor|].
    simpl in H. injection H as Hx Hr.
    rewrite lstrip_chars_skips in Hx by apply all_in_self.
    constructor; [now apply lstrip_chars_fixed | auto].
  - intros H. f_equal. induction H as [|x r Hx _ IH]; simpl; [reflexivity|].
    rewrite IH, lstrip_chars_skips by apply all_in_self.
    f_equal. now apply lstrip_chars_fixed.
Qed.

(** X5.  [remove_prefix] returns a list exactly when every key is a string and
    the prefix is [None] or a string, or there is no key at all. *)
Theorem remove_prefix_succeeds_iff :
  forall (lst : list json) (prefix : json),
    (exists ids, TerraformBackend.remove_prefix lst prefix = Ok ids)
    <-> forallb is_str lst = true /\
        (lst = [] \/ prefix = JNull \/ is_str prefix = true).
Proof.
  intros lst prefix. unfold TerraformBackend.remove_prefix. split.
  - intros [ids H]. revert ids H.
    induction lst as [|x r IH]; intros ids H; simpl in *; [auto|].
    destruct x; simpl in H; try discriminate.
    destruct prefix; simpl in H; try discriminate.
    + destruct (mapR _ r) as [ys|e] eqn:E; [|discriminate].
      destruct (IH _ eq_refl) as [Hr _]. auto.
    + destruct (mapR _ r) as [ys|e] eqn:E; [|discriminate].
      destruct (IH _ eq_refl) as [Hr _]. auto.
  - intros [Hs Hp].
    assert (Hok : prefix = JNull \/ is_str prefix = true ->
                  exists ids, mapR (fun item => str_lstrip item prefix) lst = Ok ids).
    { clear Hp. intros Hpre. induction lst as [|x r IH]; simpl; [now exists []|].
      simpl in Hs. apply andb_true_iff in Hs as [Hx Hr].
      destruct (IH Hr) as [ids Hids]. destruct x; try discriminate.
      destruct Hpre as [-> | Hpre].
      - simpl. rewrite Hids. simpl. eauto.
      - destruct prefix; try discriminate. simpl. rewrite Hids. simpl. eauto. }
    destruct Hp as [-> | Hp]; [now exists []|]. now apply Hok.
Qed.

(** ** The Consul backend *)

Lemma kv_get_result (env : Env) (url : string) (params headers : option dict)
  (s : state) :
  fst (TerraformConsul.kv_get env url params headers s)
  = match http_get env (requests s)
            {| req_url := url; req_params := or_empty params;
               req_headers := or_empty headers |} with
    | RequestFailed e =>
        Err (AnsibleError ("Could not fetch url " +++ url
                           +++ ", got error: " +++ e))
    | Response code reason rurl text =>
        if (code =? 200)%Z then TerraformConsul.loads env text
        else Err (AnsibleError
                    ("Bad HTTP response, got: " +++ str_of_Z code
                     +++ reason +++ ": " +++ str_of_Z code
                     +++ " on " +++ rurl +++ ": " +++ text))
    end.
Proof.
  unfold TerraformConsul.kv_get, bind, display_vv, display_vvv, emit, send,
    ret, raise, lift.
  destruct (truthy (JDict (or_empty params)));
    destruct (truthy (JDict (or_empty headers))); simpl;
    destruct (http_get env (requests s) _) as [e|code reason rurl text];
    try reflexivity; now destruct (code =? 200)%Z.
Qed.

(** X6.  [kv_get] sends one request and touches no cache.  It returns a value
    exactly when the server answers with status 200 and a body that
    [json.loads] accepts; a 200 with another body is a [ValueError], and
    every other outcome of the request is an [AnsibleError]. *)
Theorem kv_get_outcomes :
  forall (env : Env) (url : string) (params headers : option dict)
         (s s' : state) (r : result json),
    TerraformConsul.kv_get env url params headers s = (r, s') ->
    let req := {| req_url := url; req_params := or_empty params;
                  req_headers := or_empty headers |} in
    requests s' = req :: requests s /\
    caches s' = caches s /\
    (forall v, r = Ok v <->
               exists reason rurl text,
                 http_get env (requests s) req = Response 200 reason rurl text /\
                 json_loads env text = Some v) /\
    (forall e, r = Err e ->
               (exists msg, e = AnsibleError msg) \/
               (e = ValueError "JSONDecodeError" /\
                exists reason rurl text,
                  http_get env (requests s) req = Response 200 reason rurl text /\
                  json_loads env text = None)).
Proof.
  intros env url params headers s s' r H req.
  destruct (kv_get_frame _ _ _ _ _ _ _ H) as [Hc Hr].
  split; [exact Hr|]. split; [exact Hc|].
  pose proof (kv_get_result env url params headers s) as Hres.
  rewrite H in Hres. simpl in Hres. fold req in Hres. subst r.
  unfold TerraformConsul.loads.
  destruct (http_get env (requests s) req) as [e|code reason rurl text].
  - split.
    + intros v. split; [discriminate|]. intros (? & ? & ? & ? & _). discriminate.
    + intros e' [= <-]. left. eauto.
  - destruct (code =? 200)%Z eqn:Hcode.
    + apply Z.eqb_eq in Hcode. subst code.
      destruct (json_loads env text) as [v0|] eqn:Hj.
      * split.
        -- intros v. split.
           ++ intros [= <-]. eauto.
           ++ intros (? & ? & ? & [= _ _ <-] & Hv). congruence.
        -- discriminate.
      * split.
        -- intros v. split; [discriminate|].
           intros (? & ? & ? & [= _ _ <-] & Hv). congruence.
        -- intros e' [= <-]. right. eauto 6.
    + split.
      * intros v. split; [discriminate|].
        intros (? & ? & ? & [= -> _ _ _] & _). discriminate.
      * intros e' [= <-]. left. eauto.
Qed.

Lemma kv_get_outcomes_witness :
  exists r s',
    TerraformConsul.kv_get site_env_web_down (site_base +++ "prod-web") None None
      empty_state = (r, s') /\
    map req_url (requests s') = [site_base +++ "prod-web"] /\
    (exists msg, r = Err (AnsibleError msg)).
Proof.
  destruct (TerraformConsul.kv_get site_env_web_down (site_base +++ "prod-web")
              None None empty_state) as [r s'] eqn:H.
  exists r, s'. split; [reflexivity|].
  destruct (kv_get_outcomes _ _ _ _ _ _ _ H) as (Hreq & _ & _ & Herr).
  split; [now rewrite Hreq|].
  destruct r as [v|e]; [vm_compute in H; discriminate|].
  destruct (Herr e eq_refl) as [[msg ->] | [_ (? & ? & ? & Hget & _)]]; [eauto|].
  vm_compute in Hget. discriminate.
Defined.

(** X7.  The loop of [get_resources] stops at the first entry that has a value,
    whether that entry decodes or raises: what follows it in the payload
    never changes the outcome. *)
Theorem resources_loop_stops_at_first_value :
  forall (env : Env) (self : TerraformConsul.t) (url key : string)
         (before : list json) (entry : json) (rest rest' : list json) (s : state),
    with_value entry ->
    TerraformConsul.resources_loop env self url key (before ++ entry :: rest) s
    = TerraformConsul.resources_loop env self url key (before ++ entry :: rest') s.
Proof.
  intros env self url key before entry rest rest' s (d & -> & Hv).
  revert s. induction before as [|x before IH]; intros s; simpl.
  - unfold py_get. rewrite !(bind_lift_ok _ _ _ _ eq_refl), Hv. reflexivity.
  - apply bind_ext. intros kn s1. apply bind_ext. intros value s2.
    destruct (truthy value); simpl; [reflexivity|].
    unfold print. rewrite !bind_emit. apply IH.
Qed.

Lemma resources_loop_stops_at_first_value_witness :
  fst (TerraformConsul.resources_loop site_env site_consul
         (site_base +++ "prod-web") "/infra/prod-web"
         [kv_entry "infra/prod-web" doc_web; JNum 7] empty_state)
  = fst (TerraformConsul.resources_loop site_env site_consul
           (site_base +++ "prod-web") "/infra/prod-web"
           [kv_entry "infra/prod-web" doc_web] empty_state).
Proof.
  rewrite (resources_loop_stops_at_first_value site_env site_consul _ _
             [] (kv_entry "infra/prod-web" doc_web) [JNum 7] []).
  - reflexivity.
  - eexists. split; reflexivity.
Defined.

Lemma append_empty (s : string) : s +++ "" = s.
Proof. induction s as [|c s IH]; simpl; congruence. Qed.

(** X8.  Once [get_stacks] has returned the listing, [get_resources] for the
    empty identifier builds the URL of the listing and returns the listing
    from the cache, without a request. *)
Theorem empty_identifier_returns_listing :
  forall (env : Env) (self : TerraformConsul.t) (s s1 : state) (v : json),
    TerraformConsul.get_stacks env self JNull s = (Ok v, s1) ->
    TerraformConsul.get_resources env self (JStr "") s1 = (Ok v, s1).
Proof.
  intros env self s s1 v H.
  assert (Hpre : exists prefix url,
             dict_getitem (TerraformConsul.config self) "prefix" = Ok prefix /\
             TerraformConsul.get_url env self prefix = Ok url).
  { unfold TerraformConsul.get_stacks in H. step_ok H. simpl truthy in H.
    cbv iota in H. rename a into prefix, Ha into Hp.
    step_ok H. eauto. }
  destruct Hpre as (prefix & url & Hp & Hu).
  destruct (get_stacks_cache _ _ _ _ _ _ _ Hp Hu H) as (_ & Hst & _).
  assert (Hu' : TerraformConsul.get_url env self
                  (JStr (py_str env prefix +++ py_str env (JStr ""))) = Ok url).
  { revert Hu. unfold TerraformConsul.get_url. simpl py_str.
    now rewrite append_empty. }
  destruct (TerraformConsul.get_resources env self (JStr "") s1) as [r s2] eqn:Hr.
  destruct (get_resources_cache _ _ _ _ _ _ _ _ Hp Hu' Hr) as (Hhit & _).
  destruct (Hhit v (Hst v eq_refl)) as [-> ->]. reflexivity.
Qed.

Lemma empty_identifier_returns_listing_witness :
  exists s1,
    TerraformConsul.get_stacks site_env site_consul JNull empty_state
    = (Ok (JList [JStr "prod-web"; JStr "prod-db"; JStr "staging-web"]), s1) /\
    TerraformConsul.get_resources site_env site_consul (JStr "") s1
    = (Ok (JList [JStr "prod-web"; JStr "prod-db"; JStr "staging-web"]), s1).
Proof.
  destruct (TerraformConsul.get_stacks site_env site_consul JNull empty_state)
    as [r s1] eqn:H.
  assert (Hr : r = Ok (JList [JStr "prod-web"; JStr "prod-db"; JStr "staging-web"]))
    by (vm_compute in H; now inversion H).
  subst r. exists s1. split; [reflexivity|].
  exact (empty_identifier_returns_listing _ _ _ _ _ H).
Defined.

(** ** Parsing the configuration *)

Lemma backends_get_set_same (bs : backends) (k : string) (b : backend_obj) :
  backends_get (backends_set bs k b) k = Some b.
Proof.
  induction bs as [|[k' b'] bs IH]; simpl.
  - now rewrite String.eqb_refl.
  - destruct (k' =? k) eqn:E; simpl; rewrite E; auto.
Qed.

Lemma backends_get_set_other (bs : backends) (k k' : string) (b : backend_obj) :
  k <> k' -> backends_get (backends_set bs k b) k' = backends_get bs k'.
Proof.
  intros Hne. induction bs as [|[k0 b0] bs IH]; simpl.
  - destruct (String.eqb_spec k k'); [contradiction | reflexivity].
  - destruct (String.eqb_spec k0 k) as [->|Hk]; simpl.
    + destruct (String.eqb_spec k k'); [contradiction | reflexivity].
    + now rewrite IH.
Qed.

Lemma parse_backends_loop_fresh (env : Env) (backends_conf : list (string * dict))
  (ret_ : backends) (s s' : state) (r : result backends) :
  TerraformPlugin.parse_backends_loop env backends_conf ret_ s = (r, s') ->
  requests s' = requests s /\ log s' = log s /\
  (fresh_backends ret_ s -> forall bs, r = Ok bs -> fresh_backends bs s').
Proof.
  revert ret_ s. induction backends_conf as [|[name def] bc IH]; intros ret_ s; simpl.
  - intros [= <- <-]. split; [reflexivity|]. split; [reflexivity|].
    intros Hf bs [= <-]. exact Hf.
  - destruct (eq_str _ "consul").
    + unfold TerraformConsul.__init__, bind, set_cache, ret. simpl.
      intros H. apply IH in H. simpl in H. destruct H as (Hr & Hl & Hf).
      split; [exact Hr|]. split; [exact Hl|].
      intros Hfresh. apply Hf. intros n c Hget.
      destruct (String.eqb_spec name n) as [<-|Hn].
      * rewrite backends_get_set_same in Hget. injection Hget as <-. simpl.
        split; [reflexivity|]. now apply (cache_of_set_same s).
      * rewrite backends_get_set_other in Hget by assumption.
        destruct (Hfresh n c Hget) as [Hname Hc]. split; [exact Hname|].
        transitivity (cache_of s n); [|exact Hc].
        apply (cache_of_set_other s _ name n []); [reflexivity | exact Hn].
    + destruct (eq_str _ "local").
      * intros H. apply IH in H. destruct H as (Hr & Hl & Hf).
        split; [exact Hr|]. split; [exact Hl|].
        intros Hfresh. apply Hf. intros n c Hget.
        destruct (String.eqb_spec name n) as [<-|Hn].
        -- rewrite backends_get_set_same in Hget. discriminate.
        -- rewrite backends_get_set_other in Hget by assumption. auto.
      * intros [= <- <-]. split; [reflexivity|]. split; [reflexivity|].
        discriminate.
Qed.

Lemma parse_stacks_loop_backends (idx : nat) (stacks_conf : list dict)
  (bs : backends) (stacks : list TerraformStack.t) :
  TerraformPlugin.parse_stacks_loop idx stacks_conf bs = Ok stacks ->
  length stacks = length stacks_conf /\
  forall stack, In stack stacks ->
                exists n, backends_get bs n = Some (TerraformStack.backend stack).
Proof.
  revert idx stacks. induction stacks_conf as [|d sc IH]; intros idx stacks; simpl.
  - intros [= <-]. split; [reflexivity|]. intros ? [].
  - unfold TerraformStack.__init__, backends_getitem.
    destruct (dict_get_default _ "backend" JNull) as [| | |n| |]; try discriminate.
    destruct (backends_get bs n) as [b|] eqn:Hb; [|discriminate]. simpl.
    destruct (TerraformPlugin.parse_stacks_loop (S idx) sc bs) as [rest|e] eqn:Hrest;
      [|discriminate].
    intros [= <-]. destruct (IH _ _ Hrest) as [Hlen Hin]. split; [simpl; lia|].
    intros stack [<- | H]; [exists n; exact Hb | auto].
Qed.

(** X9.  Parsing the configuration sends no request and writes nothing.  Every
    stack it returns is bound to an entry of the backend map, and a Consul
    backend starts the run with an empty cache, whatever the state held
    before. *)
Theorem parse_config_starts_fresh :
  forall (env : Env) (stacks_conf : list dict)
         (backends_conf : list (string * dict)) (s s' : state)
         (r : result (list TerraformStack.t)),
    TerraformPlugin.parse_config env stacks_conf backends_conf s = (r, s') ->
    requests s' = requests s /\ log s' = log s /\
    forall stacks, r = Ok stacks ->
      length stacks = length stacks_conf /\
      forall stack c, In stack stacks ->
                      TerraformStack.backend stack = BackendConsul c ->
                      cache_of s' (TerraformConsul.name c) = [].
Proof.
  intros env stacks_conf backends_conf s s' r.
  unfold TerraformPlugin.parse_config, TerraformPlugin.parse_backends, bind.
  destruct (TerraformPlugin.parse_backends_loop env backends_conf [] s)
    as [[bs|e] s1] eqn:Hb;
    destruct (parse_backends_loop_fresh _ _ _ _ _ _ Hb) as (Hr & Hl & Hf).
  - unfold lift. intros [= <- <-].
    split; [exact Hr|]. split; [exact Hl|]. intros stacks Hstacks.
    destruct (parse_stacks_loop_backends _ _ _ _ Hstacks) as [Hlen Hin].
    split; [exact Hlen|].
    intros stack c Hstack Hc. destruct (Hin stack Hstack) as [n Hn].
    rewrite Hc in Hn.
    assert (Hfresh : fresh_backends [] s) by (intros ? ? [=]).
    destruct (Hf Hfresh bs eq_refl n c Hn) as [-> Hcache]. exact Hcache.
  - intros [= <- <-]. split; [exact Hr|]. split; [exact Hl|]. discriminate.
Qed.

Lemma parse_config_starts_fresh_witness :
  exists stacks s',
    TerraformPlugin.parse_config site_env [site_stack_def "prod-" JNull]
      site_backends_conf stale_state = (Ok stacks, s') /\
    requests s' = [] /\ cache_of s' "consul1" = [].
Proof.
  destruct (TerraformPlugin.parse_config site_env [site_stack_def "prod-" JNull]
              site_backends_conf stale_state) as [r s'] eqn:H.
  destruct (parse_config_starts_fresh _ _ _ _ _ _ H) as (Hr & _ & Hf).
  assert (Hs : r = Ok [site_stack "prod-" JNull])
    by (vm_compute in H; now inversion H).
  subst r. exists [site_stack "prod-" JNull], s'.
  split; [reflexivity|]. split; [exact Hr|].
  destruct (Hf _ eq_refl) as [_ Hc].
  apply (Hc (site_stack "prod-" JNull) site_consul); [now left | reflexivity].
Defined.

Lemma stack_init_backend (idx : nat) (stack_def : dict) (bs : backends) :
  TerraformStack.__init__ (new_stack_def idx stack_def) bs
  = let! b := backends_getitem bs (stack_backend_name stack_def) in
    Ok {| TerraformStack.config :=
            TerraformStack.get_config (new_stack_def idx stack_def);
          TerraformStack.backend := b |}.
Proof.
  unfold TerraformStack.__init__, new_stack_def, stack_backend_name,
    dict_get_default.
  now rewrite dict_get_set_other by discriminate.
Qed.

Lemma parse_stacks_loop_unknown (bs : backends) (before after : list dict)
  (d : dict) (e : exn) (idx : nat) :
  Forall (fun d' => exists b, backends_getitem bs (stack_backend_name d') = Ok b)
    before ->
  backends_getitem bs (stack_backend_name d) = Err e ->
  TerraformPlugin.parse_stacks_loop idx (before ++ d :: after) bs = Err e.
Proof.
  intros Hb Hd. revert idx. induction Hb as [|d' before [b Hb'] _ IH]; intros idx.
  - simpl. fold (new_stack_def idx d). now rewrite stack_init_backend, Hd.
  - simpl. fold (new_stack_def idx d'). rewrite stack_init_backend, Hb'. simpl.
    now rewrite IH.
Qed.

(** X10.  A stack definition that names a backend the configuration does not
    define ends the run while the configuration is parsed: the lookup in
    the backend map raises, and no request has been sent by then.  A stack
    definition without a [backend] entry names the backend ['local']. *)
Theorem unknown_backend_fails_before_any_request :
  forall (env : Env) (stacks_conf : list dict)
         (backends_conf : list (string * dict)) (bs : backends)
         (before after : list dict) (d : dict) (e : exn) (s s0 : state),
    TerraformPlugin.parse_backends env backends_conf s = (Ok bs, s0) ->
    stacks_conf = before ++ d :: after ->
    Forall (fun d' => exists b, backends_getitem bs (stack_backend_name d') = Ok b)
      before ->
    backends_getitem bs (stack_backend_name d) = Err e ->
    TerraformPlugin.get_hosts env stacks_conf backends_conf s = (Err e, s0) /\
    requests s0 = requests s /\
    (dict_get d "backend" = None -> stack_backend_name d = JStr "local").
Proof.
  intros env stacks_conf backends_conf bs before after d e s s0 Hbs -> Hb Hd.
  split; [|split].
  - unfold TerraformPlugin.get_hosts, TerraformPlugin.expand_stacks,
      TerraformPlugin.parse_config.
    rewrite bind_assoc, (bind_ok _ _ _ _ _ Hbs).
    unfold TerraformPlugin.parse_stacks.
    now rewrite (bind_lift_err _ _ _ _ (parse_stacks_loop_unknown _ _ _ _ _ 0 Hb Hd)).
  - unfold TerraformPlugin.parse_backends in Hbs.
    now destruct (parse_backends_loop_fresh _ _ _ _ _ _ Hbs) as [Hr _].
  - intros Habs. unfold stack_backend_name, dict_get_default.
    now rewrite dict_get_update_absent.
Qed.

Lemma unknown_backend_fails_before_any_request_witness :
  exists s0,
    TerraformPlugin.get_hosts site_env
      [site_stack_def "prod-" JNull; [("name", JStr "prod-")]]
      site_backends_conf empty_state
    = (Err (KeyError (JStr "local")), s0) /\
    requests s0 = [].
Proof.
  destruct (TerraformPlugin.parse_backends site_env site_backends_conf empty_state)
    as [r s0] eqn:Hbs.
  assert (Hr : r = Ok [("consul1", BackendConsul site_consul)])
    by (vm_compute in Hbs; now inversion Hbs).
  subst r. exists s0.
  destruct (unknown_backend_fails_before_any_request site_env
              [site_stack_def "prod-" JNull; [("name", JStr "prod-")]]
              site_backends_conf _ [site_stack_def "prod-" JNull] []
              [("name", JStr "prod-")] (KeyError (JStr "local")) _ _
              Hbs eq_refl) as (Hrun & Hreq & _).
  - constructor; [|constructor]. eexists. reflexivity.
  - reflexivity.
  - split; [exact Hrun | exact Hreq].
Defined.

(** ** Stacks that cannot be expanded *)

Lemma in_dict_set_other (d : dict) (k k' : string) (v v' : json) :
  In (k, v) (dict_set d k' v') -> k <> k' -> In (k, v) d.
Proof.
  intros H Hne. induction d as [|[k0 v0] d IH]; simpl in *.
  - destruct H as [[= -> _] | []]. contradiction.
  - destruct (String.eqb_spec k0 k') as [->|Hk]; simpl in H.
    + destruct H as [[= -> _] | H]; [contradiction | now right].
    + destruct H as [H | H]; [now left | right; auto].
Qed.

Lemma in_dict_update_absent (d2 d : dict) (k : string) (v : json) :
  dict_get d2 k = None -> In (k, v) (dict_update d d2) -> In (k, v) d.
Proof.
  unfold dict_update. revert d.
  induction d2 as [|[k2 v2] d2 IH]; intros d Habs Hin; simpl in *; auto.
  destruct (String.eqb_spec k2 k) as [->|Hk]; [discriminate|].
  apply IH in Hin; [|assumption].
  apply (in_dict_set_other _ _ _ _ _ Hin). congruence.
Qed.

Lemma stack_config_name_default (idx : nat) (stack_def : dict) :
  dict_get stack_def "name" = None ->
  dict_get (TerraformStack.get_config (new_stack_def idx stack_def)) "name"
  = Some JNull.
Proof.
  intros Habs. unfold TerraformStack.get_config. apply dict_get_update_all.
  - intros v' Hin. unfold new_stack_def in Hin.
    apply in_dict_set_other in Hin; [|discriminate].
    apply in_dict_update_absent in Hin; [|assumption].
    simpl in Hin. destruct Hin as [[= <-] | [[= ] | []]]. reflexivity.
  - unfold new_stack_def. rewrite dict_get_set_other by discriminate.
    rewrite dict_get_update_absent by assumption. discriminate.
Qed.

(** X11.  A stack definition without a [name] gives a stack whose name is
    [None]: its expansion raises a [TypeError] when the name is compiled,
    before the backend is asked anything. *)
Theorem stack_without_name_raises :
  forall (env : Env) (stack_def : dict) (idx : nat) (bs : backends)
         (stack : TerraformStack.t) (s : state),
    dict_get stack_def "name" = None ->
    TerraformStack.__init__ (new_stack_def idx stack_def) bs = Ok stack ->
    TerraformStack.expand_conf env stack s
    = (Err (TypeError "first argument must be string or compiled pattern"), s).
Proof.
  intros env stack_def idx bs stack s Habs Hinit.
  rewrite stack_init_backend in Hinit.
  destruct (backends_getitem bs (stack_backend_name stack_def)) as [b|e];
    [|discriminate].
  injection Hinit as <-.
  unfold TerraformStack.expand_conf, TerraformStack._expand_paths, dict_getitem.
  simpl TerraformStack.config.
  now rewrite (stack_config_name_default idx stack_def Habs).
Qed.

Lemma stack_without_name_raises_witness :
  fst (TerraformPlugin.get_hosts site_env [[("backend", JStr "consul1")]]
         site_backends_conf empty_state)
  = Err (TypeError "first argument must be string or compiled pattern").
Proof.
  unfold TerraformPlugin.get_hosts, TerraformPlugin.expand_stacks.
  rewrite (bind_ok _ _ _ _ _
             (eq_refl : TerraformPlugin.parse_config site_env
                          [[("backend", JStr "consul1")]] site_backends_conf
                          empty_state
                        = (Ok [{| TerraformStack.config :=
                                    TerraformStack.get_config
                                      (new_stack_def 0 [("backend", JStr "consul1")]);
                                  TerraformStack.backend := BackendConsul site_consul |}],
                           _))).
  simpl TerraformPlugin.stacks_loop. unfold display_vvv. rewrite bind_emit.
  rewrite (bind_err _ _ _ _ _
             (stack_without_name_raises site_env [("backend", JStr "consul1")] 0
                [("consul1", BackendConsul site_consul)] _ _ eq_refl eq_refl)).
  reflexivity.
Defined.

(** X12.  A stack bound to a backend of type [local] never expands: what the
    backend map holds for it is the string ['LOCAL'], so the expansion
    raises without a request, and with a name that compiles the exception
    is the [AttributeError] of [get_stacks]. *)
Theorem local_backend_raises :
  forall (env : Env) (self : TerraformStack.t) (s : state),
    TerraformStack.backend self = BackendLocal ->
    exists e,
      TerraformStack.expand_conf env self s = (Err e, s) /\
      (forall p r, dict_get (TerraformStack.config self) "name" = Some (JStr p) ->
                   re_compile env p = Some r ->
                   e = AttributeError "get_stacks").
Proof.
  intros env self s Hb.
  unfold TerraformStack.expand_conf, TerraformStack._expand_paths, dict_getitem.
  rewrite Hb.
  destruct (dict_get (TerraformStack.config self) "name") as [name|].
  - rewrite (bind_assoc (lift (Ok name))). rewrite (bind_lift_ok _ _ _ name eq_refl).
    unfold TerraformStack.compile.
    destruct name as [| | |p| |];
      try (eexists; split; [reflexivity | intros ? ? [=]]).
    destruct (re_compile env p) as [r|] eqn:Hre.
    + eexists. split; [reflexivity|]. reflexivity.
    + eexists. split; [reflexivity|]. intros p' r' [= <-] Hr. congruence.
  - eexists. split; [reflexivity|]. discriminate.
Qed.

Lemma local_backend_raises_witness :
  fst (TerraformPlugin.get_hosts site_env
         [[("name", JStr "prod-"); ("backend", JStr "files")]]
         [("files", [("type", JStr "local")])] empty_state)
  = Err (AttributeError "get_stacks").
Proof.
  destruct (local_backend_raises site_env
              {| TerraformStack.config :=
                   TerraformStack.get_config
                     (new_stack_def 0 [("name", JStr "prod-");
                                       ("backend", JStr "files")]);
                 TerraformStack.backend := BackendLocal |}
              (logged (Display 3 (ParsingStack (JNum 0))) empty_state) eq_refl)
    as [e [Hrun He]].
  rewrite (He "prod-" _ eq_refl eq_refl) in Hrun.
  unfold TerraformPlugin.get_hosts, TerraformPlugin.expand_stacks.
  rewrite (bind_ok _ _ _ _ _
             (eq_refl : TerraformPlugin.parse_config site_env
                          [[("name", JStr "prod-"); ("backend", JStr "files")]]
                          [("files", [("type", JStr "local")])] empty_state
                        = (Ok [_], empty_state))).
  simpl TerraformPlugin.stacks_loop. unfold display_vvv. rewrite bind_emit.
  rewrite (bind_err _ _ _ _ _ Hrun). reflexivity.
Defined.

(** ** Edge cases of the expansion *)

Lemma expand_paths_filter (env : Env) (self : TerraformStack.t) (p : string)
  (r : string -> bool) (ids : list string) (s s' : state) :
  dict_get (TerraformStack.config self) "name" = Some (JStr p) ->
  re_compile env p = Some r ->
  backend_get_stacks env (TerraformStack.backend self) s
  = (Ok (JList (map JStr ids)), s') ->
  TerraformStack._expand_paths env self s = (Ok (map JStr (filter r ids)), s').
Proof.
  intros Hname Hre Hget.
  unfold TerraformStack._expand_paths, dict_getitem. rewrite Hname.
  rewrite (bind_lift_ok _ _ _ (JStr p)) by reflexivity.
  unfold TerraformStack.compile. rewrite Hre.
  rewrite (bind_lift_ok _ _ _ r) by reflexivity.
  rewrite (bind_ok _ _ _ _ _ Hget). simpl py_iter.
  rewrite (bind_lift_ok _ _ _ (map JStr ids)) by reflexivity.
  unfold lift. now rewrite filter_match_strs.
Qed.

(** X13.  A stack whose name matches no identifier of the listing expands to the
    empty host map: no resources are fetched and the driver is not looked
    up, so this holds whatever driver the stack or the backend names. *)
Theorem no_match_gives_no_hosts :
  forall (env : Env) (self : TerraformStack.t) (p : string)
         (r : string -> bool) (ids : list string) (s s' : state),
    dict_get (TerraformStack.config self) "name" = Some (JStr p) ->
    re_compile env p = Some r ->
    backend_get_stacks env (TerraformStack.backend self) s
    = (Ok (JList (map JStr ids)), s') ->
    forallb (fun id => negb (r id)) ids = true ->
    TerraformStack.expand_conf env self s = (Ok [], s').
Proof.
  intros env self p r ids s s' Hname Hre Hget Hnone.
  unfold TerraformStack.expand_conf.
  rewrite (bind_ok _ _ _ _ _ (expand_paths_filter _ _ _ _ _ _ _ Hname Hre Hget)).
  assert (Hf : filter r ids = []).
  { clear Hget. induction ids as [|x ids IH]; simpl in *; [reflexivity|].
    apply andb_true_iff in Hnone as [Hx Hr]. apply negb_true_iff in Hx.
    rewrite Hx. auto. }
  rewrite Hf. reflexivity.
Qed.

Lemma no_match_gives_no_hosts_witness :
  fst (TerraformStack.expand_conf site_env (site_stack "qa-" (JStr "docker"))
         empty_state) = Ok [].
Proof.
  destruct (backend_get_stacks site_env
              (TerraformStack.backend (site_stack "qa-" (JStr "docker")))
              empty_state) as [r s'] eqn:Hget.
  assert (Hr : r = Ok (JList (map JStr ["prod-web"; "prod-db"; "staging-web"])))
    by (vm_compute in Hget; now inversion Hget).
  subst r.
  rewrite (no_match_gives_no_hosts site_env (site_stack "qa-" (JStr "docker"))
             "qa-" (match_items [(AChr "q"%char, QOne); (AChr "a"%char, QOne);
                                 (AChr "-"%char, QOne)])
             _ _ _ eq_refl eq_refl Hget eq_refl).
  reflexivity.
Defined.

Lemma consul_config_driver_absent (backend_def : dict) :
  dict_get backend_def "driver" = None ->
  dict_get (consul_config backend_def) "driver" = None.
Proof.
  intros Habs. unfold consul_config, TerraformBackend.get_config.
  rewrite dict_get_update_absent.
  - reflexivity.
  - now rewrite dict_get_update_absent.
Qed.

(** X14.  A Consul backend whose definition has no [driver] entry has none in
    its configuration either: the defaults of the Consul backend do not
    provide one.  A stack on such a backend raises [KeyError] for
    ['driver'] as soon as the resources of its first identifier are
    fetched, whatever driver the stack itself names. *)
Theorem consul_backend_without_driver_raises :
  forall (env : Env) (self : TerraformStack.t) (b : TerraformConsul.t)
         (backend_def : dict) (path res : json) (rest : list json)
         (s s1 s2 : state),
    TerraformStack.backend self = BackendConsul b ->
    TerraformConsul.config b = consul_config backend_def ->
    dict_get backend_def "driver" = None ->
    TerraformStack._expand_paths env self s = (Ok (path :: rest), s1) ->
    backend_get_resources env (TerraformStack.backend self) path s1 = (Ok res, s2) ->
    TerraformStack.expand_conf env self s = (Err (KeyError (JStr "driver")), s2).
Proof.
  intros env self b backend_def path res rest s s1 s2 Hb Hcfg Habs Hpaths Hres.
  unfold TerraformStack.expand_conf. rewrite (bind_ok _ _ _ _ _ Hpaths). simpl.
  rewrite (bind_ok _ _ _ _ _ Hres).
  apply bind_lift_err. rewrite Hb. simpl. unfold dict_getitem.
  now rewrite Hcfg, (consul_config_driver_absent _ Habs).
Qed.

Lemma consul_backend_without_driver_raises_witness :
  fst (TerraformPlugin.get_hosts site_env
         [site_stack_def "prod-web" (JStr "ansible_host")]
         [("consul1", [("type", JStr "consul"); ("prefix", JStr "/infra/")])]
         empty_state)
  = Err (KeyError (JStr "driver")).
Proof.
  set (b := {| TerraformConsul.name := "consul1";
               TerraformConsul.base :=
                 dict_update TerraformPlugin.default_backend_conf
                   [("type", JStr "consul"); ("prefix", JStr "/infra/")];
               TerraformConsul.config :=
                 consul_config [("type", JStr "consul"); ("prefix", JStr "/infra/")] |}).
  set (stack := {| TerraformStack.config :=
                     TerraformStack.get_config
                       (new_stack_def 0 (site_stack_def "prod-web" (JStr "ansible_host")));
                   TerraformStack.backend := BackendConsul b |}).
  unfold TerraformPlugin.get_hosts, TerraformPlugin.expand_stacks.
  rewrite (bind_ok _ _ _ _ _
             (eq_refl : TerraformPlugin.parse_config site_env
                          [site_stack_def "prod-web" (JStr "ansible_host")]
                          [("consul1", [("type", JStr "consul");
                                        ("prefix", JStr "/infra/")])] empty_state
                        = (Ok [stack], _))).
  simpl TerraformPlugin.stacks_loop. unfold display_vvv. rewrite bind_emit.
  erewrite (bind_err _ _ _ _ _).
  - reflexivity.
  - eapply (consul_backend_without_driver_raises site_env stack b
              [("type", JStr "consul"); ("prefix", JStr "/infra/")]
              (JStr "prod-web") _ []).
    + reflexivity.
    + reflexivity.
    + reflexivity.
    + lazy. reflexivity.
    + lazy. reflexivity.
Defined.

Lemma lookup_driver_registered (env : Env) (driver_name : json) :
  registered driver_name = true ->
  exists cls, TerraformStack.lookup_driver env driver_name = Ok cls.
Proof.
  unfold registered, TerraformStack.lookup_driver.
  destruct driver_name as [| | |n| |]; try discriminate.
  intros H. destruct (find _ _) as [p|] eqn:Hf; [eauto|].
  apply existsb_exists in H as [x [Hin Hx]].
  now rewrite (find_none _ _ Hf x Hin) in Hx.
Qed.

(** X15.  When [get_resources] returns [None] for an identifier (no entry of its
    payload has a value) the stack does not expand to zero hosts: the
    driver object is built on [None] and its filter raises a
    [TypeError]. *)
Theorem missing_state_raises_type_error :
  forall (env : Env) (self : TerraformStack.t) (path : json) (rest : list json)
         (stack_type backend_type : json) (s s1 s2 : state),
    TerraformStack._expand_paths env self s = (Ok (path :: rest), s1) ->
    backend_get_resources env (TerraformStack.backend self) path s1
    = (Ok JNull, s2) ->
    backend_config_getitem (TerraformStack.backend self) "driver" = Ok backend_type ->
    dict_getitem (TerraformStack.config self) "driver" = Ok stack_type ->
    registered (TerraformStack.driver_name_of stack_type backend_type) = true ->
    TerraformStack.expand_conf env self s
    = (Err (TypeError "object is not iterable"), s2).
Proof.
  intros env self path rest stack_type backend_type s s1 s2
    Hpaths Hres Hbt Hst Hreg.
  destruct (lookup_driver_registered env _ Hreg) as [cls Hcls].
  unfold TerraformStack.expand_conf. rewrite (bind_ok _ _ _ _ _ Hpaths). simpl.
  rewrite (bind_ok _ _ _ _ _ Hres).
  rewrite (bind_lift_ok _ _ _ _ Hbt), (bind_lift_ok _ _ _ _ Hst).
  rewrite (bind_lift_ok _ _ _ _ Hcls).
  reflexivity.
Qed.

Lemma missing_state_raises_type_error_witness :
  fst (TerraformStack.expand_conf site_env (site_stack "staging" JNull) empty_state)
  = Err (TypeError "object is not iterable").
Proof.
  erewrite (missing_state_raises_type_error site_env (site_stack "staging" JNull)
              (JStr "staging-web") [] JNull (JStr "ansible_host")).
  - reflexivity.
  - lazy. reflexivity.
  - lazy. reflexivity.
  - reflexivity.
  - reflexivity.
  - reflexivity.
Defined.

(** ** The drivers *)

Lemma LibvirtDomain_loop_ok (self : Driver.t) (hosts_ : list json)
  (acc ret_ : hosts) (s s' : state) :
  LibvirtDomain.loop self hosts_ acc s = (Ok ret_, s') ->
  ret_ = acc /\ s' = s /\ with_attributes hosts_ = [].
Proof.
  revert s. induction hosts_ as [|host_res r IH]; intros s; simpl.
  - intros [= <- <-]. auto.
  - intros H. step_ok H. rename a into attr, Ha into Hattr. rewrite Hattr.
    destruct (truthy attr); simpl in H.
    + unfold print, bind, emit, raise in H. discriminate.
    + now apply IH.
Qed.

(** X16.  The [libvirt_domain] driver never returns a host: when it returns at
    all, no instance had attributes, the host map is empty and nothing was
    written. *)
Theorem libvirt_driver_returns_no_host :
  forall (self : Driver.t) (hosts_ : list json) (ret_ : hosts) (s s' : state),
    LibvirtDomain.loop_over_hosts self hosts_ s = (Ok ret_, s') ->
    ret_ = [] /\ s' = s /\ with_attributes hosts_ = [].
Proof.
  intros self hosts_ ret_ s s' H. exact (LibvirtDomain_loop_ok _ _ _ _ _ _ H).
Qed.

Lemma libvirt_driver_returns_no_host_witness :
  exists ret_ s',
    LibvirtDomain.loop_over_hosts
      {| Driver.cls := DrvLibvirtDomain; Driver.all_data := JList [];
         Driver.data := [] |}
      [JDict [("schema_version", JNum 0)]] empty_state = (Ok ret_, s') /\
    ret_ = [] /\ s' = empty_state.
Proof.
  eexists. eexists. split; [reflexivity|].
  destruct (libvirt_driver_returns_no_host
              {| Driver.cls := DrvLibvirtDomain; Driver.all_data := JList [];
                 Driver.data := [] |}
              [JDict [("schema_version", JNum 0)]] [] empty_state empty_state
              eq_refl) as (H1 & H2 & _).
  split; [exact H1 | exact H2].
Defined.

Lemma unique_keys_app_mem (acc r : hosts) (k v : json) :
  unique_keys (acc ++ (k, v) :: r) = true -> hosts_mem acc k = false.
Proof.
  induction acc as [|[a va] acc IH]; simpl; [reflexivity|].
  intros H. apply andb_true_iff in H as [Ha Hu].
  apply negb_true_iff in Ha. rewrite hosts_mem_app in Ha.
  apply orb_false_iff in Ha as [_ Ha].
  unfold hosts_mem in Ha |- *. simpl in Ha |- *.
  rewrite key_eqb_sym. destruct (key_eqb k a); [discriminate|].
  exact (IH Hu).
Qed.

Lemma AnsibleHost_loop_distinct (hosts_ : list json) (recs acc : hosts)
  (s : state) :
  Forall2 instance_record hosts_ recs ->
  unique_keys (acc ++ recs) = true ->
  AnsibleHost.loop hosts_ acc s = (Ok (acc ++ recs), s).
Proof.
  intros H. revert acc.
  induction H as [|inst [k attr] hosts_ recs (Ha & Ht & Hk & Hh) _ IH];
    intros acc Hu; simpl.
  - now rewrite app_nil_r.
  - simpl in Ha, Ht, Hk, Hh.
    rewrite (bind_lift_ok _ _ _ _ Ha), Ht. simpl.
    rewrite (bind_lift_ok _ _ _ _ Hk).
    unfold hosts_contains. rewrite Hh.
    rewrite (bind_lift_ok _ _ _ _ eq_refl).
    rewrite (unique_keys_app_mem _ _ _ _ Hu).
    rewrite hosts_set_absent by exact (unique_keys_app_mem _ _ _ _ Hu).
    replace (acc ++ (k, attr) :: recs) with ((acc ++ [(k, attr)]) ++ recs)
      by now rewrite <- app_assoc.
    apply IH. now rewrite <- app_assoc.
Qed.

(** X17.  Instances that all have attributes and pairwise different hostnames
    give one host each, in the order of the instances: the host map holds
    every hostname with the attributes of its instance, and no message is
    displayed. *)
Theorem distinct_instances_give_one_host_each :
  forall (hosts_ : list json) (recs : hosts) (s : state),
    Forall2 instance_record hosts_ recs ->
    unique_keys recs = true ->
    AnsibleHost.loop_over_hosts hosts_ s = (Ok recs, s).
Proof.
  intros hosts_ recs s H Hu.
  exact (AnsibleHost_loop_distinct hosts_ recs [] s H Hu).
Qed.

Lemma distinct_instances_give_one_host_each_witness :
  AnsibleHost.loop_over_hosts [host_instance "node1"; host_instance "node2"]
    empty_state
  = (Ok [(JStr "node1",
          JDict [("inventory_hostname", JStr "node1"); ("vars", JDict []);
                 ("groups", JList [])]);
         (JStr "node2",
          JDict [("inventory_hostname", JStr "node2"); ("vars", JDict []);
                 ("groups", JList [])])],
     empty_state).
Proof.
  apply distinct_instances_give_one_host_each.
  - repeat constructor.
  - reflexivity.
Defined.

Lemma filter_loop_has_type (l : list json) (types : list string) (res : list json) :
  Driver.filter_loop l types = Ok res ->
  res = filter (has_type types) l /\ forallb is_dict l = true.
Proof.
  revert res. induction l as [|i l IH]; intros res; simpl.
  - intros [= <-]. auto.
  - unfold has_type. destruct i as [| | | | |d]; try discriminate. simpl.
    destruct (Driver.filter_loop l types) as [rest|e]; [|discriminate]. simpl.
    intros [= <-]. destruct (IH _ eq_refl) as [-> Hd]. split; [|exact Hd].
    now destruct (in_strs _ types).
Qed.

(** X18.  A driver object built on a list of resources keeps exactly the
    resources whose type the driver declares, in their order; it is only
    built when every resource is a mapping. *)
Theorem driver_keeps_declared_types :
  forall (c : driver_cls) (l : list json) (drv : Driver.t) (s s' : state),
    Driver.__init__ c (JList l) s = (Ok drv, s') ->
    Driver.data drv = filter (has_type (Driver.types c)) l /\
    Driver.all_data drv = JList l /\
    forallb is_dict l = true.
Proof.
  intros c l drv s s' H. unfold Driver.__init__ in H.
  step_ok H. rename a into res, Ha into Hres.
  step_ok H. step_ok H. step_ok H. simpl.
  unfold Driver.filter_provider_type in Hres. simpl in Hres.
  destruct (filter_loop_has_type _ _ _ Hres) as [-> Hd]. auto.
Qed.

Lemma driver_keeps_declared_types_witness :
  exists drv s',
    Driver.__init__ DrvAnsibleHost
      (JList [JDict [("type", JStr "libvirt_domain"); ("instances", JList [])];
              JDict [("type", JStr "ansible_host"); ("instances", JList [])]])
      empty_state = (Ok drv, s') /\
    Driver.data drv
    = [JDict [("type", JStr "ansible_host"); ("instances", JList [])]].
Proof.
  destruct (Driver.__init__ DrvAnsibleHost
              (JList [JDict [("type", JStr "libvirt_domain"); ("instances", JList [])];
                      JDict [("type", JStr "ansible_host"); ("instances", JList [])]])
              empty_state) as [r s'] eqn:H.
  destruct r as [drv|e]; [|vm_compute in H; discriminate].
  exists drv, s'. split; [reflexivity|].
  rewrite (proj1 (driver_keeps_declared_types _ _ _ _ _ H)). reflexivity.
Defined.

(** ** The injection of the stack context *)

(** X19.  [expand_conf] can annotate a host exactly when its attributes are a
    mapping whose [vars] entry is a mapping. *)
Theorem inject_succeeds_iff :
  forall path driver_name host_def : json,
    (exists def, TerraformStack.inject path driver_name host_def = Ok def)
    <-> exists d vars, host_def = JDict d /\ dict_get d "vars" = Some (JDict vars).
Proof.
  intros path driver_name host_def. unfold TerraformStack.inject, dict_getitem.
  split.
  - intros [def H]. destruct host_def as [| | | | |d]; try discriminate.
    rewrite dict_get_set_other in H by discriminate.
    destruct (dict_get d "vars") as [[| | | | |vars]|] eqn:Hv; try discriminate.
    now exists d, vars.
  - intros (d & vars & -> & Hv).
    rewrite dict_get_set_other by discriminate. rewrite Hv. simpl. eauto.
Qed.

(** X20.  The annotation changes nothing else: every attribute of the host other
    than [terraform] and [vars] keeps its value, and so does every variable
    other than [terraform_stack] and [terraform_driver]. *)
Theorem inject_keeps_other_entries :
  forall (path driver_name : json) (d : dict) (def : json),
    TerraformStack.inject path driver_name (JDict d) = Ok def ->
    exists d' vars vars',
      def = JDict d' /\
      dict_get d "vars" = Some (JDict vars) /\
      dict_get d' "vars" = Some (JDict vars') /\
      (forall k, k <> "terraform" -> k <> "vars" -> dict_get d' k = dict_get d k) /\
      (forall k, k <> "terraform_stack" -> k <> "terraform_driver" ->
                 dict_get vars' k = dict_get vars k).
Proof.
  intros path driver_name d def. unfold TerraformStack.inject, dict_getitem.
  rewrite dict_get_set_other by discriminate.
  destruct (dict_get d "vars") as [[| | | | |vars]|] eqn:Hv; try discriminate.
  simpl. intros [= <-]. eexists. exists vars. eexists.
  split; [reflexivity|]. split; [reflexivity|].
  split; [apply dict_get_set_same|]. split.
  - intros k Ht Hk. rewrite !dict_get_set_other by congruence. reflexivity.
  - intros k Hs Hd. unfold dict_update. simpl.
    rewrite !dict_get_set_other by congruence. reflexivity.
Qed.

Lemma inject_keeps_other_entries_witness :
  exists d',
    TerraformStack.inject (JStr "prod-web") (JStr "ansible_host")
      (JDict [("inventory_hostname", JStr "node1");
              ("vars", JDict [("role", JStr "web")]);
              ("groups", JList [JStr "front"])])
    = Ok (JDict d') /\
    dict_get d' "groups" = Some (JList [JStr "front"]) /\
    exists vars', dict_get d' "vars" = Some (JDict vars') /\
                  dict_get vars' "role" = Some (JStr "web").
Proof.
  destruct (inject_keeps_other_entries (JStr "prod-web") (JStr "ansible_host")
              [("inventory_hostname", JStr "node1");
               ("vars", JDict [("role", JStr "web")]);
               ("groups", JList [JStr "front"])] _ eq_refl)
    as (d' & vars & vars' & Hdef & Hv & Hv' & Hk & Hvk).
  injection Hdef as <-. injection Hv as <-.
  eexists. split; [reflexivity|]. split.
  - rewrite Hk by discriminate. reflexivity.
  - exists vars'. split; [exact Hv'|]. rewrite Hvk by discriminate. reflexivity.
Defined.

(** ** The inventory module *)

Lemma endswith_nil (suffix : string) : endswith "" suffix = ("" =? suffix).
Proof. unfold endswith. apply orb_false_r. Qed.

Lemma endswith_cons (c : ascii) (r suffix : string) :
  endswith (String c r) suffix = (String c r =? suffix) || endswith r suffix.
Proof. reflexivity. Qed.

Lemma endswith_spec (s suffix : string) :
  endswith s suffix = true <-> exists p, s = p +++ suffix.
Proof.
  split.
  - induction s as [|c r IH].
    + rewrite endswith_nil. intros H. apply String.eqb_eq in H. now exists "".
    + rewrite endswith_cons. intros H. apply orb_true_iff in H as [H|H].
      * apply String.eqb_eq in H. now exists "".
      * destruct (IH H) as [p ->]. now exists (String c p).
  - intros [p ->]. induction p as [|c p IH].
    + simpl append. destruct suffix.
      * reflexivity.
      * rewrite endswith_cons, String.eqb_refl. reflexivity.
    + simpl append. rewrite endswith_cons, IH. apply orb_true_r.
Qed.

(** X21.  [verify_file] accepts a path exactly when the base class accepts it
    and it ends in [tfstate.yaml], [tfstate.yml], [terraform.yaml] or
    [terraform.yml]. *)
Theorem verify_file_accepts :
  forall (super_verify_file : bool) (path : string),
    InventoryModule.verify_file super_verify_file path = true
    <-> super_verify_file = true /\
        exists p suffix, In suffix inventory_suffixes /\ path = p +++ suffix.
Proof.
  intros sup path. unfold InventoryModule.verify_file, inventory_suffixes.
  destruct sup; [|split; [discriminate | intros [[=] _]]].
  split.
  - intros H. split; [reflexivity|].
    destruct (endswith path "terraform.yaml") eqn:E1;
      [apply endswith_spec in E1 as [p ->]; exists p; eexists; simpl; eauto 6|].
    destruct (endswith path "terraform.yml") eqn:E2;
      [apply endswith_spec in E2 as [p ->]; exists p; eexists; simpl; eauto 6|].
    simpl in H.
    destruct (endswith path "tfstate.yaml") eqn:E3;
      [apply endswith_spec in E3 as [p ->]; exists p; eexists; simpl; eauto 6|].
    destruct (endswith path "tfstate.yml") eqn:E4;
      [apply endswith_spec in E4 as [p ->]; exists p; eexists; simpl; eauto 6|].
    discriminate.
  - intros [_ (p & suffix & Hin & ->)].
    assert (He : endswith (p +++ suffix) suffix = true)
      by (apply endswith_spec; eauto).
    simpl in Hin.
    destruct Hin as [<- | [<- | [<- | [<- | []]]]]; rewrite He; simpl;
      try reflexivity;
      repeat match goal with
        | |- context [endswith ?a ?b] => destruct (endswith a b)
        end; reflexivity.
Qed.

Lemma added_hosts_app (a b : list inventory_call) :
  added_hosts (a ++ b) = added_hosts a ++ added_hosts b.
Proof.
  induction a as [|c a IH]; simpl; [reflexivity|].
  destruct c; simpl; now rewrite IH.
Qed.

Lemma adds_no_host_ret {A} (a : A) : adds_no_host (retW a).
Proof. reflexivity. Qed.

Lemma adds_no_host_lift {A} (r : result A) : adds_no_host (liftW r).
Proof. reflexivity. Qed.

Lemma adds_no_host_call (c : inventory_call) :
  added_hosts [c] = [] -> adds_no_host (call c).
Proof. intros H. exact H. Qed.

Lemma adds_no_host_bind {A B} (m : W A) (f : A -> W B) :
  adds_no_host m -> (forall a, adds_no_host (f a)) -> adds_no_host (bindW m f).
Proof.
  unfold adds_no_host, bindW. destruct m as [calls [a|e]]; simpl; intros Hm Hf.
  - specialize (Hf a). destruct (f a) as [calls' r]. simpl in *.
    now rewrite added_hosts_app, Hm, Hf.
  - exact Hm.
Qed.

Create HintDb inventory.
#[export] Hint Resolve adds_no_host_ret adds_no_host_lift : inventory.

(** Go through a computation on the inventory bind by bind. *)
Ltac no_host :=
  repeat first
    [ progress auto with inventory
    | apply adds_no_host_call; reflexivity
    | apply adds_no_host_bind; [|intros]
    | match goal with
      | |- adds_no_host (if ?b then _ else _) => destruct b
      | |- adds_no_host (match ?x with _ => _ end) => destruct x
      end ].

Lemma set_variables_run (host_name : json) (vars : dict) :
  InventoryModule.set_variables host_name vars
  = (map (fun kv => SetVariable host_name (fst kv) (snd kv)) vars, Ok tt).
Proof.
  induction vars as [|[var val] r IH]; simpl; [reflexivity|].
  now rewrite IH.
Qed.

Lemma adds_no_host_set_variables (host_name : json) (vars : dict) :
  adds_no_host (InventoryModule.set_variables host_name vars).
Proof.
  induction vars as [|[var val] r IH]; cbn [InventoryModule.set_variables];
    no_host.
Qed.

Lemma adds_no_host_custom_groups (host_name : json) (groups : list json) :
  adds_no_host (InventoryModule.add_to_custom_groups host_name groups).
Proof.
  induction groups as [|g r IH]; cbn [InventoryModule.add_to_custom_groups];
    no_host.
Qed.

Lemma adds_no_host_plugin_groups (opts : InventoryModule.options)
  (host_name host_def : json) :
  adds_no_host (InventoryModule.add_to_plugin_groups opts host_name host_def).
Proof. unfold InventoryModule.add_to_plugin_groups. no_host. Qed.
#[export] Hint Resolve adds_no_host_set_variables adds_no_host_custom_groups
  adds_no_host_plugin_groups : inventory.

Lemma bindW_ret {A B} (a : A) (k : A -> W B) : bindW (retW a) k = k a.
Proof. unfold bindW, retW. now destruct (k a). Qed.

Lemma bindW_lift_ok {A B} (a : A) (k : A -> W B) : bindW (liftW (Ok a)) k = k a.
Proof. unfold bindW, liftW. now destruct (k a). Qed.

Lemma bindW_call_added {B} (h : json) (k : unit -> W B) :
  adds_no_host (k tt) -> added_hosts (fst (bindW (call (AddHost h)) k)) = [h].
Proof.
  unfold adds_no_host, bindW, call. destruct (k tt) as [calls r]. simpl.
  now intros ->.
Qed.

(** What [parse_host] adds: the host under its inventory name, unless the
    renaming raises before any call is made. *)
Lemma parse_host_added (opts : InventoryModule.options) (host_name host_def : json) :
  (added_hosts (fst (InventoryModule.parse_host opts host_name host_def))
   = [inventory_name opts host_name] /\
   (truthy (InventoryModule.strict opts) = true -> is_str host_name = true))
  \/ (fst (InventoryModule.parse_host opts host_name host_def) = [] /\
      exists e, snd (InventoryModule.parse_host opts host_name host_def) = Err e).
Proof.
  unfold InventoryModule.parse_host, inventory_name.
  destruct (truthy (InventoryModule.strict opts)).
  - destruct host_name as [| | |n| |];
      try (right; split; [reflexivity | eexists; reflexivity]).
    left. split; [|reflexivity].
    unfold str_replace. rewrite bindW_lift_ok, bindW_ret.
    apply bindW_call_added. no_host.
  - left. split; [|discriminate].
    rewrite bindW_ret. apply bindW_call_added. no_host.
Qed.

Lemma replace_char_removes (old new : ascii) (s : string) :
  old <> new -> char_in old (replace_char old new s) = false.
Proof.
  intros Hne. induction s as [|c s IH]; simpl; [reflexivity|].
  rewrite IH, orb_false_r.
  destruct (Ascii.eqb_spec c old) as [->|Hc].
  - now apply Ascii.eqb_neq.
  - now apply Ascii.eqb_neq.
Qed.

Lemma replace_char_keeps_absent (c old new : ascii) (s : string) :
  c <> new -> char_in c s = false -> char_in c (replace_char old new s) = false.
Proof.
  intros Hne. induction s as [|x s IH]; simpl; [reflexivity|].
  intros H. apply orb_false_iff in H as [Hx Hs]. rewrite (IH Hs), orb_false_r.
  destruct (Ascii.eqb x old); [|exact Hx].
  apply Ascii.eqb_neq. congruence.
Qed.

Lemma replace_char_length (old new : ascii) (s : string) :
  String.length (replace_char old new s) = String.length s.
Proof. induction s as [|c s IH]; simpl; congruence. Qed.

Lemma hosts_loop_added (opts : InventoryModule.options) (terraform_hosts : hosts) :
  (exists rest,
      map (fun kv => inventory_name opts (fst kv)) terraform_hosts
      = added_hosts (fst (InventoryModule.hosts_loop opts terraform_hosts)) ++ rest /\
      (forall u, snd (InventoryModule.hosts_loop opts terraform_hosts) = Ok u ->
                 rest = [])) /\
  (truthy (InventoryModule.strict opts) = true ->
   Forall strict_name
     (added_hosts (fst (InventoryModule.hosts_loop opts terraform_hosts)))).
Proof.
  induction terraform_hosts as [|[k def] r [[rest [Hmap Hok]] Hstrict]];
    cbn [InventoryModule.hosts_loop map fst].
  - split; [exists []; auto | constructor].
  - pose proof (parse_host_added opts k def) as Hadd.
    unfold bindW at 1.
    destruct (InventoryModule.parse_host opts k def) as [c1 [[]|e]]; simpl in Hadd.
    + destruct Hadd as [[Hc1 Hstr] | [_ [e [=]]]].
      destruct (InventoryModule.hosts_loop opts r) as [c2 r2]. simpl in *.
      rewrite added_hosts_app, Hc1. simpl. split.
      * exists rest. split; [now rewrite Hmap | exact Hok].
      * intros Hs. constructor; [|auto].
        unfold inventory_name. rewrite Hs. specialize (Hstr Hs).
        destruct k; try discriminate. eexists. split; [reflexivity|].
        apply replace_char_removes. discriminate.
    + simpl. destruct Hadd as [[Hc1 Hstr] | [-> _]].
      * rewrite Hc1. split.
        -- eexists. split; [reflexivity | discriminate].
        -- intros Hs. constructor; [|constructor].
           unfold inventory_name. rewrite Hs. specialize (Hstr Hs).
           destruct k; try discriminate. eexists. split; [reflexivity|].
           apply replace_char_removes. discriminate.
      * split; [|constructor]. eexists. split; [reflexivity | discriminate].
Qed.

Lemma populate_added (opts : InventoryModule.options) (terraform_hosts : hosts) :
  added_hosts (fst (InventoryModule.populate opts terraform_hosts))
  = added_hosts (fst (InventoryModule.hosts_loop opts terraform_hosts)) /\
  snd (InventoryModule.populate opts terraform_hosts)
  = snd (InventoryModule.hosts_loop opts terraform_hosts).
Proof.
  unfold InventoryModule.populate.
  destruct (truthy (InventoryModule.inventory_group opts)).
  - unfold bindW, call.
    now destruct (InventoryModule.hosts_loop opts terraform_hosts).
  - now rewrite bindW_ret.
Qed.


(** X23.  With [strict] set, no host is added under a name that contains an
    underscore, whether [parse] returns or raises. *)
Theorem strict_names_have_no_underscore :
  forall (opts : InventoryModule.options) (terraform_hosts : hosts)
         (calls : list inventory_call) (r : result unit),
    truthy (InventoryModule.strict opts) = true ->
    InventoryModule.populate opts terraform_hosts = (calls, r) ->
    Forall strict_name (added_hosts calls).
Proof.
  intros opts terraform_hosts calls r Hs H.
  destruct (populate_added opts terraform_hosts) as [Hc _].
  rewrite H in Hc. simpl in Hc. rewrite Hc.
  now apply hosts_loop_added.
Qed.


Lemma strict_names_have_no_underscore_witness :
  Forall strict_name
    (added_hosts
       (fst (InventoryModule.populate site_options
               [(JStr "web_1", host_web); (JStr "db_1", host_db)]))).
Proof.
  apply (strict_names_have_no_underscore site_options
           [(JStr "web_1", host_web); (JStr "db_1", host_db)] _
           (snd (InventoryModule.populate site_options
                   [(JStr "web_1", host_web); (JStr "db_1", host_db)]))).
  - reflexivity.
  - vm_compute. reflexivity.
Defined.

Lemma dict_get_in (d : dict) (k : string) (v : json) :
  dict_get d k = Some v -> In (k, v) d.
Proof.
  induction d as [|[k' v'] d IH]; simpl; [discriminate|].
  destruct (String.eqb_spec k' k) as [->|Hk].
  - intros [= ->]. now left.
  - intros H. right. auto.
Qed.

(** X24.  With grouping by stack enabled, when the plugin-group lines get
    through for a host that carries its stack as [expand_conf] writes it,
    the calls they made are these three: the subgroup is created, the
    host is made its child and the subgroup a child of the top-level
    group.  The name of the subgroup is the stack identifier with every
    [/] and [-] replaced by an underscore, so it contains neither. *)
Theorem host_joins_subgroup_of_its_stack :
  forall (opts : InventoryModule.options) (host_name driver_name def : json)
         (stack : string) (calls : list inventory_call),
    tagged (JStr stack) driver_name def ->
    truthy (InventoryModule.inventory_group opts) = true ->
    truthy (InventoryModule.inventory_sub_groups opts) = true ->
    InventoryModule.add_to_plugin_groups opts host_name def = (calls, Ok tt) ->
    calls = [AddGroup (JStr (subgroup_name stack));
             AddChild (JStr (subgroup_name stack)) host_name;
             AddChild (InventoryModule.inventory_group opts)
               (JStr (subgroup_name stack))] /\
    char_in "/" (subgroup_name stack) = false /\
    char_in "-" (subgroup_name stack) = false /\
    String.length (subgroup_name stack) = String.length stack.
Proof.
  intros opts host_name driver_name def stack calls
    (d & vars & -> & Ht & _) Hg Hs H.
  split; [|split; [|split]].
  - unfold InventoryModule.add_to_plugin_groups in H. rewrite Hg, Hs in H.
    unfold py_getitem at 1 in H. unfold dict_getitem in H. rewrite Ht in H.
    rewrite bindW_lift_ok in H. now injection H as <-.
  - unfold subgroup_name. apply replace_char_keeps_absent; [discriminate|].
    apply replace_char_removes. discriminate.
  - unfold subgroup_name. apply replace_char_removes. discriminate.
  - unfold subgroup_name. now rewrite !replace_char_length.
Qed.

Lemma host_joins_subgroup_of_its_stack_witness :
  exists calls,
    InventoryModule.add_to_plugin_groups site_options (JStr "web-1") host_web
    = (calls, Ok tt) /\
    calls = [AddGroup (JStr "prod_web_eu");
             AddChild (JStr "prod_web_eu") (JStr "web-1");
             AddChild (JStr "terraform") (JStr "prod_web_eu")].
Proof.
  destruct (InventoryModule.add_to_plugin_groups site_options (JStr "web-1")
              host_web) as [calls r] eqn:H.
  assert (Hr : r = Ok tt) by (vm_compute in H; now inversion H).
  subst r. exists calls. split; [reflexivity|].
  apply (host_joins_subgroup_of_its_stack site_options (JStr "web-1")
           (JStr "ansible_host") host_web "prod/web-eu" calls).
  - eexists. eexists. repeat split; reflexivity.
  - reflexivity.
  - reflexivity.
  - exact H.
Defined.

Lemma bindW_raises_left {A B} (m : W A) (f : A -> W B) :
  (exists e, snd m = Err e) -> exists e, snd (bindW m f) = Err e.
Proof.
  intros [e He]. destruct m as [calls [a|e']]; simpl in *; [discriminate|].
  now exists e'.
Qed.

Lemma bindW_raises_right {A B} (m : W A) (f : A -> W B) :
  (forall a, exists e, snd (f a) = Err e) -> exists e, snd (bindW m f) = Err e.
Proof.
  intros Hf. destruct m as [calls [a|e']]; simpl; [|now exists e'].
  destruct (Hf a) as [e He]. destruct (f a) as [calls' r]. simpl in *.
  now exists e.
Qed.

Lemma parse_host_unusable_groups (opts : InventoryModule.options)
  (host_name : json) (d : dict) (e : exn) :
  (let! groups := dict_getitem d "groups" in py_iter groups) = Err e ->
  exists e', snd (InventoryModule.parse_host opts host_name (JDict d)) = Err e'.
Proof.
  intros He. unfold InventoryModule.parse_host.
  do 6 (apply bindW_raises_right; intros ?).
  unfold py_getitem.
  destruct (dict_getitem d "groups") as [groups|e0]; simpl in He.
  - rewrite bindW_lift_ok. apply bindW_raises_left. now exists e.
  - apply bindW_raises_left. now exists e0.
Qed.

(** X25.  When the host map holds a host whose definition is a mapping
    whose [groups] entry is missing or cannot be iterated, [parse] does
    not return: filling the inventory ends with an exception, whatever
    the options and the other hosts are. *)
Theorem unusable_groups_stop_parse :
  forall (opts : InventoryModule.options) (terraform_hosts : hosts)
         (host_name : json) (d : dict) (e : exn)
         (calls : list inventory_call) (r : result unit),
    In (host_name, JDict d) terraform_hosts ->
    (let! groups := dict_getitem d "groups" in py_iter groups) = Err e ->
    InventoryModule.populate opts terraform_hosts = (calls, r) ->
    exists e', r = Err e'.
Proof.
  intros opts terraform_hosts host_name d e calls r Hin He H.
  assert (Hloop : exists e', snd (InventoryModule.hosts_loop opts terraform_hosts)
                             = Err e').
  { clear H. induction terraform_hosts as [|[k def] rest IH]; [contradiction|].
    cbn [InventoryModule.hosts_loop]. destruct Hin as [[= -> ->] | Hin].
    - apply bindW_raises_left. now apply (parse_host_unusable_groups _ _ _ e).
    - apply bindW_raises_right. intros _. now apply IH. }
  destruct (populate_added opts terraform_hosts) as [_ Hr].
  rewrite H in Hr. simpl in Hr. now rewrite Hr.
Qed.

Lemma unusable_groups_stop_parse_witness :
  exists calls e',
    InventoryModule.populate site_options
      [(JStr "web_1", host_web); (JStr "db_1", host_db)]
    = (calls, Err e') /\
    added_hosts calls = [JStr "web-1"; JStr "db-1"].
Proof.
  destruct (InventoryModule.populate site_options
              [(JStr "web_1", host_web); (JStr "db_1", host_db)])
    as [calls r] eqn:H.
  destruct (unusable_groups_stop_parse site_options
              [(JStr "web_1", host_web); (JStr "db_1", host_db)]
              (JStr "db_1")
              [("inventory_hostname", JStr "db_1");
               ("vars", JDict [("terraform_stack", JStr "prod/db");
                               ("terraform_driver", JStr "ansible_host")]);
               ("groups", JNull);
               ("terraform", JDict [("stack", JStr "prod/db");
                                    ("driver", JStr "ansible_host")])]
              (TypeError "object is not iterable") calls r
              (or_intror (or_introl eq_refl)) eq_refl H) as [e' ->].
  exists calls, e'. split; [reflexivity|].
  vm_compute in H. now inversion H.
Defined.

Lemma bindW_calls {A B} (calls : list inventory_call) (a : A) (k : A -> W B) :
  bindW (calls, Ok a) k = (calls ++ fst (k a), snd (k a)).
Proof. unfold bindW. now destruct (k a). Qed.

(** X26.  For a host that carries its stack and driver as [expand_conf] writes
    them, a [parse] that gets through the host has set the variables
    [terraform_stack] and [terraform_driver] on it, under the name it was
    added with. *)
Theorem stack_and_driver_become_host_variables :
  forall (opts : InventoryModule.options) (host_name path driver_name def : json)
         (calls : list inventory_call),
    tagged path driver_name def ->
    InventoryModule.parse_host opts host_name def = (calls, Ok tt) ->
    In (AddHost (inventory_name opts host_name)) calls /\
    In (SetVariable (inventory_name opts host_name) "terraform_stack" path) calls /\
    In (SetVariable (inventory_name opts host_name) "terraform_driver" driver_name)
      calls.
Proof.
  intros opts host_name path driver_name def calls
    (d & vars & -> & _ & Hv & Hs & Hd) H.
  unfold InventoryModule.parse_host in H.
  set (h := inventory_name opts host_name).
  assert (Hname : (if truthy (InventoryModule.strict opts)
                   then doW n0 <- liftW (str_replace host_name "_" "-") ;
                        retW (JStr n0)
                   else retW host_name) = retW h).
  { unfold h, inventory_name.
    destruct (truthy (InventoryModule.strict opts)); [|reflexivity].
    destruct host_name as [| | |n| |]; try discriminate.
    unfold str_replace. now rewrite bindW_lift_ok. }
  rewrite Hname, bindW_ret in H.
  unfold py_get, dict_get_default in H. rewrite Hv in H.
  rewrite !bindW_lift_ok, set_variables_run in H.
  unfold call in H. rewrite !bindW_calls in H.
  injection H as <- _.
  split; [now left|]. split; right; apply in_or_app; left.
  - apply (in_map (fun kv => SetVariable h (fst kv) (snd kv))
             vars ("terraform_stack", path)).
    now apply dict_get_in.
  - apply (in_map (fun kv => SetVariable h (fst kv) (snd kv))
             vars ("terraform_driver", driver_name)).
    now apply dict_get_in.
Qed.

Lemma stack_and_driver_become_host_variables_witness :
  exists calls,
    InventoryModule.parse_host site_options (JStr "web_1") host_web
    = (calls, Ok tt) /\
    In (SetVariable (JStr "web-1") "terraform_stack" (JStr "prod/web-eu")) calls.
Proof.
  destruct (InventoryModule.parse_host site_options (JStr "web_1") host_web)
    as [calls r] eqn:H.
  assert (Hr : r = Ok tt) by (vm_compute in H; now inversion H).
  subst r. exists calls. split; [reflexivity|].
  apply (stack_and_driver_become_host_variables site_options (JStr "web_1")
           (JStr "prod/web-eu") (JStr "ansible_host") host_web calls).
  - eexists. eexists. repeat split; reflexivity.
  - exact H.
Defined.

(** X27.  A Consul backend whose definition leaves out [protocol], [host],
    [port] and [version] is queried at [http://127.0.0.1:8600/v1/kv]
    followed by the key. *)
Theorem default_endpoint :
  forall (env : Env) (self : TerraformConsul.t) (backend_def : dict) (key : json),
    TerraformConsul.config self = consul_config backend_def ->
    dict_get backend_def "protocol" = None ->
    dict_get backend_def "host" = None ->
    dict_get backend_def "port" = None ->
    dict_get backend_def "version" = None ->
    TerraformConsul.get_url env self key
    = Ok ("http://127.0.0.1:8600/v1/kv" +++ py_str env key).
Proof.
  intros env self backend_def key Hcfg Hproto Hhost Hport Hversion.
  assert (Hdef : forall k, dict_get backend_def k = None ->
                           dict_get TerraformPlugin.default_backend_conf k = None ->
                           dict_getitem (TerraformConsul.config self) k
                           = dict_getitem (dict_update [] TerraformConsul.default_config) k).
  { intros k Hk Hb. unfold dict_getitem.
    rewrite Hcfg. unfold consul_config, TerraformBackend.get_config.
    rewrite dict_get_update_absent; [reflexivity|].
    now rewrite dict_get_update_absent. }
  unfold TerraformConsul.get_url.
  rewrite (Hdef "protocol"), (Hdef "host"), (Hdef "port"), (Hdef "version")
    by (assumption || reflexivity).
  reflexivity.
Qed.

Lemma default_endpoint_witness :
  TerraformConsul.get_url site_env site_consul (JStr "/infra/prod-web")
  = Ok "http://127.0.0.1:8600/v1/kv/infra/prod-web".
Proof.
  exact (default_endpoint site_env site_consul site_backend_def
           (JStr "/infra/prod-web") eq_refl eq_refl eq_refl eq_refl eq_refl).
Defined.
